(** * crytic-compile: the standard export/import layer and the Dapp and
    Waffle adapters

    A shallow embedding of [crytic_compile/platform/standard.py],
    [crytic_compile/platform/dapp.py] and [crytic_compile/platform/waffle.py].

    Python values that travel through JSON documents are values of [json];
    a [dict] is an association list in insertion order (its keys are
    distinct in every value [json.load] builds).  Python exceptions are the
    constructors of [exn]; a computation that mutates the session object is
    a function from the session to an outcome and the session as the code
    left it, so what an aborted call has already written stays visible. *)

From stdpp Require Import gmap strings list fin_maps.
From Stdlib Require Import ZArith Ascii String.

Set Warnings "-clear-no-such-hyp".

Local Open Scope Z_scope.

(** ** JSON-compatible Python values *)

Local Unset Elimination Schemes.
Inductive json :=
  | JNull
  | JBool (b : bool)
  | JNum (n : Z)
  | JStr (s : string)
  | JArr (l : list json)
  | JObj (kvs : list (string * json)).
Local Set Elimination Schemes.

(** Exceptions the modelled code can raise. [KeyError] carries the key. *)
Inductive exn :=
  | KeyError (k : json)
  | TypeError
  | AttributeError
  | ValueError
  | IndexError
  | JSONDecodeError
  | PathResolutionError.

Definition result (A : Type) : Type := exn + A.

Definition ok {A} (a : A) : result A := inr a.
Definition throw {A} (e : exn) : result A := inl e.

Definition rbind {A B} (r : result A) (k : A -> result B) : result B :=
  match r with
  | inl e => inl e
  | inr a => k a
  end.

Module Py.

(** [d[k]] for a string key on an association list: first binding. *)
Fixpoint assoc (k : string) (kvs : list (string * json)) : option json :=
  match kvs with
  | [] => None
  | (k', v) :: rest => if String.eqb k k' then Some v else assoc k rest
  end.

(** [d[k] = v] on a dict: overwrite in place, else append. *)
Fixpoint dict_set (k : string) (v : json) (kvs : list (string * json))
  : list (string * json) :=
  match kvs with
  | [] => [(k, v)]
  | (k', v') :: rest =>
      if String.eqb k k' then (k, v) :: rest else (k', v') :: dict_set k v rest
  end.

(** Values a [set] or a dict key accepts. *)
Definition hashable (j : json) : bool :=
  match j with
  | JArr _ | JObj _ => false
  | _ => true
  end.

(** [==] on hashable values; [True == 1] and [False == 0] as in Python. *)
Definition py_eq (a b : json) : bool :=
  match a, b with
  | JNull, JNull => true
  | JBool x, JBool y => Bool.eqb x y
  | JBool x, JNum n | JNum n, JBool x => Z.eqb n (if x then 1 else 0)
  | JNum n, JNum m => Z.eqb n m
  | JStr s, JStr t => String.eqb s t
  | _, _ => false
  end.

(** Truth value of [if x:]. *)
Definition truthy (j : json) : bool :=
  match j with
  | JNull => false
  | JBool b => b
  | JNum n => negb (Z.eqb n 0)
  | JStr s => negb (String.eqb s "")
  | JArr l => match l with [] => false | _ => true end
  | JObj kvs => match kvs with [] => false | _ => true end
  end.

(** [seq[i]] with Python's negative indices. *)
Definition index {A} (l : list A) (i : Z) : result A :=
  let n := Z.of_nat (List.length l) in
  let i' := if Z.ltb i 0 then i + n else i in
  if Z.ltb i' 0 then throw IndexError
  else match l !! Z.to_nat i' with
       | Some x => ok x
       | None => throw IndexError
       end.

Definition as_int (j : json) : option Z :=
  match j with
  | JNum n => Some n
  | JBool b => Some (if b then 1 else 0)
  | _ => None
  end.

Definition chars (s : string) : list json :=
  (fun c => JStr (String c EmptyString)) <$> list_ascii_of_string s.

(** [j[idx]] *)
Definition getitem_json (j idx : json) : result json :=
  match j with
  | JObj kvs =>
      match idx with
      | JStr k => match assoc k kvs with
                  | Some v => ok v
                  | None => throw (KeyError idx)
                  end
      | _ => if hashable idx then throw (KeyError idx) else throw TypeError
      end
  | JArr l =>
      match as_int idx with
      | Some i => index l i
      | None => throw TypeError
      end
  | JStr s =>
      match as_int idx with
      | Some i => index (chars s) i
      | None => throw TypeError
      end
  | _ => throw TypeError
  end.

(** [j["k"]] *)
Definition getitem (j : json) (k : string) : result json :=
  getitem_json j (JStr k).

(** [j.get("k", default)] *)
Definition get (j : json) (k : string) (dflt : json) : result json :=
  match j with
  | JObj kvs => ok (default dflt (assoc k kvs))
  | _ => throw AttributeError
  end.

(** [j["k1"]["k2"]] *)
Definition getitem2 (j : json) (k1 k2 : string) : result json :=
  rbind (getitem j k1) (fun x => getitem x k2).

(** [d[k] = v]. Keys of a JSON object are strings; the documents and the
    adapters of this development index dicts by strings only. *)
Definition setitem (d k v : json) : result json :=
  match d, k with
  | JObj kvs, JStr key => ok (JObj (dict_set key v kvs))
  | _, _ => throw TypeError
  end.

(** [dict(j)] for a mapping, or a sequence of [[key, value]] pairs with
    string keys. *)
Fixpoint dict_of_pairs (l : list json) : result (list (string * json)) :=
  match l with
  | [] => ok []
  | JArr [JStr k; v] :: rest =>
      rbind (dict_of_pairs rest) (fun kvs => ok (dict_set k v kvs))
  | JArr [_; _] :: _ => throw TypeError
  | JArr _ :: _ | JStr _ :: _ | JObj _ :: _ => throw ValueError
  | _ => throw TypeError
  end.

Definition dict (j : json) : result json :=
  match j with
  | JObj kvs => ok (JObj kvs)
  | JArr l => rbind (dict_of_pairs (rev l)) (fun kvs => ok (JObj kvs))
  | JStr _ => throw ValueError
  | _ => throw TypeError
  end.

(** [for k, v in j.items()] *)
Definition items (j : json) : result (list (string * json)) :=
  match j with
  | JObj kvs => ok kvs
  | _ => throw AttributeError
  end.

(** [for x in j] *)
Definition iter (j : json) : result (list json) :=
  match j with
  | JObj kvs => ok ((fun kv => JStr kv.1) <$> kvs)
  | JArr l => ok l
  | JStr s => ok (chars s)
  | _ => throw TypeError
  end.

Definition is_substring (k s : string) : bool :=
  match String.index 0 k s with
  | Some _ => true
  | None => false
  end.

(** ["k" in j] *)
Definition contains (k : string) (j : json) : result bool :=
  match j with
  | JObj kvs => ok (bool_decide (is_Some (assoc k kvs)))
  | JArr l => ok (existsb (py_eq (JStr k)) l)
  | JStr s => ok (is_substring k s)
  | _ => throw TypeError
  end.

(** [s.split(sep)] for a one-character separator. *)
Fixpoint split_on (sep : ascii) (s : string) : list string :=
  match s with
  | EmptyString => [EmptyString]
  | String c rest =>
      if Ascii.eqb c sep then EmptyString :: split_on sep rest
      else match split_on sep rest with
           | [] => [String c EmptyString]
           | seg :: segs => String c seg :: segs
           end
  end.

(** [j.split(";")]: only a [str] has the method. *)
Definition split (j : json) (sep : ascii) : result (list string) :=
  match j with
  | JStr s => ok (split_on sep s)
  | _ => throw AttributeError
  end.

(** [sep.join(l)] *)
Fixpoint join (sep : string) (l : list string) : string :=
  match l with
  | [] => EmptyString
  | [x] => x
  | x :: rest => String.append x (String.append sep (join sep rest))
  end.

(** A [set] as the list of its insertions; [x in s] is [set_in]. *)
Definition set_in (x : json) (s : list json) : bool := existsb (py_eq x) s.

Definition set_add (x : json) (s : list json) : result (list json) :=
  if hashable x then ok (if set_in x s then s else s ++ [x])
  else throw TypeError.

End Py.

(** ** pathlib

    A [Path] is its [parts] tuple, with POSIX parsing: the root, when there
    is one, is the first part; empty and ["."] components are dropped. *)

Module Pathlib.

Definition Path : Type := list string.

Fixpoint leading_slashes (s : string) : nat :=
  match s with
  | String c rest => if Ascii.eqb c "/" then S (leading_slashes rest) else O
  | EmptyString => O
  end.

(** ["/"] for one leading slash or three and more, ["//"] for exactly two. *)
Definition root_of (s : string) : list string :=
  match leading_slashes s with
  | O => []
  | 2%nat => ["//"]
  | _ => ["/"]
  end.

Definition is_component (c : string) : bool :=
  negb (String.eqb c "") && negb (String.eqb c ".").

(** [Path(s).parts] *)
Definition parts (s : string) : Path :=
  root_of s ++ List.filter is_component (Py.split_on "/" s).

Definition has_root (p : Path) : bool :=
  match p with
  | r :: _ => String.eqb r "/" || String.eqb r "//"
  | [] => false
  end.

(** [str(p)] and [p.as_posix()] *)
Definition as_posix (p : Path) : string :=
  match p with
  | [] => "."
  | r :: rest =>
      if has_root p then String.append r (Py.join "/" rest) else Py.join "/" p
  end.

Fixpoint is_prefix (other self : Path) : bool :=
  match other, self with
  | [], _ => true
  | o :: other', s :: self' => String.eqb o s && is_prefix other' self'
  | _ :: _, [] => false
  end.

(** [self.relative_to(other)]; [ValueError] when [other] is not a leading
    run of [self]'s parts. *)
Definition relative_to (self other : Path) : result Path :=
  if is_prefix other self then ok (drop (List.length other) self)
  else throw ValueError.

(** [a / b] *)
Definition joinpath (a b : Path) : Path :=
  if has_root b then b else a ++ b.

(** ["name" in p.parts] *)
Definition in_parts (name : string) (p : Path) : bool :=
  existsb (String.eqb name) p.

End Pathlib.

(** ** Data model *)

(** The four views of one source file. In a session built by an adapter
    they are strings; the import stores whatever the document holds. *)
Record Filename := {
  absolute : json;
  used : json;
  relative : json;
  short : json;
}.

Record CompilerVersion := {
  compiler : json;
  version : json;
  optimized : json;
}.

(** Modelled from the spec: [Natspec] (crytic_compile/utils/natspec.py) is
    the pair of the user-facing and the developer-facing documentation
    bucket of one contract, kept verbatim and never interpreted. *)
Record Natspec := {
  userdoc : json;
  devdoc : json;
}.

(** What [contracts_filenames] holds for a contract: a [Filename], or the
    bare path string the Dapp adapter stores. *)
Inductive filename_entry :=
  | FilenameObj (f : Filename)
  | FilenameStr (s : string).

(** Modelled from the spec: a [Filename] (crytic_compile/utils/naming.py)
    is an immutable value made of its four views; putting one in a [set]
    hashes the four views, which raises [TypeError] when one of them is a
    list or a mapping. A bare path string is hashable. *)
Definition filename_hashable (f : filename_entry) : bool :=
  match f with
  | FilenameObj f =>
      Py.hashable (absolute f) && Py.hashable (used f)
      && Py.hashable (relative f) && Py.hashable (short f)
  | FilenameStr _ => true
  end.

Record CompilationUnit := {
  asts : json;
  compiler_version : option CompilerVersion;
  contracts_names : gset string;
  contracts_filenames : gmap string filename_entry;
  abis : gmap string json;
  bytecodes_init : gmap string json;
  bytecodes_runtime : gmap string json;
  srcmaps_init : gmap string (list string);
  srcmaps_runtime : gmap string (list string);
  libraries : gmap string json;
  natspec : gmap string Natspec;
}.

(** The values [crytic_compile.platform.types.Type] gives the platforms of
    these files, and the values that are members of the enumeration; the
    enumeration itself is declared outside the files modelled here. *)
Record PlatformTypes := {
  members : list Z;
  DAPP : Z;
  WAFFLE : Z;
  STANDARD : Z;
}.

(** A platform class: the attributes a descriptor exposes. *)
Record PlatformClass := {
  NAME : string;
  PROJECT_URL : string;
  TYPE : Z;
}.

(** A platform instance with the state it carries. *)
Inductive Platform :=
  | DappInstance (_cached_dependencies : gmap string bool)
  | WaffleInstance (_cached_dependencies : gmap string bool)
  | StandardInstance (_underlying_platform : PlatformClass) (_unit_tests : json).

(** The session object ([CryticCompile]). [package] is what the export
    reads, [package_name] what the import writes. *)
Record CryticCompile := {
  compilation_units : gmap string CompilationUnit;
  filenames : list filename_entry;
  dependencies : list json;
  package : json;
  package_name : json;
  working_dir : json;
  platform : Platform;
}.

(** Modelled from the spec: a [CompilationUnit] (crytic_compile/
    compilation_unit.py) starts with every mapping empty and no compiler
    version. *)
Definition empty_unit : CompilationUnit :=
  {| asts := JObj []; compiler_version := None; contracts_names := ∅;
     contracts_filenames := ∅; abis := ∅; bytecodes_init := ∅;
     bytecodes_runtime := ∅; srcmaps_init := ∅; srcmaps_runtime := ∅;
     libraries := ∅; natspec := ∅ |}.

Module Unit.

Definition set_asts (v : json) (u : CompilationUnit) : CompilationUnit :=
  {| asts := v; compiler_version := compiler_version u;
     contracts_names := contracts_names u;
     contracts_filenames := contracts_filenames u; abis := abis u;
     bytecodes_init := bytecodes_init u;
     bytecodes_runtime := bytecodes_runtime u;
     srcmaps_init := srcmaps_init u; srcmaps_runtime := srcmaps_runtime u;
     libraries := libraries u; natspec := natspec u |}.

Definition set_compiler_version (v : CompilerVersion) (u : CompilationUnit)
  : CompilationUnit :=
  {| asts := asts u; compiler_version := Some v;
     contracts_names := contracts_names u;
     contracts_filenames := contracts_filenames u; abis := abis u;
     bytecodes_init := bytecodes_init u;
     bytecodes_runtime := bytecodes_runtime u;
     srcmaps_init := srcmaps_init u; srcmaps_runtime := srcmaps_runtime u;
     libraries := libraries u; natspec := natspec u |}.

Definition add_contract_name (n : string) (u : CompilationUnit)
  : CompilationUnit :=
  {| asts := asts u; compiler_version := compiler_version u;
     contracts_names := {[n]} ∪ contracts_names u;
     contracts_filenames := contracts_filenames u; abis := abis u;
     bytecodes_init := bytecodes_init u;
     bytecodes_runtime := bytecodes_runtime u;
     srcmaps_init := srcmaps_init u; srcmaps_runtime := srcmaps_runtime u;
     libraries := libraries u; natspec := natspec u |}.

Definition set_filename (n : string) (f : filename_entry) (u : CompilationUnit)
  : CompilationUnit :=
  {| asts := asts u; compiler_version := compiler_version u;
     contracts_names := contracts_names u;
     contracts_filenames := <[n:=f]> (contracts_filenames u); abis := abis u;
     bytecodes_init := bytecodes_init u;
     bytecodes_runtime := bytecodes_runtime u;
     srcmaps_init := srcmaps_init u; srcmaps_runtime := srcmaps_runtime u;
     libraries := libraries u; natspec := natspec u |}.

Definition set_abi (n : string) (v : json) (u : CompilationUnit)
  : CompilationUnit :=
  {| asts := asts u; compiler_version := compiler_version u;
     contracts_names := contracts_names u;
     contracts_filenames := contracts_filenames u; abis := <[n:=v]> (abis u);
     bytecodes_init := bytecodes_init u;
     bytecodes_runtime := bytecodes_runtime u;
     srcmaps_init := srcmaps_init u; srcmaps_runtime := srcmaps_runtime u;
     libraries := libraries u; natspec := natspec u |}.

Definition set_bytecode_init (n : string) (v : json) (u : CompilationUnit)
  : CompilationUnit :=
  {| asts := asts u; compiler_version := compiler_version u;
     contracts_names := contracts_names u;
     contracts_filenames := contracts_filenames u; abis := abis u;
     bytecodes_init := <[n:=v]> (bytecodes_init u);
     bytecodes_runtime := bytecodes_runtime u;
     srcmaps_init := srcmaps_init u; srcmaps_runtime := srcmaps_runtime u;
     libraries := libraries u; natspec := natspec u |}.

Definition set_bytecode_runtime (n : string) (v : json) (u : CompilationUnit)
  : CompilationUnit :=
  {| asts := asts u; compiler_version := compiler_version u;
     contracts_names := contracts_names u;
     contracts_filenames := contracts_filenames u; abis := abis u;
     bytecodes_init := bytecodes_init u;
     bytecodes_runtime := <[n:=v]> (bytecodes_runtime u);
     srcmaps_init := srcmaps_init u; srcmaps_runtime := srcmaps_runtime u;
     libraries := libraries u; natspec := natspec u |}.

Definition set_srcmap_init (n : string) (v : list string) (u : CompilationUnit)
  : CompilationUnit :=
  {| asts := asts u; compiler_version := compiler_version u;
     contracts_names := contracts_names u;
     contracts_filenames := contracts_filenames u; abis := abis u;
     bytecodes_init := bytecodes_init u;
     bytecodes_runtime := bytecodes_runtime u;
     srcmaps_init := <[n:=v]> (srcmaps_init u);
     srcmaps_runtime := srcmaps_runtime u;
     libraries := libraries u; natspec := natspec u |}.

Definition set_srcmap_runtime (n : string) (v : list string)
  (u : CompilationUnit) : CompilationUnit :=
  {| asts := asts u; compiler_version := compiler_version u;
     contracts_names := contracts_names u;
     contracts_filenames := contracts_filenames u; abis := abis u;
     bytecodes_init := bytecodes_init u;
     bytecodes_runtime := bytecodes_runtime u;
     srcmaps_init := srcmaps_init u;
     srcmaps_runtime := <[n:=v]> (srcmaps_runtime u);
     libraries := libraries u; natspec := natspec u |}.

Definition set_libraries (n : string) (v : json) (u : CompilationUnit)
  : CompilationUnit :=
  {| asts := asts u; compiler_version := compiler_version u;
     contracts_names := contracts_names u;
     contracts_filenames := contracts_filenames u; abis := abis u;
     bytecodes_init := bytecodes_init u;
     bytecodes_runtime := bytecodes_runtime u;
     srcmaps_init := srcmaps_init u; srcmaps_runtime := srcmaps_runtime u;
     libraries := <[n:=v]> (libraries u); natspec := natspec u |}.

Definition set_natspec (n : string) (v : Natspec) (u : CompilationUnit)
  : CompilationUnit :=
  {| asts := asts u; compiler_version := compiler_version u;
     contracts_names := contracts_names u;
     contracts_filenames := contracts_filenames u; abis := abis u;
     bytecodes_init := bytecodes_init u;
     bytecodes_runtime := bytecodes_runtime u;
     srcmaps_init := srcmaps_init u; srcmaps_runtime := srcmaps_runtime u;
     libraries := libraries u; natspec := <[n:=v]> (natspec u) |}.

(** Modelled from the spec: the per-contract accessors of a unit
    (crytic_compile/compilation_unit.py) read the unit's mappings at the
    contract name. A contract with no entry reads as [None], or as no
    segment for a source map; the export's own [if libraries else dict()]
    expects such a value. [filename_of_contract] subscripts the mapping. *)
Definition abi (u : CompilationUnit) (n : string) : json :=
  default JNull (abis u !! n).

Definition bytecode_init (u : CompilationUnit) (n : string) : json :=
  default JNull (bytecodes_init u !! n).

Definition bytecode_runtime (u : CompilationUnit) (n : string) : json :=
  default JNull (bytecodes_runtime u !! n).

Definition srcmap_init (u : CompilationUnit) (n : string) : list string :=
  default [] (srcmaps_init u !! n).

Definition srcmap_runtime (u : CompilationUnit) (n : string) : list string :=
  default [] (srcmaps_runtime u !! n).

Definition libraries_names_and_patterns (u : CompilationUnit) (n : string)
  : json :=
  default JNull (libraries u !! n).

Definition filename_of_contract (u : CompilationUnit) (n : string)
  : result filename_entry :=
  match contracts_filenames u !! n with
  | Some f => ok f
  | None => throw (KeyError (JStr n))
  end.

End Unit.

Module Session.

Definition set_units (m : gmap string CompilationUnit) (s : CryticCompile)
  : CryticCompile :=
  {| compilation_units := m; filenames := filenames s;
     dependencies := dependencies s; package := package s;
     package_name := package_name s; working_dir := working_dir s;
     platform := platform s |}.

Definition set_filenames (l : list filename_entry) (s : CryticCompile)
  : CryticCompile :=
  {| compilation_units := compilation_units s; filenames := l;
     dependencies := dependencies s; package := package s;
     package_name := package_name s; working_dir := working_dir s;
     platform := platform s |}.

Definition set_dependencies (l : list json) (s : CryticCompile)
  : CryticCompile :=
  {| compilation_units := compilation_units s; filenames := filenames s;
     dependencies := l; package := package s;
     package_name := package_name s; working_dir := working_dir s;
     platform := platform s |}.

Definition set_package_name (v : json) (s : CryticCompile) : CryticCompile :=
  {| compilation_units := compilation_units s; filenames := filenames s;
     dependencies := dependencies s; package := package s;
     package_name := v; working_dir := working_dir s;
     platform := platform s |}.

Definition set_working_dir (v : json) (s : CryticCompile) : CryticCompile :=
  {| compilation_units := compilation_units s; filenames := filenames s;
     dependencies := dependencies s; package := package s;
     package_name := package_name s; working_dir := v;
     platform := platform s |}.

Definition set_platform (p : Platform) (s : CryticCompile) : CryticCompile :=
  {| compilation_units := compilation_units s; filenames := filenames s;
     dependencies := dependencies s; package := package s;
     package_name := package_name s; working_dir := working_dir s;
     platform := p |}.

End Session.

(** ** Computations on the session

    Every function of the code that is handed the [CryticCompile] object
    mutates it in place; an exception aborts the call and leaves the
    object as it was at that point. *)

Definition M (A : Type) : Type := CryticCompile -> result A * CryticCompile.

Definition ret {A} (a : A) : M A := fun s => (ok a, s).

Definition bind {A B} (m : M A) (k : A -> M B) : M B :=
  fun s =>
    match m s with
    | (inl e, s') => (inl e, s')
    | (inr a, s') => k a s'
    end.

Definition raise {A} (e : exn) : M A := fun s => (throw e, s).

Definition lift {A} (r : result A) : M A := fun s => (r, s).

Definition modify (f : CryticCompile -> CryticCompile) : M unit :=
  fun s => (ok tt, f s).

Definition gets {A} (f : CryticCompile -> A) : M A := fun s => (ok (f s), s).

Declare Scope session_scope.
Delimit Scope session_scope with M.
Bind Scope session_scope with M.

Notation "x <- m ;; k" := (bind m (fun x => k))
  (at level 20, m at level 99, k at level 200, only parsing) : session_scope.
Notation "m ;; k" := (bind m (fun _ => k))
  (at level 100, k at level 200, only parsing, right associativity)
  : session_scope.

(** [for x in l: body(x)] *)
Fixpoint for_each {A} (l : list A) (body : A -> M unit) : M unit :=
  match l with
  | [] => ret tt
  | x :: rest => bind (body x) (fun _ => for_each rest body)
  end.

(** A loop that rebinds local variables: [acc] holds them. *)
Fixpoint for_fold {A B} (l : list A) (acc : B) (body : B -> A -> M B) : M B :=
  match l with
  | [] => ret acc
  | x :: rest => bind (body acc x) (fun acc' => for_fold rest acc' body)
  end.

(** Modelled from the spec: [CompilationUnit(crytic_compile, key)]
    (crytic_compile/compilation_unit.py) creates an empty unit and
    registers it in the session's mapping under [key]. *)
Definition new_CompilationUnit (key : string) : M unit :=
  modify (fun s =>
    Session.set_units (<[key:=empty_unit]> (compilation_units s)) s).

(** A write through the local variable [compilation_unit], which refers to
    the unit registered under [key]. *)
Definition on_unit (key : string) (f : CompilationUnit -> CompilationUnit)
  : M unit :=
  modify (fun s => Session.set_units (alter f key (compilation_units s)) s).

(** [crytic_compile.dependencies.add(x)] *)
Definition dependencies_add (x : json) : M unit :=
  fun s =>
    match Py.set_add x (dependencies s) with
    | inl e => (inl e, s)
    | inr l => (ok tt, Session.set_dependencies l s)
    end.

(** [crytic_compile.filenames.add(f)] *)
Definition filenames_add (f : filename_entry) : M unit :=
  modify (fun s => Session.set_filenames (filenames s ++ [f]) s).

(** [compilation_unit.asts[k] = v] *)
Definition asts_setitem (key : string) (k v : json) : M unit :=
  fun s =>
    match compilation_units s !! key with
    | Some u =>
        match Py.setitem (asts u) k v with
        | inl e => (inl e, s)
        | inr a =>
            (ok tt,
             Session.set_units
               (<[key:=Unit.set_asts a u]> (compilation_units s)) s)
        end
    | None => (ok tt, s)
    end.


(** ** crytic_compile/utils/naming.py *)

Module Naming.

(** Modelled from the spec: [extract_name] strips any [<file>:] prefix
    from a possibly namespaced contract identifier, so [File.sol:Contract]
    becomes [Contract]. *)
Definition extract_name (name : string) : string :=
  List.last (Py.split_on ":" name) name.

(** Modelled from the spec: [convert_filename] is the path identity
    resolver of section 4.1. [absolute] is the raw path resolved against
    the working directory, [relative] is [absolute] made relative to the
    working directory, [used] is the raw path verbatim and [short] is the
    adapter's short rule applied to [relative]; a raw path that cannot be
    placed under the working directory is a [PathResolutionError]. *)
Definition convert_filename (used_filename : string)
  (relative_to_short : Pathlib.Path -> result Pathlib.Path)
  (working_dir : string) : result Filename :=
  let wd := Pathlib.parts working_dir in
  let abs := Pathlib.joinpath wd (Pathlib.parts used_filename) in
  match Pathlib.relative_to abs wd with
  | inl _ => throw PathResolutionError
  | inr rel =>
      rbind (relative_to_short rel) (fun sh =>
        ok {| absolute := JStr (Pathlib.as_posix abs);
              used := JStr used_filename;
              relative := JStr (Pathlib.as_posix rel);
              short := JStr (Pathlib.as_posix sh) |})
  end.

End Naming.

(** ** crytic_compile/platform/dapp.py *)

Module Dapp.

(** [Dapp.is_dependency(self, path)]: the answer and the cache after the
    call. *)
Definition is_dependency (_cached_dependencies : gmap string bool)
  (path : string) : bool * gmap string bool :=
  match _cached_dependencies !! path with
  | Some cached => (cached, _cached_dependencies)
  | None =>
      let ret := Pathlib.in_parts "node_modules" (Pathlib.parts path) in
      (Pathlib.in_parts "lib" (Pathlib.parts path),
       <[path:=ret]> _cached_dependencies)
  end.

(** [Dapp._guessed_tests] *)
Definition _guessed_tests : json := JArr [JStr "dapp test"].

(** [_relative_to_short(relative)] *)
Definition _relative_to_short (relative : Pathlib.Path)
  : result Pathlib.Path :=
  let short := relative in
  match Pathlib.relative_to short (Pathlib.parts "src") with
  | inr short' => ok short'
  | inl ValueError =>
      match Pathlib.relative_to short (Pathlib.parts "lib") with
      | inr short' => ok short'
      | inl ValueError => ok short
      | inl e => throw e
      end
  | inl e => throw e
  end.

(** [a |= b] on the values the optimizer flag can take. *)
Definition py_or (a b : json) : result json :=
  match a, b with
  | JBool x, JBool y => ok (JBool (x || y))
  | _, _ =>
      match Py.as_int a, Py.as_int b with
      | Some x, Some y => ok (JNum (Z.lor x y))
      | _, _ => throw TypeError
      end
  end.

Section Compile.

(** The standard library functions the adapter calls: [json.loads] on a
    string, and [re.findall] with the version pattern. *)
Variable json_loads : string -> result json.
Variable findall_version : string -> list string.

Definition loads (j : json) : result json :=
  match j with
  | JStr s => json_loads s
  | _ => throw TypeError
  end.

(** [re.findall(r"\d+\.\d+\.\d+", j)[0]] *)
Definition first_version (j : json) : result json :=
  match j with
  | JStr s => rbind (Py.index (findall_version s) 0) (fun v => ok (JStr v))
  | _ => throw TypeError
  end.

(** Lines 74-81: the optimizer flag of one contract's metadata, or-ed
    into [optimized]. *)
Definition update_optimized (optimized info : json) : result json :=
  rbind (Py.contains "metadata" info) (fun has_metadata =>
  if has_metadata then
    rbind (rbind (Py.getitem info "metadata") loads) (fun metadata =>
    rbind (Py.contains "settings" metadata) (fun c1 =>
    if c1 then
      rbind (rbind (Py.getitem metadata "settings") (Py.contains "optimizer"))
        (fun c2 =>
      if c2 then
        rbind (rbind (Py.getitem2 metadata "settings" "optimizer")
                 (Py.contains "enabled")) (fun c3 =>
        if c3 then
          rbind (rbind (Py.getitem2 metadata "settings" "optimizer")
                   (fun o => Py.getitem o "enabled")) (py_or optimized)
        else ok optimized)
      else ok optimized)
    else ok optimized))
  else ok optimized).

(** The body of the inner loop (lines 74-106); the locals [optimized] and
    [version] go in and come out. *)
Definition compile_contract (key original_filename : string)
  (locals : json * json) (entry : string * json) : M (json * json) :=
  let '(optimized, version) := locals in
  let '(original_contract_name, info) := entry in
  (optimized <- lift (update_optimized optimized info) ;;
   let contract_name := Naming.extract_name original_contract_name in
   on_unit key (Unit.add_contract_name contract_name) ;;
   on_unit key (Unit.set_filename contract_name (FilenameStr original_filename)) ;;
   abi <- lift (Py.getitem info "abi") ;;
   on_unit key (Unit.set_abi contract_name abi) ;;
   bin <- lift (rbind (Py.getitem2 info "evm" "bytecode")
                  (fun b => Py.getitem b "object")) ;;
   on_unit key (Unit.set_bytecode_init contract_name bin) ;;
   bin_runtime <- lift (rbind (Py.getitem2 info "evm" "deployedBytecode")
                          (fun b => Py.getitem b "object")) ;;
   on_unit key (Unit.set_bytecode_runtime contract_name bin_runtime) ;;
   srcmap <- lift (rbind (rbind (Py.getitem2 info "evm" "bytecode")
                            (fun b => Py.getitem b "sourceMap"))
                     (fun m => Py.split m ";")) ;;
   on_unit key (Unit.set_srcmap_init contract_name srcmap) ;;
   srcmap_runtime <- lift (rbind (rbind (Py.getitem2 info "evm" "bytecode")
                                    (fun b => Py.getitem b "sourceMap"))
                             (fun m => Py.split m ";")) ;;
   on_unit key (Unit.set_srcmap_runtime contract_name srcmap_runtime) ;;
   userdoc <- lift (Py.get info "userdoc" (JObj [])) ;;
   devdoc <- lift (Py.get info "devdoc" (JObj [])) ;;
   on_unit key (Unit.set_natspec contract_name
                  {| userdoc := userdoc; devdoc := devdoc |}) ;;
   version <- lift (match version with
                    | JNull =>
                        rbind (rbind (Py.getitem info "metadata") loads)
                          (fun metadata =>
                        rbind (Py.getitem2 metadata "compiler" "version")
                          first_version)
                    | _ => ok version
                    end) ;;
   ret (optimized, version))%M.

(** [Dapp.compile] from the creation of the unit on (lines 59-117), given
    the parsed [out/dapp.sol.json] and what [_get_version] returned. *)
Definition compile (_target : string) (got_version : CompilerVersion)
  (targets_json : json) : M unit :=
  let key := _target in
  (new_CompilationUnit key ;;
   on_unit key (Unit.set_compiler_version got_version) ;;
   let optimized := JBool false in
   let version := JNull in
   has_version <- lift (Py.contains "version" targets_json) ;;
   version <- lift (if has_version
                    then rbind (Py.getitem targets_json "version") first_version
                    else ok version) ;;
   files <- lift (rbind (Py.getitem targets_json "contracts") Py.items) ;;
   locals <- for_fold files (optimized, version)
     (fun locals '(original_filename, contracts_info) =>
        infos <- lift (Py.items contracts_info) ;;
        for_fold infos locals (compile_contract key original_filename)) ;;
   sources <- lift (rbind (Py.getitem targets_json "sources") Py.items) ;;
   for_each sources (fun '(path, info) =>
     path <- lift (Naming.convert_filename path _relative_to_short _target) ;;
     filenames_add (FilenameObj path) ;;
     ast <- lift (Py.getitem info "ast") ;;
     asts_setitem key (absolute path) ast) ;;
   on_unit key (Unit.set_compiler_version
                  {| compiler := JStr "solc"; version := locals.2;
                     optimized := locals.1 |}))%M.

End Compile.

End Dapp.

(** ** crytic_compile/platform/waffle.py *)

Module Waffle.

(** [Waffle.is_dependency(self, path)] *)
Definition is_dependency (_cached_dependencies : gmap string bool)
  (path : string) : bool * gmap string bool :=
  match _cached_dependencies !! path with
  | Some cached => (cached, _cached_dependencies)
  | None =>
      let ret := Pathlib.in_parts "node_modules" (Pathlib.parts path) in
      (ret, <[path:=ret]> _cached_dependencies)
  end.

(** [Waffle._guessed_tests] *)
Definition _guessed_tests : json := JArr [JStr "npx mocha"].

(** [_relative_to_short(relative)] *)
Definition _relative_to_short (relative : Pathlib.Path)
  : result Pathlib.Path :=
  let short := relative in
  match Pathlib.relative_to short (Pathlib.parts "contracts") with
  | inr short' => ok short'
  | inl ValueError =>
      match Pathlib.relative_to short (Pathlib.parts "node_modules") with
      | inr short' => ok short'
      | inl ValueError => ok short
      | inl e => throw e
      end
  | inl e => throw e
  end.

(** The body of the loop over [target_all["contracts"]] (lines 178-208). *)
Definition compile_contract (key target : string) (target_all : json)
  (contract : json) : M unit :=
  (target_loaded <- lift (rbind (Py.getitem target_all "contracts")
                            (fun cs => Py.getitem_json cs contract)) ;;
   contract <- lift (Py.split contract ":") ;;
   contract0 <- lift (Py.index contract 0) ;;
   filename <- lift (Naming.convert_filename contract0 _relative_to_short
                       target) ;;
   contract_name <- lift (Py.index contract 1) ;;
   ast <- lift (rbind (rbind (Py.getitem target_all "sources")
                         (fun srcs => Py.getitem srcs contract0))
                  (fun src => Py.getitem src "AST")) ;;
   asts_setitem key (absolute filename) ast ;;
   filenames_add (FilenameObj filename) ;;
   on_unit key (Unit.set_filename contract_name (FilenameObj filename)) ;;
   on_unit key (Unit.add_contract_name contract_name) ;;
   abi <- lift (Py.getitem target_loaded "abi") ;;
   on_unit key (Unit.set_abi contract_name abi) ;;
   userdoc <- lift (Py.get target_loaded "userdoc" (JObj [])) ;;
   devdoc <- lift (Py.get target_loaded "devdoc" (JObj [])) ;;
   on_unit key (Unit.set_natspec contract_name
                  {| userdoc := userdoc; devdoc := devdoc |}) ;;
   bin <- lift (rbind (Py.getitem2 target_loaded "evm" "bytecode")
                  (fun b => Py.getitem b "object")) ;;
   on_unit key (Unit.set_bytecode_init contract_name bin) ;;
   srcmap <- lift (rbind (rbind (Py.getitem2 target_loaded "evm" "bytecode")
                            (fun b => Py.getitem b "sourceMap"))
                     (fun m => Py.split m ";")) ;;
   on_unit key (Unit.set_srcmap_init contract_name srcmap) ;;
   bin_runtime <- lift (rbind (Py.getitem2 target_loaded "evm"
                                 "deployedBytecode")
                          (fun b => Py.getitem b "object")) ;;
   on_unit key (Unit.set_bytecode_runtime contract_name bin_runtime) ;;
   srcmap_runtime <- lift (rbind (rbind (Py.getitem2 target_loaded "evm"
                                           "deployedBytecode")
                                    (fun b => Py.getitem b "sourceMap"))
                             (fun m => Py.split m ";")) ;;
   on_unit key (Unit.set_srcmap_runtime contract_name srcmap_runtime))%M.

(** [Waffle.compile] once [Combined-Json.json] is read (lines 173-212), for
    the compiler name and the version found before. *)
Definition compile (target : string) (compiler version : json)
  (target_all : json) : M unit :=
  let optimized := JNull in
  let key := target in
  (new_CompilationUnit key ;;
   contracts <- lift (rbind (Py.getitem target_all "contracts") Py.iter) ;;
   for_each contracts (compile_contract key target target_all) ;;
   on_unit key (Unit.set_compiler_version
                  {| compiler := compiler; version := version;
                     optimized := optimized |}))%M.

End Waffle.

(** ** The session's dependency query *)

(** [self.platform.is_dependency(path)], by the class of the platform
    instance. [Standard.is_dependency] returns [False] whatever it is
    given; the adapters build a [Path] and so need a string. *)
Definition platform_is_dependency (path : json) : M bool :=
  fun s =>
    match platform s with
    | StandardInstance _ _ => (ok false, s)
    | DappInstance cache =>
        match path with
        | JStr p =>
            let '(r, cache') := Dapp.is_dependency cache p in
            (ok r, Session.set_platform (DappInstance cache') s)
        | _ => (throw TypeError, s)
        end
    | WaffleInstance cache =>
        match path with
        | JStr p =>
            let '(r, cache') := Waffle.is_dependency cache p in
            (ok r, Session.set_platform (WaffleInstance cache') s)
        | _ => (throw TypeError, s)
        end
    end.

(** Modelled from the spec: [CryticCompile.is_dependency]
    (crytic_compile/crytic_compile.py) answers whether a path is a known
    dependency: it is one when the session's [dependencies] set holds it
    (the set an import fills), and otherwise when the platform's own
    predicate says so. *)
Definition CryticCompile_is_dependency (filename : json) : M bool :=
  (deps <- gets dependencies ;;
   if Py.hashable filename then
     if Py.set_in filename deps then ret true
     else platform_is_dependency filename
   else raise TypeError)%M.

(** ** crytic_compile/platform/standard.py *)

Module Standard.

(** [Standard.is_dependency(self, path)]: always [False]. *)
Definition is_dependency (path : json) : bool := false.

(** [_relative_to_short(relative)] *)
Definition _relative_to_short (relative : Pathlib.Path) : Pathlib.Path :=
  relative.

(** [_load_from_compile_legacy(crytic_compile, loaded_json)] *)
Definition _load_from_compile_legacy (loaded_json : json) : M unit :=
  (new_CompilationUnit "legacy" ;;
   asts <- lift (Py.getitem loaded_json "asts") ;;
   on_unit "legacy" (Unit.set_asts asts) ;;
   cv_compiler <- lift (Py.getitem2 loaded_json "compiler" "compiler") ;;
   cv_version <- lift (Py.getitem2 loaded_json "compiler" "version") ;;
   cv_optimized <- lift (Py.getitem2 loaded_json "compiler" "optimized") ;;
   on_unit "legacy" (Unit.set_compiler_version
                       {| compiler := cv_compiler; version := cv_version;
                          optimized := cv_optimized |}) ;;
   contracts <- lift (rbind (Py.getitem loaded_json "contracts") Py.items) ;;
   for_each contracts (fun '(contract_name, contract) =>
     on_unit "legacy" (Unit.add_contract_name contract_name) ;;
     f_absolute <- lift (Py.getitem2 contract "filenames" "absolute") ;;
     f_relative <- lift (Py.getitem2 contract "filenames" "relative") ;;
     f_short <- lift (Py.getitem2 contract "filenames" "short") ;;
     f_used <- lift (Py.getitem2 contract "filenames" "used") ;;
     let filename := {| absolute := f_absolute; used := f_used;
                        relative := f_relative; short := f_short |} in
     on_unit "legacy" (Unit.set_filename contract_name (FilenameObj filename)) ;;
     abi <- lift (Py.getitem contract "abi") ;;
     on_unit "legacy" (Unit.set_abi contract_name abi) ;;
     bin <- lift (Py.getitem contract "bin") ;;
     on_unit "legacy" (Unit.set_bytecode_init contract_name bin) ;;
     bin_runtime <- lift (Py.getitem contract "bin-runtime") ;;
     on_unit "legacy" (Unit.set_bytecode_runtime contract_name bin_runtime) ;;
     srcmap <- lift (rbind (Py.getitem contract "srcmap")
                       (fun m => Py.split m ";")) ;;
     on_unit "legacy" (Unit.set_srcmap_init contract_name srcmap) ;;
     srcmap_runtime <- lift (rbind (Py.getitem contract "srcmap-runtime")
                               (fun m => Py.split m ";")) ;;
     on_unit "legacy" (Unit.set_srcmap_runtime contract_name srcmap_runtime) ;;
     libraries <- lift (Py.getitem contract "libraries") ;;
     on_unit "legacy" (Unit.set_libraries contract_name libraries) ;;
     userdoc <- lift (Py.get contract "userdoc" (JObj [])) ;;
     devdoc <- lift (Py.get contract "devdoc" (JObj [])) ;;
     on_unit "legacy" (Unit.set_natspec contract_name
                         {| userdoc := userdoc; devdoc := devdoc |}) ;;
     is_dep <- lift (Py.getitem contract "is_dependency") ;;
     if Py.truthy is_dep then
       dependencies_add (absolute filename) ;;
       dependencies_add (relative filename) ;;
       dependencies_add (short filename) ;;
       dependencies_add (used filename)
     else ret tt))%M.

(** The body of the loop over [loaded_json["compilation_units"]]
    (lines 241-275). *)
Definition load_unit (entry : string * json) : M unit :=
  let '(key, compilation_unit_json) := entry in
  (new_CompilationUnit key ;;
   cv_compiler <- lift (Py.getitem2 compilation_unit_json "compiler" "compiler") ;;
   cv_version <- lift (Py.getitem2 compilation_unit_json "compiler" "version") ;;
   cv_optimized <- lift (Py.getitem2 compilation_unit_json "compiler" "optimized") ;;
   on_unit key (Unit.set_compiler_version
                  {| compiler := cv_compiler; version := cv_version;
                     optimized := cv_optimized |}) ;;
   contracts <- lift (rbind (Py.getitem compilation_unit_json "contracts")
                        Py.items) ;;
   for_each contracts (fun '(contract_name, contract) =>
     on_unit key (Unit.add_contract_name contract_name) ;;
     f_absolute <- lift (Py.getitem2 contract "filenames" "absolute") ;;
     f_relative <- lift (Py.getitem2 contract "filenames" "relative") ;;
     f_short <- lift (Py.getitem2 contract "filenames" "short") ;;
     f_used <- lift (Py.getitem2 contract "filenames" "used") ;;
     let filename := {| absolute := f_absolute; used := f_used;
                        relative := f_relative; short := f_short |} in
     on_unit key (Unit.set_filename contract_name (FilenameObj filename)) ;;
     abi <- lift (Py.getitem contract "abi") ;;
     on_unit key (Unit.set_abi contract_name abi) ;;
     bin <- lift (Py.getitem contract "bin") ;;
     on_unit key (Unit.set_bytecode_init contract_name bin) ;;
     bin_runtime <- lift (Py.getitem contract "bin-runtime") ;;
     on_unit key (Unit.set_bytecode_runtime contract_name bin_runtime) ;;
     srcmap <- lift (rbind (Py.getitem contract "srcmap")
                       (fun m => Py.split m ";")) ;;
     on_unit key (Unit.set_srcmap_init contract_name srcmap) ;;
     srcmap_runtime <- lift (rbind (Py.getitem contract "srcmap-runtime")
                               (fun m => Py.split m ";")) ;;
     on_unit key (Unit.set_srcmap_runtime contract_name srcmap_runtime) ;;
     libraries <- lift (Py.getitem contract "libraries") ;;
     on_unit key (Unit.set_libraries contract_name libraries) ;;
     userdoc <- lift (Py.get contract "userdoc" (JObj [])) ;;
     devdoc <- lift (Py.get contract "devdoc" (JObj [])) ;;
     on_unit key (Unit.set_natspec contract_name
                    {| userdoc := userdoc; devdoc := devdoc |}) ;;
     is_dep <- lift (Py.getitem contract "is_dependency") ;;
     if Py.truthy is_dep then
       dependencies_add (absolute filename) ;;
       dependencies_add (relative filename) ;;
       dependencies_add (short filename) ;;
       dependencies_add (used filename)
     else ret tt) ;;
   asts <- lift (Py.getitem compilation_unit_json "asts") ;;
   on_unit key (Unit.set_asts asts))%M.

(** [set(compilation_unit.contracts_filenames.values())] (line 279):
    building the set hashes every value of the mapping. *)
Definition set_of_filenames (compilation_unit : CompilationUnit)
  : result (list filename_entry) :=
  let values := (map_to_list (contracts_filenames compilation_unit)).*2 in
  if forallb filename_hashable values then ok values else throw TypeError.

(** The values of [contracts_filenames] of every unit of the session, in
    the order the loop of lines 278-279 visits them. *)
Definition all_contract_filenames (s : CryticCompile) : list filename_entry :=
  mjoin ((fun kv => (map_to_list (contracts_filenames kv.2)).*2)
           <$> map_to_list (compilation_units s)).

(** [load_from_compile(crytic_compile, loaded_json)] *)
Definition load_from_compile (loaded_json : json) : M (json * json) :=
  (package <- lift (Py.get loaded_json "package" JNull) ;;
   modify (Session.set_package_name package) ;;
   has_units <- lift (Py.contains "compilation_units" loaded_json) ;;
   (if negb has_units then _load_from_compile_legacy loaded_json
    else
      units <- lift (rbind (Py.getitem loaded_json "compilation_units")
                       Py.items) ;;
      for_each units load_unit) ;;
   units <- gets (fun s => (map_to_list (compilation_units s)).*2) ;;
   for_each units (fun compilation_unit =>
     values <- lift (set_of_filenames compilation_unit) ;;
     modify (fun s => Session.set_filenames (filenames s ++ values) s)) ;;
   wd <- lift (Py.getitem loaded_json "working_dir") ;;
   modify (Session.set_working_dir wd) ;;
   ty <- lift (Py.getitem loaded_json "type") ;;
   unit_tests <- lift (Py.get loaded_json "unit_tests" (JArr [])) ;;
   ret (ty, unit_tests))%M.

Section Registry.

(** The platform type enumeration and the table [get_platforms()] returns,
    both declared outside the files modelled here. *)
Variable T : PlatformTypes.
Variable platforms : list PlatformClass.

Definition Standard_class : PlatformClass :=
  {| NAME := "Standard";
     PROJECT_URL := "https://github.com/crytic/crytic-compile";
     TYPE := STANDARD T |}.

(** [PlatformType(value)]: the member with that value, or [ValueError]. *)
Definition PlatformType (value : json) : result Z :=
  match Py.as_int value with
  | Some n => if bool_decide (n ∈ members T) then ok n else throw ValueError
  | None => throw ValueError
  end.

(** [next((p for p in platforms if p.TYPE == underlying_type), Standard)] *)
Definition resolve (underlying_type : Z) : PlatformClass :=
  default Standard_class
    (List.find (fun p => Z.eqb (TYPE p) underlying_type) platforms).

(** [Standard.compile(self, crytic_compile)] on the parsed target file;
    [self] is the session's platform instance. *)
Definition compile (loaded_json : json) : M unit :=
  (loaded <- load_from_compile loaded_json ;;
   let '(underlying_type, unit_tests) := loaded in
   underlying_type <- lift (PlatformType underlying_type) ;;
   let platform := resolve underlying_type in
   modify (Session.set_platform (StandardInstance platform unit_tests)))%M.

(** [platform_type_used] and [guessed_tests()] of a platform instance. *)
Definition platform_type_used (p : Platform) : Z :=
  match p with
  | DappInstance _ => DAPP T
  | WaffleInstance _ => WAFFLE T
  | StandardInstance underlying _ => TYPE underlying
  end.

Definition guessed_tests (p : Platform) : json :=
  match p with
  | DappInstance _ => Dapp._guessed_tests
  | WaffleInstance _ => Waffle._guessed_tests
  | StandardInstance _ unit_tests => unit_tests
  end.

(** [str(x)], Python's builtin. *)
Variable py_str : json -> string.

(** The export of one contract (lines 144-162). *)
Definition export_contract (compilation_unit : CompilationUnit)
  (contract_name : string) : M json :=
  (filename <- lift (Unit.filename_of_contract compilation_unit contract_name) ;;
   let libraries :=
     Unit.libraries_names_and_patterns compilation_unit contract_name in
   match filename with
   | FilenameStr _ => raise AttributeError
   | FilenameObj filename =>
       libs <- lift (if Py.truthy libraries then Py.dict libraries
                     else ok (JObj [])) ;;
       is_dep <- CryticCompile_is_dependency (absolute filename) ;;
       doc <- lift (match natspec compilation_unit !! contract_name with
                    | Some n => ok n
                    | None => throw (KeyError (JStr contract_name))
                    end) ;;
       ret (JObj
         [("abi", Unit.abi compilation_unit contract_name);
          ("bin", Unit.bytecode_init compilation_unit contract_name);
          ("bin-runtime", Unit.bytecode_runtime compilation_unit contract_name);
          ("srcmap",
           JStr (Py.join ";" (Unit.srcmap_init compilation_unit contract_name)));
          ("srcmap-runtime",
           JStr (Py.join ";" (Unit.srcmap_runtime compilation_unit contract_name)));
          ("filenames",
           JObj [("absolute", absolute filename); ("used", used filename);
                 ("short", short filename); ("relative", relative filename)]);
          ("libraries", libs);
          ("is_dependency", JBool is_dep);
          ("userdoc", userdoc doc);
          ("devdoc", devdoc doc)])
   end)%M.

(** The export of one unit (lines 142-178). *)
Definition export_unit (compilation_unit : CompilationUnit) : M json :=
  (contracts <- for_fold (elements (contracts_names compilation_unit)) []
     (fun contracts contract_name =>
        c <- export_contract compilation_unit contract_name ;;
        ret (Py.dict_set contract_name c contracts)) ;;
   let compiler :=
     match compiler_version compilation_unit with
     | Some cv =>
         JObj [("compiler", compiler cv); ("version", version cv);
               ("optimized", optimized cv)]
     | None => JObj []
     end in
   ret (JObj [("compiler", compiler); ("asts", asts compilation_unit);
              ("contracts", JObj contracts)]))%M.

(** [generate_standard_export(crytic_compile)] *)
Definition generate_standard_export : M json :=
  (units <- gets (fun s => map_to_list (compilation_units s)) ;;
   compilation_units <- for_fold units []
     (fun compilation_units '(key, compilation_unit) =>
        u <- export_unit compilation_unit ;;
        ret (Py.dict_set key u compilation_units)) ;;
   s <- gets (fun s => s) ;;
   ret (JObj
     [("compilation_units", JObj compilation_units);
      ("package", package s);
      ("working_dir", JStr (py_str (working_dir s)));
      ("type", JNum (platform_type_used (platform s)));
      ("unit_tests", guessed_tests (platform s))]))%M.

End Registry.

End Standard.

(** * Properties *)

Local Arguments String.eqb : simpl never.
Local Arguments Ascii.eqb : simpl never.

(** ** Short-path rules *)

(** The rule in the spec's words: try the roots in order and strip the
    first one that is the leading part of the path; with no match the
    path is unchanged. *)
Fixpoint strip_first_root (roots : list string) (p : Pathlib.Path)
  : Pathlib.Path :=
  match roots with
  | [] => p
  | r :: roots' =>
      match p with
      | c :: rest =>
          if String.eqb r c then rest else strip_first_root roots' p
      | [] => strip_first_root roots' p
      end
  end.

Lemma strip_first_root_no_match roots p :
  Forall (fun r => head p <> Some r) roots -> strip_first_root roots p = p.
Proof.
  induction 1 as [|r roots Hr _ IH]; [done|].
  destruct p as [|c rest]; simpl; [exact IH|].
  destruct (String.eqb_spec r c) as [->|_]; [by destruct Hr|exact IH].
Qed.

Lemma relative_to_single root p :
  Pathlib.relative_to p [root]
  = match p with
    | c :: rest => if String.eqb root c then ok rest else throw ValueError
    | [] => throw ValueError
    end.
Proof.
  unfold Pathlib.relative_to. destruct p as [|c rest]; simpl; [done|].
  destruct (String.eqb root c); simpl; [|done]. by rewrite drop_0.
Qed.

Lemma Dapp_relative_to_short_spec p :
  Dapp._relative_to_short p = ok (strip_first_root ["src"; "lib"] p).
Proof.
  unfold Dapp._relative_to_short.
  change (Pathlib.parts "src") with ["src"].
  change (Pathlib.parts "lib") with ["lib"].
  rewrite !relative_to_single. unfold throw, ok.
  destruct p as [|c rest]; simpl; [done|].
  destruct (String.eqb "src" c); [done|]. by destruct (String.eqb "lib" c).
Qed.

Lemma Waffle_relative_to_short_spec p :
  Waffle._relative_to_short p
  = ok (strip_first_root ["contracts"; "node_modules"] p).
Proof.
  unfold Waffle._relative_to_short.
  change (Pathlib.parts "contracts") with ["contracts"].
  change (Pathlib.parts "node_modules") with ["node_modules"].
  rewrite !relative_to_single. unfold throw, ok.
  destruct p as [|c rest]; simpl; [done|].
  destruct (String.eqb "contracts" c); [done|].
  by destruct (String.eqb "node_modules" c).
Qed.

(** C7. The short-path rule of each adapter tries its roots in a fixed
    order and strips the first that matches: Dapp strips a leading [src],
    else a leading [lib]; Waffle strips a leading [contracts], else a leading
    [node_modules]. A path under the first root is cut at that root
    whatever follows it (also when the second root follows), and a path
    that starts with neither root comes back unchanged. *)
Theorem relative_to_short_priority (relative rest : Pathlib.Path) :
  Dapp._relative_to_short relative
    = ok (strip_first_root ["src"; "lib"] relative)
  /\ Waffle._relative_to_short relative
    = ok (strip_first_root ["contracts"; "node_modules"] relative)
  /\ Dapp._relative_to_short ("src" :: rest) = ok rest
  /\ Dapp._relative_to_short ("src" :: "lib" :: rest) = ok ("lib" :: rest)
  /\ Dapp._relative_to_short ("lib" :: rest) = ok rest
  /\ Waffle._relative_to_short ("contracts" :: rest) = ok rest
  /\ Waffle._relative_to_short ("contracts" :: "node_modules" :: rest)
    = ok ("node_modules" :: rest)
  /\ Waffle._relative_to_short ("node_modules" :: rest) = ok rest
  /\ (head relative <> Some "src" -> head relative <> Some "lib" ->
      Dapp._relative_to_short relative = ok relative)
  /\ (head relative <> Some "contracts" ->
      head relative <> Some "node_modules" ->
      Waffle._relative_to_short relative = ok relative).
Proof.
  rewrite !Dapp_relative_to_short_spec, !Waffle_relative_to_short_spec.
  repeat split; try reflexivity.
  - intros H1 H2. f_equal. apply strip_first_root_no_match.
    by repeat constructor.
  - intros H1 H2. f_equal. apply strip_first_root_no_match.
    by repeat constructor.
Qed.

(** ** The Dapp dependency predicate and its cache *)

(** The cache after a run of calls on the paths [others]. *)
Definition Dapp_after_calls (cache : gmap string bool) (others : list string)
  : gmap string bool :=
  foldl (fun c p => (Dapp.is_dependency c p).2) cache others.

Lemma in_parts_elem_of name p :
  Pathlib.in_parts name p = true <-> name ∈ p.
Proof.
  unfold Pathlib.in_parts. rewrite existsb_exists. split.
  - intros (x & Hx & Heq). apply String.eqb_eq in Heq. subst.
    by apply list_elem_of_In.
  - intros H. exists name. split; [by apply list_elem_of_In|].
    apply String.eqb_refl.
Qed.

Lemma Dapp_is_dependency_cached cache path b :
  cache !! path = Some b ->
  Dapp.is_dependency cache path = (b, cache).
Proof. intros H. unfold Dapp.is_dependency. by rewrite H. Qed.

Lemma Dapp_is_dependency_keeps cache p path b :
  cache !! path = Some b ->
  (Dapp.is_dependency cache p).2 !! path = Some b.
Proof.
  intros H. unfold Dapp.is_dependency.
  destruct (cache !! p) eqn:Hp; simpl; [done|].
  rewrite lookup_insert_ne; [done|]. intros ->. congruence.
Qed.

Lemma Dapp_after_calls_keeps others cache path b :
  cache !! path = Some b ->
  Dapp_after_calls cache others !! path = Some b.
Proof.
  revert cache. induction others as [|p others IH]; intros cache H; [done|].
  simpl. apply IH. by apply Dapp_is_dependency_keeps.
Qed.

(** C9. On a path the cache does not hold yet, the first call of
    [Dapp.is_dependency] answers with the [lib] test while it stores the
    [node_modules] test, and every later call on that path, whatever
    other paths were asked in between, answers with the stored value. So
    a path with a [lib] component and no [node_modules] component gets
    [True] first and [False] ever after, and a path with [node_modules]
    and no [lib] gets [False] first and [True] ever after: the predicate
    is not idempotent. *)
Theorem Dapp_is_dependency_not_idempotent
  (cache : gmap string bool) (path : string) :
  cache !! path = None ->
  let first := Dapp.is_dependency cache path in
  let later others :=
    (Dapp.is_dependency (Dapp_after_calls first.2 others) path).1 in
  ("lib" ∈ Pathlib.parts path -> "node_modules" ∉ Pathlib.parts path ->
   first.1 = true /\ forall others, later others = false)
  /\ ("node_modules" ∈ Pathlib.parts path -> "lib" ∉ Pathlib.parts path ->
      first.1 = false /\ forall others, later others = true).
Proof.
  intros Hnone first later.
  assert (Hfirst : first = (Pathlib.in_parts "lib" (Pathlib.parts path),
            <[path:=Pathlib.in_parts "node_modules" (Pathlib.parts path)]>
              cache)).
  { unfold first, Dapp.is_dependency. by rewrite Hnone. }
  assert (Hlater : forall others,
            later others
            = Pathlib.in_parts "node_modules" (Pathlib.parts path)).
  { intros others. unfold later. rewrite Hfirst; simpl.
    erewrite Dapp_is_dependency_cached; [done|].
    apply Dapp_after_calls_keeps, lookup_insert_eq. }
  rewrite Hfirst; simpl. split; intros Hin Hnot.
  - split; [by apply in_parts_elem_of|].
    intros others. rewrite Hlater. apply not_true_is_false.
    by rewrite in_parts_elem_of.
  - split; [apply not_true_is_false; by rewrite in_parts_elem_of|].
    intros others. rewrite Hlater. by apply in_parts_elem_of.
Qed.

Lemma Dapp_is_dependency_not_idempotent_witness :
  (Dapp.is_dependency ∅ "lib/ds-test/src/test.sol").1 = true
  /\ (Dapp.is_dependency
        (Dapp.is_dependency ∅ "lib/ds-test/src/test.sol").2
        "lib/ds-test/src/test.sol").1 = false.
Proof.
  pose proof (Dapp_is_dependency_not_idempotent ∅ "lib/ds-test/src/test.sol"
                (lookup_empty _)) as [H _].
  destruct H as [H1 H2].
  - apply in_parts_elem_of. vm_compute. reflexivity.
  - intros Hin. apply in_parts_elem_of in Hin. vm_compute in Hin.
    discriminate.
  - split; [exact H1|exact (H2 [])].
Defined.

(** ** Reasoning about session computations *)

Section Monad.
Context {A B : Type}.

Lemma bind_ok_inv (m : M A) (k : A -> M B) s b s' :
  bind m k s = (inr b, s') ->
  exists a s1, m s = (inr a, s1) /\ k a s1 = (inr b, s').
Proof.
  unfold bind. destruct (m s) as [[e|a] s1]; [discriminate|]. eauto.
Qed.

Lemma bind_ok_intro (m : M A) (k : A -> M B) s a s1 :
  m s = (inr a, s1) -> bind m k s = k a s1.
Proof. unfold bind. by intros ->. Qed.

Lemma bind_err (m : M A) (k : A -> M B) s e s1 :
  m s = (inl e, s1) -> bind m k s = (inl e, s1).
Proof. unfold bind. by intros ->. Qed.

Lemma bind_lift_ok (r : result A) (k : A -> M B) s a :
  r = inr a -> bind (lift r) k s = k a s.
Proof. by intros ->. Qed.

Lemma lift_ok_inv (r : result A) s a s' :
  lift r s = (inr a, s') -> r = inr a /\ s' = s.
Proof. unfold lift. intros [= -> ->]. done. Qed.

Lemma gets_ok_inv (f : CryticCompile -> A) s a s' :
  gets f s = (inr a, s') -> a = f s /\ s' = s.
Proof. unfold gets, ok. intros [= <- <-]. done. Qed.

Lemma ret_ok_inv (a a' : A) s s' :
  ret a s = (inr a', s') -> a' = a /\ s' = s.
Proof. unfold ret, ok. intros [= <- <-]. done. Qed.

End Monad.

Lemma modify_ok_inv f s (u : unit) s' :
  modify f s = (inr u, s') -> s' = f s.
Proof. unfold modify, ok. by intros [= <-]. Qed.

Lemma bind_assoc {A B C} (m : M A) (k1 : A -> M B) (k2 : B -> M C) s :
  bind (bind m k1) k2 s = bind m (fun x => bind (k1 x) k2) s.
Proof. unfold bind. by destruct (m s) as [[e|a] s1]. Qed.

Lemma bind_gets {A B} (f : CryticCompile -> A) (k : A -> M B) s :
  bind (gets f) k s = k (f s) s.
Proof. reflexivity. Qed.

Lemma bind_ext {A B} (m : M A) (k1 k2 : A -> M B) s :
  (forall a s1, k1 a s1 = k2 a s1) -> bind m k1 s = bind m k2 s.
Proof. intros H. unfold bind. destruct (m s) as [[e|a] s1]; [done|apply H]. Qed.

Lemma for_each_ext {A} (l : list A) (b1 b2 : A -> M unit) s :
  (forall x s1, b1 x s1 = b2 x s1) -> for_each l b1 s = for_each l b2 s.
Proof.
  intros H. revert s. induction l as [|x l IH]; intros s; simpl; [done|].
  unfold bind. rewrite H. destruct (b2 x s) as [[e|[]] s1]; [done|apply IH].
Qed.

Lemma for_each_fmap {A B} (f : A -> B) (l : list A) (body : B -> M unit) s :
  for_each (f <$> l) body s = for_each l (fun x => body (f x)) s.
Proof.
  revert s. induction l as [|x l IH]; intros s; simpl; [done|].
  by apply bind_ext.
Qed.

(** A property of the session that a computation keeps, whether it
    returns or raises. *)
Definition preserves {A} (P : CryticCompile -> Prop) (m : M A) : Prop :=
  forall s r s', P s -> m s = (r, s') -> P s'.

Section Preserves.
Context {A B : Type} (P : CryticCompile -> Prop).

Lemma preserves_ret (a : A) : preserves P (ret a).
Proof. intros s r s' HP [= _ <-]. done. Qed.

Lemma preserves_raise (e : exn) : preserves P (@raise A e).
Proof. intros s r s' HP [= _ <-]. done. Qed.

Lemma preserves_lift (r : result A) : preserves P (lift r).
Proof. intros s r' s' HP [= _ <-]. done. Qed.

Lemma preserves_gets (f : CryticCompile -> A) : preserves P (gets f).
Proof. intros s r s' HP [= _ <-]. done. Qed.

Lemma preserves_modify f :
  (forall s, P s -> P (f s)) -> preserves P (modify f).
Proof. intros Hf s r s' HP [= _ <-]. auto. Qed.

Lemma preserves_bind (m : M A) (k : A -> M B) :
  preserves P m -> (forall a, preserves P (k a)) -> preserves P (bind m k).
Proof.
  intros Hm Hk s r s' HP. unfold bind.
  destruct (m s) as [[e|a] s1] eqn:Hms.
  - intros [= <- <-]. eapply Hm; eauto.
  - intros Hka. eapply Hk; [|exact Hka]. eapply Hm; eauto.
Qed.

Lemma preserves_for_each (l : list A) (body : A -> M unit) :
  (forall x, x ∈ l -> preserves P (body x)) -> preserves P (for_each l body).
Proof.
  induction l as [|x l IH]; intros Hbody; simpl.
  - intros s r s' HP [= _ <-]. done.
  - unfold preserves. intros s r s' HP. unfold bind.
    destruct (body x s) as [[e|[]] s1] eqn:Hx.
    + intros [= <- <-]. eapply Hbody; [left|exact HP|exact Hx].
    + intros Hrest. eapply IH; [|eapply Hbody; [left|exact HP|exact Hx]|exact Hrest].
      intros y Hy. apply Hbody. by right.
Qed.

Lemma preserves_for_fold (l : list A) (acc : B) (body : B -> A -> M B) :
  (forall b x, x ∈ l -> preserves P (body b x)) ->
  preserves P (for_fold l acc body).
Proof.
  revert acc. induction l as [|x l IH]; intros acc Hbody; simpl.
  - intros s r s' HP [= _ <-]. done.
  - unfold preserves. intros s r s' HP. unfold bind.
    destruct (body acc x s) as [[e|acc'] s1] eqn:Hx.
    + intros [= <- <-]. eapply Hbody; [left|exact HP|exact Hx].
    + intros Hrest.
      eapply IH; [|eapply Hbody; [left|exact HP|exact Hx]|exact Hrest].
      intros b y Hy. apply Hbody. by right.
Qed.

End Preserves.

(** Invariants of loops that return. *)
Lemma for_each_ok_ind {A} (I : CryticCompile -> Prop) (l : list A)
  (body : A -> M unit) s s' u :
  I s ->
  (forall x s1 s2 u', x ∈ l -> I s1 -> body x s1 = (inr u', s2) -> I s2) ->
  for_each l body s = (inr u, s') -> I s'.
Proof.
  revert s. induction l as [|x l IH]; intros s HI Hbody; simpl.
  - intros H. by apply ret_ok_inv in H as [_ ->].
  - intros H. apply bind_ok_inv in H as (u' & s1 & Hx & Hrest).
    eapply IH; [| |exact Hrest].
    + eapply Hbody; [left|exact HI|exact Hx].
    + intros y s2 s3 u'' Hy. apply Hbody. by right.
Qed.

(** [on_unit], [new_CompilationUnit] and [asts_setitem] never remove a
    unit from the session. *)
Definition has_unit (key : string) (s : CryticCompile) : Prop :=
  is_Some (compilation_units s !! key).

Lemma preserves_on_unit P key f :
  (forall s, P s ->
     P (Session.set_units (alter f key (compilation_units s)) s)) ->
  preserves P (on_unit key f).
Proof. intros H. by apply preserves_modify. Qed.

Lemma has_unit_on_unit k key f : preserves (has_unit k) (on_unit key f).
Proof.
  apply preserves_modify. intros s [u Hu]. unfold has_unit; simpl.
  destruct (decide (key = k)) as [->|Hne].
  - rewrite lookup_alter_eq, Hu. by eexists.
  - rewrite lookup_alter_ne by done. by eexists.
Qed.

Lemma has_unit_new k key : preserves (has_unit k) (new_CompilationUnit key).
Proof.
  apply preserves_modify. intros s [u Hu]. unfold has_unit; simpl.
  destruct (decide (key = k)) as [->|Hne].
  - rewrite lookup_insert_eq. by eexists.
  - rewrite lookup_insert_ne by done. by eexists.
Qed.

Lemma has_unit_dependencies_add k x : preserves (has_unit k) (dependencies_add x).
Proof.
  intros s r s' HP. unfold dependencies_add.
  destruct (Py.set_add x (dependencies s)); intros [= _ <-]; exact HP.
Qed.

Lemma has_unit_filenames_add k f : preserves (has_unit k) (filenames_add f).
Proof. apply preserves_modify. by intros s HP. Qed.

Lemma has_unit_asts_setitem k key x v :
  preserves (has_unit k) (asts_setitem key x v).
Proof.
  intros s r s' HP. unfold asts_setitem.
  destruct (compilation_units s !! key) as [u|] eqn:Hu;
    [|by intros [= _ <-]].
  destruct (Py.setitem (asts u) x v); intros [= _ <-]; [exact HP|].
  destruct HP as [u' Hu']. unfold has_unit; simpl.
  destruct (decide (key = k)) as [->|Hne].
  - rewrite lookup_insert_eq. by eexists.
  - rewrite lookup_insert_ne by done. by eexists.
Qed.

Local Arguments bind : simpl never.
Local Arguments lift : simpl never.
Local Arguments modify : simpl never.
Local Arguments gets : simpl never.
Local Arguments ret : simpl never.
Local Arguments raise : simpl never.
Local Arguments on_unit : simpl never.
Local Arguments new_CompilationUnit : simpl never.
Local Arguments dependencies_add : simpl never.
Local Arguments filenames_add : simpl never.
Local Arguments asts_setitem : simpl never.

Create HintDb pres discriminated.
#[local] Hint Resolve has_unit_on_unit has_unit_new has_unit_dependencies_add
  has_unit_filenames_add has_unit_asts_setitem : pres.

(** Splits a goal [preserves P m] along the structure of [m]; the leaves
    that write the session are closed with the hint database [pres]. *)
Ltac solve_preserves :=
  repeat first
    [ apply preserves_bind; [|intros ?]
    | apply preserves_lift
    | apply preserves_ret
    | apply preserves_raise
    | apply preserves_gets
    | solve [auto with pres]
    | match goal with
      | |- preserves _ (let '(_, _) := ?x in _) => destruct x
      | |- preserves _ (if ?b then _ else _) => destruct b
      | |- preserves _ (match ?x with _ => _ end) => destruct x
      end ].

(** Takes a hypothesis [H : m s = (inr a, s')] apart along the binds of
    [m], naming the intermediate results and sessions. *)
Lemma set_units_set_units m m' s :
  Session.set_units m (Session.set_units m' s) = Session.set_units m s.
Proof. reflexivity. Qed.

Lemma set_dependencies_set_dependencies l l' s :
  Session.set_dependencies l (Session.set_dependencies l' s)
  = Session.set_dependencies l s.
Proof. reflexivity. Qed.

Ltac norm_session_in H :=
  rewrite ?set_units_set_units, ?set_dependencies_set_dependencies in H;
  cbn [compilation_units filenames dependencies package package_name
       working_dir platform Session.set_units Session.set_filenames
       Session.set_dependencies Session.set_package_name
       Session.set_working_dir Session.set_platform] in H.

Ltac norm_session :=
  rewrite ?set_units_set_units, ?set_dependencies_set_dependencies;
  cbn [compilation_units filenames dependencies package package_name
       working_dir platform Session.set_units Session.set_filenames
       Session.set_dependencies Session.set_package_name
       Session.set_working_dir Session.set_platform].

Ltac inv_ok H :=
  repeat
    (match type of H with
     | bind _ _ _ = (inr _, _) =>
         let a := fresh "a" in
         let s1 := fresh "s" in
         let H1 := fresh "Hstep" in
         apply bind_ok_inv in H as (a & s1 & H1 & H);
         try first
           [ apply modify_ok_inv in H1 as ->; norm_session_in H
           | apply gets_ok_inv in H1 as [-> ->]
           | apply lift_ok_inv in H1 as [H1 ->] ]
     | ret _ _ = (inr _, _) => apply ret_ok_inv in H as [? ?]
     end).

(** ** The optimizer flag of a Dapp unit *)

Section DappOptimized.

Variable json_loads : string -> result json.
Variable findall_version : string -> list string.

(** The optimizer setting a contract's build output reports: the value
    at [settings.optimizer.enabled] of its parsed [metadata]. *)
Definition reported_flag (info : json) : option json :=
  match rbind (rbind (Py.getitem info "metadata") (Dapp.loads json_loads))
          (fun metadata =>
             rbind (Py.getitem2 metadata "settings" "optimizer")
               (fun o => Py.getitem o "enabled")) with
  | inr v => Some v
  | inl _ => None
  end.

Definition reports_boolean (info : json) : Prop :=
  match reported_flag info with
  | Some (JBool _) | None => True
  | Some _ => False
  end.

Definition flag_enabled (info : json) : bool :=
  match reported_flag info with
  | Some (JBool b) => b
  | _ => false
  end.

(** Every contract entry of the build output, in the order the two loops
    visit them. *)
Definition contract_infos (targets_json : json) : list json :=
  match rbind (Py.getitem targets_json "contracts") Py.items with
  | inr files =>
      mjoin ((fun file : string * json =>
                match Py.items file.2 with
                | inr infos => infos.*2
                | inl _ => []
                end) <$> files)
  | inl _ => []
  end.

Lemma update_optimized_ok acc info acc' :
  Dapp.update_optimized json_loads acc info = ok acc' ->
  match reported_flag info with
  | Some v => Dapp.py_or acc v = ok acc'
  | None => acc' = acc
  end.
Proof.
  unfold Dapp.update_optimized, reported_flag, Py.getitem2, Py.getitem.
  destruct info as [| | |s|l|kvs]; simpl; try discriminate.
  - destruct (Py.is_substring "metadata" s); simpl; [discriminate|].
    by intros [= <-].
  - destruct (existsb _ l); simpl; [discriminate|]. by intros [= <-].
  - destruct (Py.assoc "metadata" kvs) as [m|]; simpl; [|by intros [= <-]].
    destruct (Dapp.loads json_loads m) as [e|md]; simpl; [discriminate|].
    destruct md as [| | |s|l|mkvs]; simpl; try discriminate.
    + destruct (Py.is_substring "settings" s); simpl; [discriminate|].
      by intros [= <-].
    + destruct (existsb _ l); simpl; [discriminate|]. by intros [= <-].
    + destruct (Py.assoc "settings" mkvs) as [st|]; simpl;
        [|by intros [= <-]].
      destruct st as [| | |s|l|skvs]; simpl; try discriminate.
      * destruct (Py.is_substring "optimizer" s); simpl; [discriminate|].
        by intros [= <-].
      * destruct (existsb _ l); simpl; [discriminate|]. by intros [= <-].
      * destruct (Py.assoc "optimizer" skvs) as [op|]; simpl;
          [|by intros [= <-]].
        destruct op as [| | |s|l|okvs]; simpl; try discriminate.
        -- destruct (Py.is_substring "enabled" s); simpl; [discriminate|].
           by intros [= <-].
        -- destruct (existsb _ l); simpl; [discriminate|]. by intros [= <-].
        -- destruct (Py.assoc "enabled" okvs) as [en|]; simpl;
             [done|by intros [= <-]].
Qed.

Lemma compile_contract_optimized key file o v entry o' v' s s' :
  Dapp.compile_contract json_loads findall_version key file (o, v) entry s
  = (inr (o', v'), s') ->
  Dapp.update_optimized json_loads o entry.2 = ok o'.
Proof.
  destruct entry as [name info]. unfold Dapp.compile_contract. intros H.
  inv_ok H. unfold ok. simpl. congruence.
Qed.

Lemma py_or_bool b v acc' :
  Dapp.py_or (JBool b) v = ok acc' ->
  forall b', v = JBool b' -> acc' = JBool (b || b').
Proof. intros H b' ->. simpl in H. by injection H as <-. Qed.

Lemma contracts_loop_optimized key file infos : forall b v o' v' s s',
  Forall reports_boolean infos.*2 ->
  for_fold infos (JBool b, v)
    (Dapp.compile_contract json_loads findall_version key file) s
  = (inr (o', v'), s') ->
  o' = JBool (b || existsb flag_enabled infos.*2).
Proof.
  induction infos as [|entry infos IH]; intros b v o' v' s s' Hbool; simpl.
  - intros H. apply ret_ok_inv in H as [[= -> ->] _].
    by rewrite orb_false_r.
  - intros H. apply bind_ok_inv in H as ([o1 v1] & s1 & Hentry & Hrest).
    apply Forall_cons in Hbool as [Hb Hbool].
    apply compile_contract_optimized, update_optimized_ok in Hentry.
    unfold reports_boolean in Hb. unfold flag_enabled at 1.
    destruct (reported_flag entry.2) as [[| b' | | | |]|]; try done.
    + simpl in Hentry. injection Hentry as <-.
      rewrite (IH _ _ _ _ _ _ Hbool Hrest). by rewrite orb_assoc.
    + subst o1. by rewrite (IH _ _ _ _ _ _ Hbool Hrest).
Qed.

Lemma files_loop_optimized key files : forall b v o' v' s s',
  Forall reports_boolean
    (mjoin ((fun file : string * json =>
               match Py.items file.2 with
               | inr infos => infos.*2
               | inl _ => []
               end) <$> files)) ->
  for_fold files (JBool b, v)
    (fun locals '(original_filename, contracts_info) =>
       bind (lift (Py.items contracts_info)) (fun infos =>
         for_fold infos locals
           (Dapp.compile_contract json_loads findall_version key
              original_filename))) s
  = (inr (o', v'), s') ->
  o' = JBool (b || existsb flag_enabled
                (mjoin ((fun file : string * json =>
                           match Py.items file.2 with
                           | inr infos => infos.*2
                           | inl _ => []
                           end) <$> files))).
Proof.
  induction files as [|[file info] files IH]; intros b v o' v' s s' Hbool;
    simpl.
  - intros H. apply ret_ok_inv in H as [[= -> ->] _].
    by rewrite orb_false_r.
  - intros H. apply bind_ok_inv in H as ([o1 v1] & s1 & Hfile & Hrest).
    apply bind_ok_inv in Hfile as (infos & s0 & Hitems & Hloop).
    apply lift_ok_inv in Hitems as [Hitems ->].
    simpl in Hbool. rewrite Hitems in *.
    apply Forall_app in Hbool as [Hb1 Hb2].
    apply (contracts_loop_optimized _ _ _ _ _ _ _ _ _ Hb1) in Hloop.
    subst o1. rewrite (IH _ _ _ _ _ _ Hb2 Hrest).
    by rewrite existsb_app, orb_assoc.
Qed.

End DappOptimized.

(** Modelled from the spec: a session that has just been created holds no
    unit, no filename and no dependency. *)
Definition new_session (p : Platform) : CryticCompile :=
  {| compilation_units := ∅; filenames := []; dependencies := [];
     package := JNull; package_name := JNull; working_dir := JStr ".";
     platform := p |}.

Module DappExample.

(** A stand-in for [json.loads] on the two metadata strings of the
    example, and for the version pattern. *)
Definition metadata_of (enabled : bool) : json :=
  JObj [("compiler", JObj [("version", JStr "0.6.7+commit.b8d736ae")]);
        ("settings", JObj [("optimizer", JObj [("enabled", JBool enabled);
                                               ("runs", JNum 200)])])].

Definition json_loads (s : string) : result json :=
  if String.eqb s "metadata: optimizer enabled" then ok (metadata_of true)
  else if String.eqb s "metadata: optimizer disabled"
       then ok (metadata_of false)
       else throw JSONDecodeError.

Definition findall_version (s : string) : list string :=
  if String.eqb s "0.6.7+commit.b8d736ae" then ["0.6.7"] else [].

Definition info (metadata : string) : json :=
  JObj [("abi", JArr []);
        ("metadata", JStr metadata);
        ("evm",
         JObj [("bytecode",
                JObj [("object", JStr "6080"); ("sourceMap", JStr "0:9:0;;")]);
               ("deployedBytecode", JObj [("object", JStr "6080")])])].

(** Three contracts whose optimizer flags are false, true, false. *)
Definition targets_json : json :=
  JObj [("contracts",
         JObj [("src/token.sol",
                JObj [("src/token.sol:A", info "metadata: optimizer disabled");
                      ("src/token.sol:B", info "metadata: optimizer enabled");
                      ("src/token.sol:C", info "metadata: optimizer disabled")])]);
        ("sources", JObj [("src/token.sol", JObj [("ast", JObj [])])])].

Definition got_version : CompilerVersion :=
  {| compiler := JStr "solc"; version := JNull; optimized := JNull |}.

Definition run : result unit * CryticCompile :=
  Dapp.compile json_loads findall_version "." got_version targets_json
    (new_session (DappInstance ∅)).

End DappExample.

(** C6. When [Dapp.compile] returns on a build output whose contracts
    report boolean optimizer flags, the unit's [CompilerVersion] has
    [optimized] equal to the logical OR of the flags the contracts
    report (a contract that reports none counts as false). *)
Theorem Dapp_optimized_is_or json_loads findall_version
  (target : string) (got_version : CompilerVersion) (targets_json : json)
  (s s' : CryticCompile) (u : unit) :
  Dapp.compile json_loads findall_version target got_version targets_json s
  = (inr u, s') ->
  Forall (reports_boolean json_loads) (contract_infos targets_json) ->
  exists unit cv,
    compilation_units s' !! target = Some unit
    /\ compiler_version unit = Some cv
    /\ optimized cv
       = JBool (existsb (flag_enabled json_loads) (contract_infos targets_json)).
Proof.
  intros H Hbool. unfold Dapp.compile in H. inv_ok H.
  apply modify_ok_inv in H.
  match goal with
  | Hf : for_fold _ _ _ _ = (inr ?l, _) |- _ =>
      rename Hf into Hfiles; destruct l as [o' v']
  end.
  match goal with
  | Hs : for_each _ _ _ = _ |- _ => rename Hs into Hsources
  end.
  match goal with
  | Hi : rbind (Py.getitem targets_json "contracts") Py.items = _ |- _ =>
      rename Hi into Hitems
  end.
  match type of Hsources with
  | for_each _ _ _ = (_, ?s1) => assert (Hunit : has_unit target s1)
  end.
  { eapply preserves_for_each; [| |exact Hsources].
    - intros [path info] _. solve_preserves.
    - eapply preserves_for_fold; [| |exact Hfiles].
      + intros locals [file infos] _. solve_preserves.
        apply preserves_for_fold. intros [o v] [name info] _.
        unfold Dapp.compile_contract. solve_preserves.
      + unfold has_unit. simpl. rewrite lookup_alter_eq, lookup_insert_eq.
        by eexists. }
  destruct Hunit as [u0 Hu0]. subst s'. simpl.
  rewrite lookup_alter_eq, Hu0. simpl. eexists _, _.
  split; [reflexivity|]. split; [reflexivity|]. simpl.
  unfold contract_infos in *. rewrite Hitems in *.
  by apply (files_loop_optimized _ _ _ _ _ _ _ _ _ _ Hbool) in Hfiles.
Qed.

Lemma Dapp_optimized_is_or_witness :
  DappExample.run.1 = inr tt
  /\ exists unit cv,
      compilation_units DappExample.run.2 !! "." = Some unit
      /\ compiler_version unit = Some cv
      /\ optimized cv = JBool true.
Proof.
  split; [vm_compute; reflexivity|].
  destruct (Dapp_optimized_is_or DappExample.json_loads
              DappExample.findall_version "." DappExample.got_version
              DappExample.targets_json (new_session (DappInstance ∅))
              DappExample.run.2 tt)
    as (unit & cv & Hunit & Hcv & Hopt).
  - vm_compute. reflexivity.
  - vm_compute. repeat constructor.
  - exists unit, cv. split; [exact Hunit|]. split; [exact Hcv|].
    rewrite Hopt. vm_compute. reflexivity.
Defined.

(** ** The per-contract step of the import

    Both import paths run the same statements on a contract entry; they
    differ in the key of the unit they write to. *)

(** The loop body of lines 199-223 and of lines 248-274, for the unit
    registered under [key]. *)
Definition load_contract (key : string) (entry : string * json) : M unit :=
  let '(contract_name, contract) := entry in
  (on_unit key (Unit.add_contract_name contract_name) ;;
   f_absolute <- lift (Py.getitem2 contract "filenames" "absolute") ;;
   f_relative <- lift (Py.getitem2 contract "filenames" "relative") ;;
   f_short <- lift (Py.getitem2 contract "filenames" "short") ;;
   f_used <- lift (Py.getitem2 contract "filenames" "used") ;;
   let filename := {| absolute := f_absolute; used := f_used;
                      relative := f_relative; short := f_short |} in
   on_unit key (Unit.set_filename contract_name (FilenameObj filename)) ;;
   abi <- lift (Py.getitem contract "abi") ;;
   on_unit key (Unit.set_abi contract_name abi) ;;
   bin <- lift (Py.getitem contract "bin") ;;
   on_unit key (Unit.set_bytecode_init contract_name bin) ;;
   bin_runtime <- lift (Py.getitem contract "bin-runtime") ;;
   on_unit key (Unit.set_bytecode_runtime contract_name bin_runtime) ;;
   srcmap <- lift (rbind (Py.getitem contract "srcmap")
                     (fun m => Py.split m ";")) ;;
   on_unit key (Unit.set_srcmap_init contract_name srcmap) ;;
   srcmap_runtime <- lift (rbind (Py.getitem contract "srcmap-runtime")
                             (fun m => Py.split m ";")) ;;
   on_unit key (Unit.set_srcmap_runtime contract_name srcmap_runtime) ;;
   libraries <- lift (Py.getitem contract "libraries") ;;
   on_unit key (Unit.set_libraries contract_name libraries) ;;
   userdoc <- lift (Py.get contract "userdoc" (JObj [])) ;;
   devdoc <- lift (Py.get contract "devdoc" (JObj [])) ;;
   on_unit key (Unit.set_natspec contract_name
                  {| userdoc := userdoc; devdoc := devdoc |}) ;;
   is_dep <- lift (Py.getitem contract "is_dependency") ;;
   if Py.truthy is_dep then
     dependencies_add (absolute filename) ;;
     dependencies_add (relative filename) ;;
     dependencies_add (short filename) ;;
     dependencies_add (used filename)
   else ret tt)%M.

Lemma legacy_unfold loaded_json :
  Standard._load_from_compile_legacy loaded_json
  = (new_CompilationUnit "legacy" ;;
     asts <- lift (Py.getitem loaded_json "asts") ;;
     on_unit "legacy" (Unit.set_asts asts) ;;
     cv_compiler <- lift (Py.getitem2 loaded_json "compiler" "compiler") ;;
     cv_version <- lift (Py.getitem2 loaded_json "compiler" "version") ;;
     cv_optimized <- lift (Py.getitem2 loaded_json "compiler" "optimized") ;;
     on_unit "legacy" (Unit.set_compiler_version
                         {| compiler := cv_compiler; version := cv_version;
                            optimized := cv_optimized |}) ;;
     contracts <- lift (rbind (Py.getitem loaded_json "contracts") Py.items) ;;
     for_each contracts (load_contract "legacy"))%M.
Proof. reflexivity. Qed.

Lemma load_unit_unfold key compilation_unit_json :
  Standard.load_unit (key, compilation_unit_json)
  = (new_CompilationUnit key ;;
     cv_compiler <- lift (Py.getitem2 compilation_unit_json "compiler" "compiler") ;;
     cv_version <- lift (Py.getitem2 compilation_unit_json "compiler" "version") ;;
     cv_optimized <- lift (Py.getitem2 compilation_unit_json "compiler" "optimized") ;;
     on_unit key (Unit.set_compiler_version
                    {| compiler := cv_compiler; version := cv_version;
                       optimized := cv_optimized |}) ;;
     contracts <- lift (rbind (Py.getitem compilation_unit_json "contracts")
                          Py.items) ;;
     for_each contracts (load_contract key) ;;
     asts <- lift (Py.getitem compilation_unit_json "asts") ;;
     on_unit key (Unit.set_asts asts))%M.
Proof. reflexivity. Qed.

(** What one contract entry must provide, read in the order of the code. *)
Record ContractData := {
  d_filename : Filename;
  d_abi : json;
  d_bin : json;
  d_bin_runtime : json;
  d_srcmap : list string;
  d_srcmap_runtime : list string;
  d_libraries : json;
  d_natspec : Natspec;
  d_is_dependency : json;
}.

Definition parse_contract (contract : json) : result ContractData :=
  rbind (Py.getitem2 contract "filenames" "absolute") (fun f_absolute =>
  rbind (Py.getitem2 contract "filenames" "relative") (fun f_relative =>
  rbind (Py.getitem2 contract "filenames" "short") (fun f_short =>
  rbind (Py.getitem2 contract "filenames" "used") (fun f_used =>
  rbind (Py.getitem contract "abi") (fun abi =>
  rbind (Py.getitem contract "bin") (fun bin =>
  rbind (Py.getitem contract "bin-runtime") (fun bin_runtime =>
  rbind (rbind (Py.getitem contract "srcmap") (fun m => Py.split m ";"))
    (fun srcmap =>
  rbind (rbind (Py.getitem contract "srcmap-runtime")
           (fun m => Py.split m ";")) (fun srcmap_runtime =>
  rbind (Py.getitem contract "libraries") (fun libraries =>
  rbind (Py.get contract "userdoc" (JObj [])) (fun userdoc =>
  rbind (Py.get contract "devdoc" (JObj [])) (fun devdoc =>
  rbind (Py.getitem contract "is_dependency") (fun is_dep =>
  ok {| d_filename := {| absolute := f_absolute; used := f_used;
                         relative := f_relative; short := f_short |};
        d_abi := abi; d_bin := bin; d_bin_runtime := bin_runtime;
        d_srcmap := srcmap; d_srcmap_runtime := srcmap_runtime;
        d_libraries := libraries;
        d_natspec := {| userdoc := userdoc; devdoc := devdoc |};
        d_is_dependency := is_dep |}))))))))))))).

(** The writes of one contract to its unit. *)
Definition populate (n : string) (d : ContractData) (u : CompilationUnit)
  : CompilationUnit :=
  {| asts := asts u; compiler_version := compiler_version u;
     contracts_names := {[n]} ∪ contracts_names u;
     contracts_filenames :=
       <[n:=FilenameObj (d_filename d)]> (contracts_filenames u);
     abis := <[n:=d_abi d]> (abis u);
     bytecodes_init := <[n:=d_bin d]> (bytecodes_init u);
     bytecodes_runtime := <[n:=d_bin_runtime d]> (bytecodes_runtime u);
     srcmaps_init := <[n:=d_srcmap d]> (srcmaps_init u);
     srcmaps_runtime := <[n:=d_srcmap_runtime d]> (srcmaps_runtime u);
     libraries := <[n:=d_libraries d]> (libraries u);
     natspec := <[n:=d_natspec d]> (natspec u) |}.

(** The four views of a filename, in the order the import adds them. *)
Definition views (f : Filename) : list json :=
  [absolute f; relative f; short f; used f].

Fixpoint add_all (xs : list json) (deps : list json) : result (list json) :=
  match xs with
  | [] => ok deps
  | x :: xs' => rbind (Py.set_add x deps) (add_all xs')
  end.

(** The writes of one contract to the dependency set. *)
Definition add_views (d : ContractData) (deps : list json)
  : result (list json) :=
  if Py.truthy (d_is_dependency d) then add_all (views (d_filename d)) deps
  else ok deps.

Lemma dependencies_add_ok x s u s' :
  dependencies_add x s = (inr u, s') <->
  exists l, Py.set_add x (dependencies s) = ok l
            /\ s' = Session.set_dependencies l s.
Proof.
  unfold dependencies_add. destruct (Py.set_add x (dependencies s)) as [e|l].
  - split; [discriminate|]. by intros (l & [=] & _).
  - split.
    + intros [= <-]. by exists l.
    + intros (l' & [= <-] & ->). by destruct u.
Qed.

Lemma dependencies_add_views f s u s' :
  bind (dependencies_add (absolute f)) (fun _ =>
    bind (dependencies_add (relative f)) (fun _ =>
      bind (dependencies_add (short f)) (fun _ =>
        dependencies_add (used f)))) s = (inr u, s') <->
  exists l, add_all (views f) (dependencies s) = ok l
            /\ s' = Session.set_dependencies l s.
Proof.
  unfold views, add_all. split.
  - intros H.
    apply bind_ok_inv in H as (u1 & s1 & H1 & H).
    apply bind_ok_inv in H as (u2 & s2 & H2 & H).
    apply bind_ok_inv in H as (u3 & s3 & H3 & H).
    apply dependencies_add_ok in H1 as (l1 & Hl1 & ->).
    apply dependencies_add_ok in H2 as (l2 & Hl2 & ->).
    apply dependencies_add_ok in H3 as (l3 & Hl3 & ->).
    apply dependencies_add_ok in H as (l4 & Hl4 & ->).
    simpl in *. exists l4. rewrite Hl1; simpl. rewrite Hl2; simpl.
    rewrite Hl3; simpl. rewrite Hl4. done.
  - intros (l & Hl & ->).
    destruct (Py.set_add (absolute f) (dependencies s)) as [e|l1] eqn:Hl1;
      [discriminate|]. simpl in Hl.
    destruct (Py.set_add (relative f) l1) as [e|l2] eqn:Hl2;
      [discriminate|]. simpl in Hl.
    destruct (Py.set_add (short f) l2) as [e|l3] eqn:Hl3;
      [discriminate|]. simpl in Hl.
    destruct (Py.set_add (used f) l3) as [e|l4] eqn:Hl4;
      [discriminate|]. simpl in Hl. injection Hl as <-.
    unfold bind, dependencies_add. rewrite Hl1. simpl. rewrite Hl2. simpl.
    rewrite Hl3. simpl. rewrite Hl4. by destruct u.
Qed.

Lemma bind_modify {B} f (k : unit -> M B) s :
  bind (modify f) k s = k tt (f s).
Proof. reflexivity. Qed.

Lemma bind_on_unit {B} key f (k : unit -> M B) s :
  bind (on_unit key f) k s
  = k tt (Session.set_units (alter f key (compilation_units s)) s).
Proof. reflexivity. Qed.

Lemma alter_setters' n key (m : gmap string CompilationUnit) f a b br sm smr l ns :
  alter (Unit.set_natspec n ns) key
    (alter (Unit.set_libraries n l) key
       (alter (Unit.set_srcmap_runtime n smr) key
          (alter (Unit.set_srcmap_init n sm) key
             (alter (Unit.set_bytecode_runtime n br) key
                (alter (Unit.set_bytecode_init n b) key
                   (alter (Unit.set_abi n a) key
                      (alter (Unit.set_filename n (FilenameObj f)) key
                         (alter (Unit.add_contract_name n) key m))))))))
  = alter (populate n {| d_filename := f; d_abi := a; d_bin := b;
                         d_bin_runtime := br; d_srcmap := sm;
                         d_srcmap_runtime := smr; d_libraries := l;
                         d_natspec := ns; d_is_dependency := JNull |}) key m.
Proof. rewrite !alter_alter_eq. reflexivity. Qed.

Lemma populate_setters n d u :
  Unit.set_natspec n (d_natspec d)
    (Unit.set_libraries n (d_libraries d)
       (Unit.set_srcmap_runtime n (d_srcmap_runtime d)
          (Unit.set_srcmap_init n (d_srcmap d)
             (Unit.set_bytecode_runtime n (d_bin_runtime d)
                (Unit.set_bytecode_init n (d_bin d)
                   (Unit.set_abi n (d_abi d)
                      (Unit.set_filename n (FilenameObj (d_filename d))
                         (Unit.add_contract_name n u))))))))
  = populate n d u.
Proof. reflexivity. Qed.

Lemma alter_setters n d key (m : gmap string CompilationUnit) :
  alter (Unit.set_natspec n (d_natspec d)) key
    (alter (Unit.set_libraries n (d_libraries d)) key
       (alter (Unit.set_srcmap_runtime n (d_srcmap_runtime d)) key
          (alter (Unit.set_srcmap_init n (d_srcmap d)) key
             (alter (Unit.set_bytecode_runtime n (d_bin_runtime d)) key
                (alter (Unit.set_bytecode_init n (d_bin d)) key
                   (alter (Unit.set_abi n (d_abi d)) key
                      (alter (Unit.set_filename n (FilenameObj (d_filename d))) key
                         (alter (Unit.add_contract_name n) key m))))))))
  = alter (populate n d) key m.
Proof. rewrite !alter_alter_eq. reflexivity. Qed.

Lemma load_contract_ok key n c s u s' :
  load_contract key (n, c) s = (inr u, s') <->
  exists d deps',
    parse_contract c = ok d
    /\ add_views d (dependencies s) = ok deps'
    /\ s' = Session.set_dependencies deps'
              (Session.set_units
                 (alter (populate n d) key (compilation_units s)) s).
Proof.
  split.
  - unfold load_contract. intros H. inv_ok H.
    unfold parse_contract.
    repeat match goal with
           | Hs : _ = inr _ |- _ => rewrite Hs; clear Hs; simpl
           end.
    match type of H with
    | (if Py.truthy ?flag then _ else _) _ = _ =>
        destruct (Py.truthy flag) eqn:Hflag
    end.
    + apply dependencies_add_views in H as (l & Hl & ->).
      eexists _, l. split; [reflexivity|]. unfold add_views.
      cbn [d_is_dependency d_filename]. rewrite Hflag.
      split; [exact Hl|]. by rewrite <- alter_setters.
    + apply ret_ok_inv in H as [_ ->].
      eexists _, (dependencies s). split; [reflexivity|]. unfold add_views.
      cbn [d_is_dependency d_filename]. rewrite Hflag.
      split; [reflexivity|]. rewrite <- alter_setters. by destruct s.
  - intros (d & deps' & Hparse & Hadd & ->).
    unfold parse_contract in Hparse.
    repeat match type of Hparse with
           | rbind ?r _ = _ =>
               let H := fresh "Hr" in
               destruct r eqn:H; [discriminate|]; simpl in Hparse
           end.
    injection Hparse as <-. unfold load_contract.
    repeat first
      [ rewrite bind_on_unit; norm_session
      | erewrite bind_lift_ok by eassumption ].
    unfold add_views in Hadd. cbn [d_is_dependency d_filename] in Hadd.
    rewrite alter_setters'.
    destruct (Py.truthy _).
    + apply dependencies_add_views. exists deps'. split; [exact Hadd|done].
    + injection Hadd as <-. destruct u. by destruct s.
Qed.

(** The loop over the contract entries of one unit, as a function of the
    session: [None] when some entry makes the loop raise. *)
Definition write_contract (key : string) (n : string) (d : ContractData)
  (deps' : list json) (s : CryticCompile) : CryticCompile :=
  Session.set_dependencies deps'
    (Session.set_units (alter (populate n d) key (compilation_units s)) s).

Fixpoint load_contracts (key : string) (cs : list (string * json))
  (s : CryticCompile) : option CryticCompile :=
  match cs with
  | [] => Some s
  | (n, c) :: rest =>
      match parse_contract c with
      | inr d =>
          match add_views d (dependencies s) with
          | inr deps' => load_contracts key rest (write_contract key n d deps' s)
          | inl _ => None
          end
      | inl _ => None
      end
  end.

Lemma contracts_loop_ok key cs : forall s u s',
  for_each cs (load_contract key) s = (inr u, s') <->
  load_contracts key cs s = Some s'.
Proof.
  induction cs as [|[n c] cs IH]; intros s u s'; simpl.
  - unfold ret, ok. destruct u. split; intros [= <-]; done.
  - split.
    + intros H. apply bind_ok_inv in H as (u' & s1 & Hc & Hrest).
      apply load_contract_ok in Hc as (d & deps' & Hd & Ha & ->).
      unfold ok in *. rewrite Hd, Ha. by apply IH in Hrest.
    + destruct (parse_contract c) as [e|d] eqn:Hd; [discriminate|].
      destruct (add_views d (dependencies s)) as [e|deps'] eqn:Ha;
        [discriminate|].
      intros Hrest. erewrite bind_ok_intro;
        [|apply (load_contract_ok _ _ _ _ tt); eexists _, _; eauto].
      by apply IH.
Qed.

(** The entries of a document that parse, with what they provide. *)
Fixpoint parse_all (cs : list (string * json))
  : option (list (string * ContractData)) :=
  match cs with
  | [] => Some []
  | (n, c) :: rest =>
      match parse_contract c, parse_all rest with
      | inr d, Some ds => Some ((n, d) :: ds)
      | _, _ => None
      end
  end.

Definition populate_all (ds : list (string * ContractData))
  (u : CompilationUnit) : CompilationUnit :=
  foldl (fun u nd => populate nd.1 nd.2 u) u ds.

Fixpoint add_views_all (ds : list (string * ContractData)) (deps : list json)
  : result (list json) :=
  match ds with
  | [] => ok deps
  | (_, d) :: rest => rbind (add_views d deps) (add_views_all rest)
  end.

Lemma load_contracts_Some key cs : forall s s',
  load_contracts key cs s = Some s' <->
  exists ds deps',
    parse_all cs = Some ds
    /\ add_views_all ds (dependencies s) = ok deps'
    /\ s' = Session.set_dependencies deps'
              (Session.set_units
                 (alter (populate_all ds) key (compilation_units s)) s).
Proof.
  induction cs as [|[n c] cs IH]; intros s s'; simpl.
  - split.
    + intros [= <-]. exists [], (dependencies s). repeat split.
      unfold populate_all; simpl. rewrite alter_id by done. by destruct s.
    + intros (ds & deps' & [= <-] & [= <-] & ->).
      unfold populate_all; simpl. rewrite alter_id by done. by destruct s.
  - destruct (parse_contract c) as [e|d]; [by split; [|intros (?&?&?&_)]|].
    split.
    + destruct (add_views d (dependencies s)) as [e|deps1] eqn:Ha;
        [discriminate|].
      intros H. apply IH in H as (ds & deps' & -> & Hadd & ->).
      exists ((n, d) :: ds), deps'. split; [done|]. simpl. rewrite Ha. simpl.
      split; [exact Hadd|]. unfold write_contract. norm_session.
      by rewrite alter_alter_eq.
    + intros (ds & deps' & Hp & Hadd & ->).
      destruct (parse_all cs) as [ds'|] eqn:Hds; [|discriminate].
      injection Hp as <-. simpl in Hadd.
      destruct (add_views d (dependencies s)) as [e|deps1]; [discriminate|].
      simpl in Hadd. apply IH. exists ds', deps'. split; [done|].
      split; [exact Hadd|]. unfold write_contract. norm_session.
      by rewrite alter_alter_eq.
Qed.

(** ** The import of one unit *)

(** [CompilerVersion(compiler=j["compiler"]["compiler"], ...)] *)
Definition parse_compiler (j : json) : result CompilerVersion :=
  rbind (Py.getitem2 j "compiler" "compiler") (fun cv_compiler =>
  rbind (Py.getitem2 j "compiler" "version") (fun cv_version =>
  rbind (Py.getitem2 j "compiler" "optimized") (fun cv_optimized =>
  ok {| compiler := cv_compiler; version := cv_version;
        optimized := cv_optimized |}))).

(** The unit an import builds from a compiler record, contract entries
    and an AST mapping. *)
Definition imported_unit (cv : CompilerVersion)
  (ds : list (string * ContractData)) (a : json) : CompilationUnit :=
  Unit.set_asts a (populate_all ds (Unit.set_compiler_version cv empty_unit)).

Lemma populate_all_set_asts ds : forall a u,
  populate_all ds (Unit.set_asts a u) = Unit.set_asts a (populate_all ds u).
Proof.
  unfold populate_all.
  induction ds as [|[n d] ds IH]; intros a u; simpl; [done|].
  rewrite <- IH. done.
Qed.

Lemma populate_all_set_compiler_version ds : forall cv u,
  populate_all ds (Unit.set_compiler_version cv u)
  = Unit.set_compiler_version cv (populate_all ds u).
Proof.
  unfold populate_all.
  induction ds as [|[n d] ds IH]; intros cv u; simpl; [done|].
  rewrite <- IH. done.
Qed.

Lemma bind_new_unit {B} key (k : unit -> M B) s :
  bind (new_CompilationUnit key) k s
  = k tt (Session.set_units (<[key:=empty_unit]> (compilation_units s)) s).
Proof. reflexivity. Qed.

Lemma parse_compiler_ok j cv :
  parse_compiler j = ok cv <->
  exists c v o,
    Py.getitem2 j "compiler" "compiler" = inr c
    /\ Py.getitem2 j "compiler" "version" = inr v
    /\ Py.getitem2 j "compiler" "optimized" = inr o
    /\ cv = {| compiler := c; version := v; optimized := o |}.
Proof.
  unfold parse_compiler, ok. split.
  - destruct (Py.getitem2 j "compiler" "compiler") as [|c]; [discriminate|].
    destruct (Py.getitem2 j "compiler" "version") as [|v]; [discriminate|].
    destruct (Py.getitem2 j "compiler" "optimized") as [|o]; [discriminate|].
    simpl. intros [= <-]. by exists c, v, o.
  - intros (c & v & o & -> & -> & -> & ->). done.
Qed.

Lemma legacy_ok loaded_json s u s' :
  Standard._load_from_compile_legacy loaded_json s = (inr u, s') <->
  exists a cv cs ds deps',
    Py.getitem loaded_json "asts" = ok a
    /\ parse_compiler loaded_json = ok cv
    /\ rbind (Py.getitem loaded_json "contracts") Py.items = ok cs
    /\ parse_all cs = Some ds
    /\ add_views_all ds (dependencies s) = ok deps'
    /\ s' = Session.set_dependencies deps'
              (Session.set_units
                 (<["legacy":=imported_unit cv ds a]> (compilation_units s)) s).
Proof.
  rewrite legacy_unfold. split.
  - intros H. inv_ok H.
    apply contracts_loop_ok, load_contracts_Some in H
      as (ds & deps' & Hds & Hadd & ->).
    norm_session_in Hadd. norm_session.
    eexists _, _, _, ds, deps'. split; [eassumption|].
    split; [apply parse_compiler_ok; eauto 10|].
    split; [eassumption|]. split; [exact Hds|]. split; [exact Hadd|].
    rewrite !alter_insert_eq. unfold imported_unit.
    by rewrite !populate_all_set_compiler_version, !populate_all_set_asts.
  - intros (a & cv & cs & ds & deps' & Ha & Hcv & Hcs & Hds & Hadd & ->).
    apply parse_compiler_ok in Hcv as (c & v & o & Hc & Hv & Ho & ->).
    rewrite bind_new_unit.
    repeat first
      [ rewrite bind_on_unit; norm_session
      | erewrite bind_lift_ok by eassumption ].
    apply (contracts_loop_ok _ _ _ u), load_contracts_Some.
    exists ds, deps'. norm_session. split; [exact Hds|]. split; [exact Hadd|].
    rewrite !alter_insert_eq. unfold imported_unit.
    by rewrite !populate_all_set_compiler_version, !populate_all_set_asts.
Qed.

Lemma load_unit_ok key compilation_unit_json s u s' :
  Standard.load_unit (key, compilation_unit_json) s = (inr u, s') <->
  exists a cv cs ds deps',
    parse_compiler compilation_unit_json = ok cv
    /\ rbind (Py.getitem compilation_unit_json "contracts") Py.items = ok cs
    /\ parse_all cs = Some ds
    /\ add_views_all ds (dependencies s) = ok deps'
    /\ Py.getitem compilation_unit_json "asts" = ok a
    /\ s' = Session.set_dependencies deps'
              (Session.set_units
                 (<[key:=imported_unit cv ds a]> (compilation_units s)) s).
Proof.
  rewrite load_unit_unfold. split.
  - intros H. inv_ok H.
    match goal with
    | Hl : for_each _ _ _ = _ |- _ =>
        apply contracts_loop_ok, load_contracts_Some in Hl
          as (ds & deps' & Hds & Hadd & ->)
    end.
    apply modify_ok_inv in H. norm_session_in H. norm_session_in Hadd.
    subst s'.
    eexists _, _, _, ds, deps'.
    split; [apply parse_compiler_ok; eauto 10|].
    split; [eassumption|]. split; [exact Hds|]. split; [exact Hadd|].
    split; [eassumption|].
    rewrite !alter_insert_eq. unfold imported_unit.
    by rewrite !populate_all_set_compiler_version.
  - intros (a & cv & cs & ds & deps' & Hcv & Hcs & Hds & Hadd & Ha & ->).
    apply parse_compiler_ok in Hcv as (c & v & o & Hc & Hv & Ho & ->).
    rewrite bind_new_unit.
    repeat first
      [ rewrite bind_on_unit; norm_session
      | erewrite bind_lift_ok by eassumption ].
    erewrite bind_ok_intro;
      [|apply (contracts_loop_ok _ _ _ tt), load_contracts_Some;
        exists ds, deps'; norm_session; split; [exact Hds|];
        split; [exact Hadd|reflexivity]].
    erewrite bind_lift_ok by eassumption.
    unfold on_unit, modify. norm_session. destruct u.
    rewrite !alter_insert_eq. unfold imported_unit.
    by rewrite !populate_all_set_compiler_version.
Qed.

(** What one entry of [compilation_units] provides. *)
Definition parse_unit (compilation_unit_json : json)
  : option (CompilerVersion * list (string * ContractData) * json) :=
  match parse_compiler compilation_unit_json,
        rbind (Py.getitem compilation_unit_json "contracts") Py.items,
        Py.getitem compilation_unit_json "asts" with
  | inr cv, inr cs, inr a =>
      match parse_all cs with
      | Some ds => Some (cv, ds, a)
      | None => None
      end
  | _, _, _ => None
  end.

(** The loop over the units of a current-schema document, as a function
    of the session. *)
Fixpoint load_units (us : list (string * json)) (s : CryticCompile)
  : option CryticCompile :=
  match us with
  | [] => Some s
  | (key, compilation_unit_json) :: rest =>
      match parse_unit compilation_unit_json with
      | Some (cv, ds, a) =>
          match add_views_all ds (dependencies s) with
          | inr deps' =>
              load_units rest
                (Session.set_dependencies deps'
                   (Session.set_units
                      (<[key:=imported_unit cv ds a]> (compilation_units s)) s))
          | inl _ => None
          end
      | None => None
      end
  end.

Lemma load_unit_ok' key compilation_unit_json s u s' :
  Standard.load_unit (key, compilation_unit_json) s = (inr u, s') <->
  exists cv ds a deps',
    parse_unit compilation_unit_json = Some (cv, ds, a)
    /\ add_views_all ds (dependencies s) = ok deps'
    /\ s' = Session.set_dependencies deps'
              (Session.set_units
                 (<[key:=imported_unit cv ds a]> (compilation_units s)) s).
Proof.
  rewrite load_unit_ok. unfold parse_unit, ok. split.
  - intros (a & cv & cs & ds & deps' & -> & -> & Hds & Hadd & -> & ->).
    rewrite Hds. by exists cv, ds, a, deps'.
  - intros (cv & ds & a & deps' & Hp & Hadd & ->).
    destruct (parse_compiler compilation_unit_json) as [|cv']; [done|].
    destruct (rbind _ Py.items) as [|cs]; [done|].
    destruct (Py.getitem compilation_unit_json "asts") as [|a']; [done|].
    destruct (parse_all cs) as [ds'|] eqn:Hds; [|done].
    injection Hp as -> -> ->. by exists a, cv, cs, ds, deps'.
Qed.

Lemma units_loop_ok us : forall s u s',
  for_each us Standard.load_unit s = (inr u, s') <-> load_units us s = Some s'.
Proof.
  induction us as [|[key uj] us IH]; intros s u s'; simpl.
  - unfold ret, ok. destruct u. split; intros [= <-]; done.
  - split.
    + intros H. apply bind_ok_inv in H as (u' & s1 & Hu & Hrest).
      apply load_unit_ok' in Hu as (cv & ds & a & deps' & -> & Hadd & ->).
      unfold ok in Hadd. rewrite Hadd. by apply IH in Hrest.
    + destruct (parse_unit uj) as [[[cv ds] a]|] eqn:Hp; [|discriminate].
      destruct (add_views_all ds (dependencies s)) as [|deps'] eqn:Hadd;
        [discriminate|].
      intros Hrest. erewrite bind_ok_intro;
        [|apply (load_unit_ok' _ _ _ tt); eexists _, _, _, _; eauto].
      by apply IH.
Qed.

(** The [Filename] values of one unit, and the body of the loop of lines
    278-279. *)
Definition unit_filenames (u : CompilationUnit) : list filename_entry :=
  (map_to_list (contracts_filenames u)).*2.

Definition add_filenames (compilation_unit : CompilationUnit) : M unit :=
  (values <- lift (Standard.set_of_filenames compilation_unit) ;;
   modify (fun s => Session.set_filenames (filenames s ++ values) s))%M.

(** Every [Filename] a unit of the session holds is hashable. *)
Definition filenames_hashable (s : CryticCompile) : Prop :=
  forallb filename_hashable (Standard.all_contract_filenames s) = true.

Lemma all_contract_filenames_join s :
  Standard.all_contract_filenames s
  = mjoin (unit_filenames <$> (map_to_list (compilation_units s)).*2).
Proof.
  unfold Standard.all_contract_filenames. by rewrite <- list_fmap_compose.
Qed.

Lemma set_filenames_same s : Session.set_filenames (filenames s) s = s.
Proof. by destruct s. Qed.

Lemma filenames_loop_ok us : forall s u0 s',
  for_each us add_filenames s = (inr u0, s') <->
  forallb filename_hashable (mjoin (unit_filenames <$> us)) = true
  /\ s' = Session.set_filenames
            (filenames s ++ mjoin (unit_filenames <$> us)) s.
Proof.
  induction us as [|u us IH]; intros s u0 s'; simpl.
  - rewrite app_nil_r, set_filenames_same. unfold ret, ok. destruct u0.
    split; [by intros [= <-]|by intros [_ ->]].
  - rewrite List.forallb_app. unfold add_filenames at 1.
    unfold Standard.set_of_filenames. fold (unit_filenames u).
    destruct (forallb filename_hashable (unit_filenames u)); simpl.
    + rewrite bind_assoc. erewrite bind_lift_ok by reflexivity.
      rewrite bind_modify, IH. norm_session. by rewrite <- app_assoc.
    + split; [discriminate|by intros [? _]].
Qed.

(** The loop raises [TypeError] or nothing, and writes the filename set
    only. *)
Lemma filenames_loop_err us : forall s e s',
  for_each us add_filenames s = (inl e, s') ->
  e = TypeError
  /\ forallb filename_hashable (mjoin (unit_filenames <$> us)) = false
  /\ exists l, s' = Session.set_filenames l s.
Proof.
  induction us as [|u us IH]; intros s e s'; simpl; [discriminate|].
  rewrite List.forallb_app. unfold add_filenames at 1.
  unfold Standard.set_of_filenames. fold (unit_filenames u).
  destruct (forallb filename_hashable (unit_filenames u)); simpl.
  - rewrite bind_assoc. erewrite bind_lift_ok by reflexivity.
    rewrite bind_modify. intros H.
    apply IH in H as (-> & Hf & l & ->). split; [done|]. split; [done|].
    by exists l.
  - intros [= <- <-]. split; [done|]. split; [done|].
    exists (filenames s). by rewrite set_filenames_same.
Qed.

(** The last statements of the import (lines 277-283). *)
Definition finish_import (wd : json) (s : CryticCompile) : CryticCompile :=
  Session.set_working_dir wd
    (Session.set_filenames
       (filenames s ++ Standard.all_contract_filenames s) s).

(** The import in three parts: the package name, the branch on the
    schema (lines 236-275) and the last statements (lines 277-283). *)
Definition load_payload (loaded_json : json) (has_units : bool) : M unit :=
  if negb has_units then Standard._load_from_compile_legacy loaded_json
  else
    (units <- lift (rbind (Py.getitem loaded_json "compilation_units")
                      Py.items) ;;
     for_each units Standard.load_unit)%M.

Definition import_tail (loaded_json : json) : M (json * json) :=
  (units <- gets (fun s => (map_to_list (compilation_units s)).*2) ;;
   for_each units add_filenames ;;
   wd <- lift (Py.getitem loaded_json "working_dir") ;;
   modify (Session.set_working_dir wd) ;;
   ty <- lift (Py.getitem loaded_json "type") ;;
   unit_tests <- lift (Py.get loaded_json "unit_tests" (JArr [])) ;;
   ret (ty, unit_tests))%M.

Lemma load_from_compile_unfold loaded_json :
  Standard.load_from_compile loaded_json
  = (package <- lift (Py.get loaded_json "package" JNull) ;;
     modify (Session.set_package_name package) ;;
     has_units <- lift (Py.contains "compilation_units" loaded_json) ;;
     load_payload loaded_json has_units ;;
     import_tail loaded_json)%M.
Proof. reflexivity. Qed.

(** What the last statements return. *)
Definition tail_result (loaded_json : json) : result (json * json) :=
  rbind (Py.getitem loaded_json "working_dir") (fun _ =>
  rbind (Py.getitem loaded_json "type") (fun ty =>
  rbind (Py.get loaded_json "unit_tests" (JArr [])) (fun unit_tests =>
  ok (ty, unit_tests)))).

Lemma import_tail_outcome loaded_json s :
  (import_tail loaded_json s).1
  = if forallb filename_hashable (Standard.all_contract_filenames s)
    then tail_result loaded_json else throw TypeError.
Proof.
  unfold import_tail, tail_result. rewrite bind_gets.
  rewrite all_contract_filenames_join.
  set (us := (map_to_list (compilation_units s)).*2).
  destruct (for_each us add_filenames s) as [[e|[]] s1] eqn:Hf.
  - apply filenames_loop_err in Hf as Hf'. destruct Hf' as (-> & -> & _).
    by erewrite bind_err by exact Hf.
  - apply filenames_loop_ok in Hf as Hf'. destruct Hf' as [-> _].
    erewrite bind_ok_intro by exact Hf.
    destruct (Py.getitem loaded_json "working_dir") as [e|wd]; [done|].
    erewrite bind_lift_ok by reflexivity. rewrite bind_modify.
    destruct (Py.getitem loaded_json "type") as [e|ty]; [done|].
    erewrite bind_lift_ok by reflexivity.
    by destruct (Py.get loaded_json "unit_tests" (JArr [])).
Qed.

(** The last statements write the filename set and the working
    directory only. *)
Lemma import_tail_frame loaded_json s :
  let s' := (import_tail loaded_json s).2 in
  compilation_units s' = compilation_units s
  /\ dependencies s' = dependencies s
  /\ package s' = package s
  /\ package_name s' = package_name s
  /\ platform s' = platform s.
Proof.
  set (P := fun t : CryticCompile =>
              compilation_units t = compilation_units s
              /\ dependencies t = dependencies s
              /\ package t = package s
              /\ package_name t = package_name s
              /\ platform t = platform s).
  assert (Hp : preserves P (import_tail loaded_json)).
  { unfold import_tail, add_filenames.
    repeat first
      [ apply preserves_modify; intros ? ?; assumption
      | apply preserves_for_each; intros ? _
      | progress solve_preserves ]. }
  intros s'. apply (Hp s (import_tail loaded_json s).1 s'); [by repeat split|].
  apply surjective_pairing.
Qed.

Lemma unit_filenames_lookup u :
  forallb filename_hashable (unit_filenames u) = true <->
  forall n f, contracts_filenames u !! n = Some f ->
              filename_hashable f = true.
Proof.
  rewrite List.forallb_forall. unfold unit_filenames. split.
  - intros H n f Hn. apply H, list_elem_of_In, list_elem_of_fmap.
    exists (n, f). split; [done|]. by apply elem_of_map_to_list.
  - intros H f Hf. apply list_elem_of_In, list_elem_of_fmap in Hf
      as ([n f'] & -> & Hin).
    apply elem_of_map_to_list in Hin. by apply (H n).
Qed.

Lemma filenames_hashable_lookup s :
  filenames_hashable s <->
  forall k u, compilation_units s !! k = Some u ->
              forallb filename_hashable (unit_filenames u) = true.
Proof.
  unfold filenames_hashable. rewrite all_contract_filenames_join.
  rewrite List.forallb_forall. split.
  - intros H k u Hk. apply List.forallb_forall. intros f Hf. apply H.
    apply list_elem_of_In, list_elem_of_join. exists (unit_filenames u).
    split; [by apply list_elem_of_In|]. apply list_elem_of_fmap. exists u.
    split; [done|]. apply list_elem_of_fmap. exists (k, u).
    split; [done|]. by apply elem_of_map_to_list.
  - intros H f Hf. apply list_elem_of_In, list_elem_of_join in Hf
      as (l & Hfl & Hl).
    apply list_elem_of_fmap in Hl as (u & -> & Hu).
    apply list_elem_of_fmap in Hu as ([k u'] & -> & Hku).
    apply elem_of_map_to_list in Hku.
    pose proof (H k u' Hku) as Hall.
    rewrite List.forallb_forall in Hall. by apply Hall, list_elem_of_In.
Qed.

Lemma load_from_compile_ok loaded_json s r s' :
  Standard.load_from_compile loaded_json s = (inr r, s') <->
  exists pkg has s1 wd ty ut,
    Py.get loaded_json "package" JNull = ok pkg
    /\ Py.contains "compilation_units" loaded_json = ok has
    /\ (if has
        then exists us,
            rbind (Py.getitem loaded_json "compilation_units") Py.items = ok us
            /\ load_units us (Session.set_package_name pkg s) = Some s1
        else Standard._load_from_compile_legacy loaded_json
               (Session.set_package_name pkg s) = (inr tt, s1))
    /\ filenames_hashable s1
    /\ Py.getitem loaded_json "working_dir" = ok wd
    /\ Py.getitem loaded_json "type" = ok ty
    /\ Py.get loaded_json "unit_tests" (JArr []) = ok ut
    /\ r = (ty, ut)
    /\ s' = finish_import wd s1.
Proof.
  rewrite load_from_compile_unfold.
  unfold load_payload, import_tail, filenames_hashable, finish_import.
  split.
  - intros H. inv_ok H. subst.
    match goal with
    | Hf : for_each _ add_filenames _ = _ |- _ =>
        apply filenames_loop_ok in Hf as [Hhash ->];
        rewrite <- all_contract_filenames_join in Hhash
    end.
    rewrite <- all_contract_filenames_join.
    match goal with
    | Hc : Py.contains _ _ = inr ?b |- _ => destruct b; simpl in *
    end.
    + match goal with
      | Hl : bind _ _ _ = _ |- _ => inv_ok Hl; apply units_loop_ok in Hl
      end.
      eexists _, true, _, _, _, _. repeat (split; [eassumption|]).
      split; [eexists; split; eassumption|].
      repeat (split; [eassumption|]). done.
    + match goal with
      | Hl : Standard._load_from_compile_legacy _ _ = (inr ?u, _) |- _ =>
          destruct u
      end.
      eexists _, false, _, _, _, _. repeat (split; [eassumption|]). done.
  - intros (pkg & has & s1 & wd & ty & ut & Hpkg & Hhas & Hload & Hhash & Hwd
            & Hty & Hut & -> & ->).
    erewrite bind_lift_ok by eassumption. rewrite bind_modify.
    erewrite bind_lift_ok by eassumption.
    erewrite (bind_ok_intro _ _ _ tt s1).
    + rewrite bind_gets.
      erewrite (bind_ok_intro _ _ _ tt);
        [|apply filenames_loop_ok; split; [|reflexivity];
          by rewrite <- all_contract_filenames_join].
      rewrite <- all_contract_filenames_join.
      erewrite bind_lift_ok by eassumption.
      rewrite bind_modify. erewrite bind_lift_ok by eassumption.
      erewrite bind_lift_ok by eassumption. done.
    + destruct has; simpl; [|exact Hload].
      destruct Hload as (us & Hus & Hload).
      erewrite bind_lift_ok by eassumption. by apply units_loop_ok.
Qed.

(** ** What the import writes to a unit *)

Lemma parse_all_Some cs ds :
  parse_all cs = Some ds ->
  Forall2 (fun c d => c.1 = d.1 /\ parse_contract c.2 = ok d.2) cs ds.
Proof.
  revert ds. induction cs as [|[n c] cs IH]; intros ds; simpl.
  - intros [= <-]. constructor.
  - destruct (parse_contract c) as [|d] eqn:Hd; [discriminate|].
    destruct (parse_all cs) as [ds'|]; [|discriminate].
    intros [= <-]. constructor; [done|]. by apply IH.
Qed.

Lemma parse_all_keys cs ds : parse_all cs = Some ds -> ds.*1 = cs.*1.
Proof.
  intros H. apply parse_all_Some in H.
  induction H as [|[n c] [n' d] cs ds [Hn _] _ IH]; [done|].
  rewrite !fmap_cons. simpl in Hn. by rewrite IH, Hn.
Qed.

Lemma parse_all_elem cs ds n c :
  parse_all cs = Some ds -> (n, c) ∈ cs ->
  exists d, parse_contract c = ok d /\ (n, d) ∈ ds.
Proof.
  intros H Hin. apply parse_all_Some in H.
  induction H as [|[n1 c1] [n2 d2] cs ds [Hn Hd] _ IH]; simpl in *.
  - by apply elem_of_nil in Hin.
  - apply elem_of_cons in Hin as [[= -> ->]|Hin].
    + exists d2. split; [done|]. subst. left.
    + destruct (IH Hin) as (d & Hpd & Hind). exists d. split; [done|].
      by right.
Qed.

Lemma parse_all_elem_inv cs ds n d :
  parse_all cs = Some ds -> (n, d) ∈ ds ->
  exists c, parse_contract c = ok d /\ (n, c) ∈ cs.
Proof.
  intros H Hin. apply parse_all_Some in H.
  induction H as [|[n1 c1] [n2 d2] cs ds [Hn Hd] _ IH]; simpl in *.
  - by apply elem_of_nil in Hin.
  - apply elem_of_cons in Hin as [[= -> ->]|Hin].
    + exists c1. split; [done|]. subst. left.
    + destruct (IH Hin) as (c & Hpd & Hind). exists c. split; [done|].
      by right.
Qed.

Lemma populate_all_cons n d ds u :
  populate_all ((n, d) :: ds) u = populate_all ds (populate n d u).
Proof. reflexivity. Qed.

Lemma populate_all_asts ds : forall u, asts (populate_all ds u) = asts u.
Proof.
  induction ds as [|[n d] ds IH]; intros u; [done|].
  by rewrite populate_all_cons, IH.
Qed.

Lemma populate_all_compiler_version ds : forall u,
  compiler_version (populate_all ds u) = compiler_version u.
Proof.
  induction ds as [|[n d] ds IH]; intros u; [done|].
  by rewrite populate_all_cons, IH.
Qed.

Lemma populate_all_names ds : forall u,
  contracts_names (populate_all ds u)
  = list_to_set ds.*1 ∪ contracts_names u.
Proof.
  induction ds as [|[n d] ds IH]; intros u.
  - simpl. set_solver.
  - rewrite populate_all_cons, IH. simpl. set_solver.
Qed.

(** The entries of the per-contract mappings for one contract. *)
Definition holds (u : CompilationUnit) (n : string) (d : ContractData) : Prop :=
  contracts_filenames u !! n = Some (FilenameObj (d_filename d))
  /\ abis u !! n = Some (d_abi d)
  /\ bytecodes_init u !! n = Some (d_bin d)
  /\ bytecodes_runtime u !! n = Some (d_bin_runtime d)
  /\ srcmaps_init u !! n = Some (d_srcmap d)
  /\ srcmaps_runtime u !! n = Some (d_srcmap_runtime d)
  /\ libraries u !! n = Some (d_libraries d)
  /\ natspec u !! n = Some (d_natspec d).

Lemma holds_populate n d u : holds (populate n d u) n d.
Proof. unfold holds. simpl. by rewrite !lookup_insert_eq. Qed.

Lemma holds_populate_ne n d n' d' u :
  n' <> n -> holds u n d -> holds (populate n' d' u) n d.
Proof.
  unfold holds. simpl. intros Hne H. by rewrite !lookup_insert_ne.
Qed.

Lemma populate_all_keeps ds : forall u n d,
  n ∉ ds.*1 -> holds u n d -> holds (populate_all ds u) n d.
Proof.
  induction ds as [|[n' d'] ds IH]; intros u n d Hnot H; [done|].
  rewrite populate_all_cons. simpl in Hnot.
  apply not_elem_of_cons in Hnot as [Hne Hnot].
  apply IH; [done|]. by apply holds_populate_ne.
Qed.

Lemma populate_all_holds ds : forall u n d,
  NoDup ds.*1 -> (n, d) ∈ ds -> holds (populate_all ds u) n d.
Proof.
  induction ds as [|[n' d'] ds IH]; intros u n d Hnd Hin.
  - by apply elem_of_nil in Hin.
  - rewrite populate_all_cons. simpl in Hnd.
    apply NoDup_cons in Hnd as [Hnot Hnd].
    apply elem_of_cons in Hin as [[= -> ->]|Hin].
    + apply populate_all_keeps; [done|]. apply holds_populate.
    + by apply IH.
Qed.

Lemma imported_unit_asts cv ds a : asts (imported_unit cv ds a) = a.
Proof. reflexivity. Qed.

Lemma imported_unit_compiler_version cv ds a :
  compiler_version (imported_unit cv ds a) = Some cv.
Proof.
  unfold imported_unit. simpl. by rewrite populate_all_compiler_version.
Qed.

Lemma imported_unit_names cv ds a :
  contracts_names (imported_unit cv ds a) = list_to_set ds.*1.
Proof.
  unfold imported_unit. simpl. rewrite populate_all_names. simpl.
  set_solver.
Qed.

Lemma imported_unit_holds cv ds a n d :
  NoDup ds.*1 -> (n, d) ∈ ds -> holds (imported_unit cv ds a) n d.
Proof.
  intros Hnd Hin. unfold imported_unit.
  by apply (populate_all_holds ds (Unit.set_compiler_version cv empty_unit)).
Qed.

(** ** Units an import creates *)

(** The session's units are those of [m0] with the unit under [key]
    created or replaced. *)
Definition units_are (key : string) (m0 : gmap string CompilationUnit)
  (s : CryticCompile) : Prop :=
  exists u, compilation_units s = <[key:=u]> m0.

Lemma units_are_on_unit key m0 f : preserves (units_are key m0) (on_unit key f).
Proof.
  apply preserves_modify. intros s [u Hu]. exists (f u). simpl.
  by rewrite Hu, alter_insert_eq.
Qed.

Lemma units_are_dependencies_add key m0 x :
  preserves (units_are key m0) (dependencies_add x).
Proof.
  intros s r s' HP. unfold dependencies_add.
  destruct (Py.set_add x (dependencies s)); intros [= _ <-]; exact HP.
Qed.

Lemma units_are_set_filenames key m0 f :
  preserves (units_are key m0)
    (modify (fun s => Session.set_filenames (f s) s)).
Proof. apply preserves_modify. by intros s HP. Qed.

Lemma units_are_set_working_dir key m0 v :
  preserves (units_are key m0) (modify (Session.set_working_dir v)).
Proof. apply preserves_modify. by intros s HP. Qed.

#[local] Hint Resolve units_are_on_unit units_are_dependencies_add
  units_are_set_filenames units_are_set_working_dir : pres.

Ltac solve_preserves_loops :=
  repeat first
    [ progress solve_preserves
    | apply preserves_for_each; intros ? _
    | match goal with
      | |- preserves _ (load_contract _ ?x) => destruct x; unfold load_contract
      end ].

Lemma legacy_units_are loaded_json s r s' :
  Standard._load_from_compile_legacy loaded_json s = (r, s') ->
  units_are "legacy" (compilation_units s) s'.
Proof.
  rewrite legacy_unfold, bind_new_unit. intros H.
  match type of H with
  | ?m ?s1 = _ =>
      assert (Hp : preserves (units_are "legacy" (compilation_units s)) m)
        by solve_preserves_loops;
      eapply Hp; [|exact H]
  end.
  by eexists.
Qed.

Lemma load_from_compile_legacy_units_are kvs s r s' :
  Py.assoc "compilation_units" kvs = None ->
  Standard.load_from_compile (JObj kvs) s = (r, s') ->
  units_are "legacy" (compilation_units s) s'.
Proof.
  intros Hnone. unfold Standard.load_from_compile.
  erewrite bind_lift_ok by reflexivity. rewrite bind_modify.
  erewrite bind_lift_ok by (simpl; rewrite Hnone; reflexivity).
  simpl negb. cbv iota. intros H.
  unfold bind at 1 in H.
  destruct (Standard._load_from_compile_legacy _ _) as [[e|u] s1] eqn:Hl;
    apply legacy_units_are in Hl; simpl in Hl.
  - by injection H as _ <-.
  - match type of H with
    | ?m ?s1 = _ =>
        assert (Hp : preserves (units_are "legacy" (compilation_units s)) m)
          by solve_preserves_loops;
        eapply Hp; [exact Hl|exact H]
    end.
Qed.

(** C8. A document (a JSON object) with no [compilation_units] key makes
    the import construct exactly one unit, registered under the key
    ["legacy"]: whatever the outcome, the session's units afterwards are
    the units before with the one under ["legacy"] created. When the
    import returns, that unit holds the top-level [asts], the compiler
    version made of the three fields of the top-level [compiler], the
    names of the top-level [contracts], and for each contract the entries
    read from its payload. *)
Theorem legacy_import_builds_one_unit
  (kvs : list (string * json)) (s s' : CryticCompile)
  (r : result (json * json)) :
  Py.assoc "compilation_units" kvs = None ->
  Standard.load_from_compile (JObj kvs) s = (r, s') ->
  exists u,
    compilation_units s' = <["legacy":=u]> (compilation_units s)
    /\ (forall v, r = inr v ->
        exists a cv cs ds,
          Py.assoc "asts" kvs = Some a
          /\ parse_compiler (JObj kvs) = ok cv
          /\ Py.assoc "contracts" kvs = Some (JObj cs)
          /\ parse_all cs = Some ds
          /\ asts u = a
          /\ compiler_version u = Some cv
          /\ contracts_names u = list_to_set cs.*1
          /\ (NoDup cs.*1 ->
              forall n c, (n, c) ∈ cs ->
                exists d, parse_contract c = ok d /\ holds u n d)).
Proof.
  intros Hnone H.
  destruct (load_from_compile_legacy_units_are _ _ _ _ Hnone H) as [u Hu].
  exists u. split; [exact Hu|]. intros v ->.
  apply load_from_compile_ok in H
    as (pkg & has & s1 & wd & ty & ut & Hpkg & Hhas & Hload & Hhash & Hwd
        & Hty & Hut & -> & ->).
  simpl in Hhas. rewrite Hnone in Hhas. injection Hhas as <-.
  apply legacy_ok in Hload
    as (a & cv & cs & ds & deps' & Ha & Hcv & Hcs & Hds & Hadd & ->).
  simpl in Hu.
  assert (u = imported_unit cv ds a) as ->.
  { apply (f_equal (lookup "legacy")) in Hu.
    rewrite !lookup_insert_eq in Hu. by injection Hu. }
  unfold Py.getitem in Ha, Hcs. simpl in Ha, Hcs.
  destruct (Py.assoc "asts" kvs) as [a'|]; [|discriminate].
  injection Ha as ->.
  destruct (Py.assoc "contracts" kvs) as [[| | | | |cs']|]; try discriminate.
  injection Hcs as ->.
  exists a, cv, cs, ds. repeat split; try done.
  - apply imported_unit_compiler_version.
  - rewrite imported_unit_names. by rewrite (parse_all_keys _ _ Hds).
  - intros Hnd n c Hin.
    destruct (parse_all_elem _ _ _ _ Hds Hin) as (d & Hd & Hind).
    exists d. split; [done|]. apply imported_unit_holds; [|done].
    by rewrite (parse_all_keys _ _ Hds).
Qed.

(** ** Example documents *)

Module DocExample.

Definition dep_filenames : json :=
  JObj [("absolute", JStr "/a/Dep.sol"); ("used", JStr "Dep.sol");
        ("short", JStr "Dep.sol"); ("relative", JStr "lib/Dep.sol")].

Definition token_filenames : json :=
  JObj [("absolute", JStr "/a/src/Token.sol"); ("used", JStr "src/Token.sol");
        ("short", JStr "Token.sol"); ("relative", JStr "src/Token.sol")].

(** A contract entry with every key of the schema. *)
Definition contract (filenames : json) (is_dependency : bool) : json :=
  JObj [("abi", JArr []); ("bin", JStr "6080"); ("bin-runtime", JStr "6080");
        ("srcmap", JStr "0:9:0;;1:2:0"); ("srcmap-runtime", JStr "0:9:0");
        ("filenames", filenames); ("libraries", JObj []);
        ("is_dependency", JBool is_dependency);
        ("userdoc", JObj [("methods", JObj [])]);
        ("devdoc", JObj [("methods", JObj [])])].

Definition contracts : json :=
  JObj [("Dep", contract dep_filenames true);
        ("Token", contract token_filenames false)].

Definition compiler_json : json :=
  JObj [("compiler", JStr "solc"); ("version", JStr "0.6.7");
        ("optimized", JBool false)].

Definition asts_json : json :=
  JObj [("/a/Dep.sol", JObj []); ("/a/src/Token.sol", JObj [])].

Definition legacy_fields : list (string * json) :=
  [("compiler", compiler_json); ("asts", asts_json); ("contracts", contracts);
   ("working_dir", JStr "/a"); ("type", JNum 4)].

Definition legacy : json := JObj legacy_fields.

Definition current_fields : list (string * json) :=
  [("compilation_units",
    JObj [("/a", JObj [("compiler", compiler_json); ("asts", asts_json);
                       ("contracts", contracts)])]);
   ("package", JNull); ("working_dir", JStr "/a"); ("type", JNum 4);
   ("unit_tests", JArr [JStr "dapp test"])].

Definition current : json := JObj current_fields.

(** The session a [Standard] platform starts the import with. *)
Definition session : CryticCompile :=
  new_session (StandardInstance
                 {| NAME := "Standard";
                    PROJECT_URL := "https://github.com/crytic/crytic-compile";
                    TYPE := 100 |} (JArr [])).

End DocExample.

Lemma legacy_import_builds_one_unit_witness :
  exists u,
    compilation_units
      (Standard.load_from_compile DocExample.legacy DocExample.session).2
    = <["legacy":=u]> ∅
    /\ contracts_names u = {["Dep"; "Token"]}.
Proof.
  destruct (legacy_import_builds_one_unit DocExample.legacy_fields
              DocExample.session
              (Standard.load_from_compile DocExample.legacy
                 DocExample.session).2
              (Standard.load_from_compile DocExample.legacy
                 DocExample.session).1 eq_refl (surjective_pairing _))
    as (u & Hu & Hok).
  exists u. split; [exact Hu|].
  destruct (Hok (JNum 4, JArr []) ltac:(vm_compute; reflexivity))
    as (a & cv & cs & ds & _ & _ & Hcs & _ & _ & _ & Hnames & _).
  injection Hcs as <-. rewrite Hnames. simpl. set_solver.
Defined.

(** ** The dependency set after an import *)

Lemma py_eq_refl x : Py.hashable x = true -> Py.py_eq x x = true.
Proof.
  destruct x as [|b|n|s|l|kvs]; simpl; try done; intros _.
  - by destruct b.
  - apply Z.eqb_refl.
  - apply String.eqb_refl.
Qed.

Lemma set_in_app x l1 l2 :
  Py.set_in x (l1 ++ l2) = Py.set_in x l1 || Py.set_in x l2.
Proof. unfold Py.set_in. apply existsb_app. Qed.

Lemma set_add_ok x l l' :
  Py.set_add x l = ok l' ->
  Py.set_in x l' = true
  /\ (forall y, Py.set_in y l = true -> Py.set_in y l' = true)
  /\ (forall y, y ∈ l' -> y ∈ l \/ y = x)
  /\ (forall y, y ∈ l -> y ∈ l').
Proof.
  unfold Py.set_add. destruct (Py.hashable x) eqn:Hh; [|discriminate].
  destruct (Py.set_in x l) eqn:Hin; intros [= <-].
  - repeat split; auto.
  - repeat split.
    + rewrite set_in_app. simpl. rewrite py_eq_refl by done.
      by rewrite orb_true_r.
    + intros y Hy. rewrite set_in_app, Hy. done.
    + intros y Hy. apply elem_of_app in Hy as [Hy|Hy]; [by left|].
      right. by apply list_elem_of_singleton in Hy.
    + intros y Hy. apply elem_of_app. by left.
Qed.

Lemma add_all_ok xs : forall l l',
  add_all xs l = ok l' ->
  (forall x, x ∈ xs -> Py.set_in x l' = true)
  /\ (forall y, Py.set_in y l = true -> Py.set_in y l' = true)
  /\ (forall y, y ∈ l' -> y ∈ l \/ y ∈ xs)
  /\ (forall y, y ∈ l -> y ∈ l').
Proof.
  induction xs as [|x xs IH]; intros l l'; simpl.
  - intros [= <-]. repeat split; auto. intros x Hx.
    by apply elem_of_nil in Hx.
  - destruct (Py.set_add x l) as [|l1] eqn:Hadd; [discriminate|]. simpl.
    intros Hrest. apply set_add_ok in Hadd as (Hx & Hmono & Hacc & Hsub).
    destruct (IH _ _ Hrest) as (Hxs & Hmono' & Hacc' & Hsub').
    repeat split.
    + intros y Hy. apply elem_of_cons in Hy as [->|Hy]; auto.
    + auto.
    + intros y Hy. destruct (Hacc' y Hy) as [Hy1|Hy1].
      * destruct (Hacc y Hy1) as [?| ->]; [by left|]. right. left.
      * right. by right.
    + auto.
Qed.

Lemma add_views_ok d l l' :
  add_views d l = ok l' ->
  (Py.truthy (d_is_dependency d) = true ->
   forall x, x ∈ views (d_filename d) -> Py.set_in x l' = true)
  /\ (forall y, Py.set_in y l = true -> Py.set_in y l' = true)
  /\ (forall y, y ∈ l' ->
      y ∈ l \/ (Py.truthy (d_is_dependency d) = true
                /\ y ∈ views (d_filename d)))
  /\ (forall y, y ∈ l -> y ∈ l')
  /\ (Py.truthy (d_is_dependency d) = false -> l' = l).
Proof.
  unfold add_views. destruct (Py.truthy (d_is_dependency d)).
  - intros H. apply add_all_ok in H as (H1 & H2 & H3 & H4).
    repeat split; auto; try done.
    intros y Hy. destruct (H3 y Hy); auto.
  - intros [= <-]. repeat split; auto. done.
Qed.

Lemma add_views_all_ok ds : forall l l',
  add_views_all ds l = ok l' ->
  (forall n d, (n, d) ∈ ds -> Py.truthy (d_is_dependency d) = true ->
   forall x, x ∈ views (d_filename d) -> Py.set_in x l' = true)
  /\ (forall y, Py.set_in y l = true -> Py.set_in y l' = true)
  /\ (forall y, y ∈ l' ->
      y ∈ l \/ exists n d, (n, d) ∈ ds
                           /\ Py.truthy (d_is_dependency d) = true
                           /\ y ∈ views (d_filename d))
  /\ (forall y, y ∈ l -> y ∈ l')
  /\ ((forall n d, (n, d) ∈ ds -> Py.truthy (d_is_dependency d) = false) ->
      l' = l).
Proof.
  induction ds as [|[n d] ds IH]; intros l l'; simpl.
  - intros [= <-]. repeat split; auto. intros n d Hin.
    by apply elem_of_nil in Hin.
  - destruct (add_views d l) as [|l1] eqn:Hadd; [discriminate|]. simpl.
    intros Hrest.
    apply add_views_ok in Hadd as (Hd & Hmono & Hacc & Hsub & Hfalse).
    destruct (IH _ _ Hrest) as (Hds & Hmono' & Hacc' & Hsub' & Hfalse').
    repeat split.
    + intros n' d' Hin Htruthy x Hx.
      apply elem_of_cons in Hin as [[= -> ->]|Hin]; eauto.
    + auto.
    + intros y Hy. destruct (Hacc' y Hy) as [Hy1|(n' & d' & Hin & Ht & Hv)].
      * destruct (Hacc y Hy1) as [?|[Ht Hv]]; [by left|].
        right. exists n, d. split; [left|done].
      * right. exists n', d'. split; [by right|done].
    + auto.
    + intros Hall. rewrite Hfalse', Hfalse; [done| |].
      * apply (Hall n). left.
      * intros n' d' Hin. apply (Hall n'). by right.
Qed.

Lemma add_views_all_app ds1 ds2 l :
  add_views_all (ds1 ++ ds2) l
  = rbind (add_views_all ds1 l) (add_views_all ds2).
Proof.
  revert l. induction ds1 as [|[n d] ds1 IH]; intros l; simpl; [done|].
  destruct (add_views d l) as [|l1]; simpl; [done|]. apply IH.
Qed.

(** The contract entries of a document, of either schema, in the order
    the import visits them. *)
Definition contracts_of (j : json) : list (string * json) :=
  match rbind (Py.getitem j "contracts") Py.items with
  | inr cs => cs
  | inl _ => []
  end.

Fixpoint units_contracts (us : list (string * json))
  : list (string * json) :=
  match us with
  | [] => []
  | (_, compilation_unit_json) :: rest =>
      contracts_of compilation_unit_json ++ units_contracts rest
  end.

Definition document_contracts (doc : json) : list (string * json) :=
  match Py.contains "compilation_units" doc with
  | inr false => contracts_of doc
  | inr true =>
      match rbind (Py.getitem doc "compilation_units") Py.items with
      | inr us => units_contracts us
      | inl _ => []
      end
  | inl _ => []
  end.

Lemma parse_contract_fields c d :
  parse_contract c = ok d ->
  Py.getitem2 c "filenames" "absolute" = ok (absolute (d_filename d))
  /\ Py.getitem2 c "filenames" "relative" = ok (relative (d_filename d))
  /\ Py.getitem2 c "filenames" "short" = ok (short (d_filename d))
  /\ Py.getitem2 c "filenames" "used" = ok (used (d_filename d))
  /\ Py.getitem c "abi" = ok (d_abi d)
  /\ Py.getitem c "bin" = ok (d_bin d)
  /\ Py.getitem c "bin-runtime" = ok (d_bin_runtime d)
  /\ rbind (Py.getitem c "srcmap") (fun m => Py.split m ";")
     = ok (d_srcmap d)
  /\ rbind (Py.getitem c "srcmap-runtime") (fun m => Py.split m ";")
     = ok (d_srcmap_runtime d)
  /\ Py.getitem c "libraries" = ok (d_libraries d)
  /\ Py.get c "userdoc" (JObj []) = ok (userdoc (d_natspec d))
  /\ Py.get c "devdoc" (JObj []) = ok (devdoc (d_natspec d))
  /\ Py.getitem c "is_dependency" = ok (d_is_dependency d).
Proof.
  unfold parse_contract. intros Hparse.
  repeat match type of Hparse with
         | rbind ?r _ = _ =>
             let H := fresh "Hr" in
             destruct r eqn:H; [discriminate|]; simpl in Hparse
         end.
  injection Hparse as <-. simpl. repeat split; done.
Qed.

Lemma parse_all_app cs1 cs2 :
  parse_all (cs1 ++ cs2)
  = match parse_all cs1, parse_all cs2 with
    | Some ds1, Some ds2 => Some (ds1 ++ ds2)
    | _, _ => None
    end.
Proof.
  induction cs1 as [|[n c] cs1 IH]; simpl.
  - by destruct (parse_all cs2).
  - destruct (parse_contract c) as [|d]; [done|]. rewrite IH.
    destruct (parse_all cs1), (parse_all cs2); done.
Qed.

Lemma parse_unit_contracts uj cv ds a :
  parse_unit uj = Some (cv, ds, a) -> parse_all (contracts_of uj) = Some ds.
Proof.
  unfold parse_unit, contracts_of.
  destruct (parse_compiler uj); [done|].
  destruct (rbind _ Py.items) as [|cs]; [done|].
  destruct (Py.getitem uj "asts"); [done|].
  destruct (parse_all cs); [|done]. by intros [= _ -> _].
Qed.

Lemma load_units_dependencies us : forall s s',
  load_units us s = Some s' ->
  exists ds,
    parse_all (units_contracts us) = Some ds
    /\ add_views_all ds (dependencies s) = ok (dependencies s').
Proof.
  induction us as [|[key uj] us IH]; intros s s'; simpl.
  - intros [= <-]. by exists [].
  - destruct (parse_unit uj) as [[[cv ds] a]|] eqn:Hp; [|discriminate].
    destruct (add_views_all ds (dependencies s)) as [|deps1] eqn:Hadd;
      [discriminate|].
    intros Hrest. destruct (IH _ _ Hrest) as (ds' & Hds' & Hadd').
    exists (ds ++ ds'). rewrite parse_all_app.
    rewrite (parse_unit_contracts _ _ _ _ Hp), Hds'. split; [done|].
    rewrite add_views_all_app, Hadd. exact Hadd'.
Qed.

Lemma import_dependencies doc s r s' :
  Standard.load_from_compile doc s = (inr r, s') ->
  exists ds,
    parse_all (document_contracts doc) = Some ds
    /\ add_views_all ds (dependencies s) = ok (dependencies s').
Proof.
  intros H. apply load_from_compile_ok in H
    as (pkg & has & s1 & wd & ty & ut & Hpkg & Hhas & Hload & Hhash & Hwd
        & Hty & Hut & -> & ->).
  unfold document_contracts. rewrite Hhas. destruct has.
  - destruct Hload as (us & -> & Hload).
    apply load_units_dependencies in Hload. exact Hload.
  - apply legacy_ok in Hload
      as (a & cv & cs & ds & deps' & Ha & Hcv & Hcs & Hds & Hadd & ->).
    exists ds. unfold contracts_of. rewrite Hcs. split; [exact Hds|].
    exact Hadd.
Qed.

(** C3. After an import that returns, every contract of the document
    whose [is_dependency] is true has its four filename values in the
    session's dependency set, and every member of the set was there
    before or is one of the four filename values of a contract whose
    [is_dependency] is true: a contract whose [is_dependency] is false
    adds nothing, and when every contract has it false the set is the
    one the session had before. *)
Theorem import_dependency_propagation
  (doc : json) (s s' : CryticCompile) (r : json * json) :
  Standard.load_from_compile doc s = (inr r, s') ->
  (forall n c, (n, c) ∈ document_contracts doc ->
     Py.getitem c "is_dependency" = ok (JBool true) ->
     forall view, view ∈ ["absolute"; "relative"; "short"; "used"] ->
       exists v, Py.getitem2 c "filenames" view = ok v
                 /\ Py.set_in v (dependencies s') = true)
  /\ (forall x, x ∈ dependencies s' ->
        x ∈ dependencies s
        \/ exists n c flag view,
             (n, c) ∈ document_contracts doc
             /\ Py.getitem c "is_dependency" = ok flag
             /\ Py.truthy flag = true
             /\ view ∈ ["absolute"; "relative"; "short"; "used"]
             /\ Py.getitem2 c "filenames" view = ok x)
  /\ ((forall n c, (n, c) ∈ document_contracts doc ->
         Py.getitem c "is_dependency" = ok (JBool false)) ->
      dependencies s' = dependencies s).
Proof.
  intros H. apply import_dependencies in H as (ds & Hds & Hadd).
  apply add_views_all_ok in Hadd as (Hin & _ & Hacc & _ & Hfalse).
  repeat split.
  - intros n c Hc Hflag view Hview.
    destruct (parse_all_elem _ _ _ _ Hds Hc) as (d & Hd & Hnd).
    apply parse_contract_fields in Hd
      as (Ha & Hr & Hs & Hu & _ & _ & _ & _ & _ & _ & _ & _ & Hdep).
    rewrite Hflag in Hdep. injection Hdep as Hdep.
    assert (Ht : Py.truthy (d_is_dependency d) = true) by by rewrite <- Hdep.
    repeat (apply elem_of_cons in Hview as [->|Hview]);
      [| | | |by apply elem_of_nil in Hview];
      eexists; (split; [eassumption|]);
      apply (Hin n d Hnd Ht); unfold views; set_solver.
  - intros x Hx. destruct (Hacc x Hx) as [?|(n & d & Hnd & Ht & Hv)];
      [by left|]. right.
    destruct (parse_all_elem_inv _ _ _ _ Hds Hnd) as (c & Hd & Hc).
    apply parse_contract_fields in Hd
      as (Ha & Hr & Hs & Hu & _ & _ & _ & _ & _ & _ & _ & _ & Hdep).
    unfold views in Hv.
    repeat (apply elem_of_cons in Hv as [->|Hv]);
      [| | | |by apply elem_of_nil in Hv].
    + exists n, c, (d_is_dependency d), "absolute". repeat split; try done.
      set_solver.
    + exists n, c, (d_is_dependency d), "relative". repeat split; try done.
      set_solver.
    + exists n, c, (d_is_dependency d), "short". repeat split; try done.
      set_solver.
    + exists n, c, (d_is_dependency d), "used". repeat split; try done.
      set_solver.
  - intros Hall. apply Hfalse. intros n d Hnd.
    destruct (parse_all_elem_inv _ _ _ _ Hds Hnd) as (c & Hd & Hc).
    apply parse_contract_fields in Hd
      as (_ & _ & _ & _ & _ & _ & _ & _ & _ & _ & _ & _ & Hdep).
    rewrite (Hall n c Hc) in Hdep. by injection Hdep as <-.
Qed.

Lemma import_dependency_propagation_witness :
  let s' := (Standard.load_from_compile DocExample.current
               DocExample.session).2 in
  Py.set_in (JStr "/a/Dep.sol") (dependencies s') = true
  /\ Py.set_in (JStr "lib/Dep.sol") (dependencies s') = true
  /\ Py.set_in (JStr "Dep.sol") (dependencies s') = true
  /\ Py.set_in (JStr "Token.sol") (dependencies s') = false.
Proof.
  intros s'.
  destruct (import_dependency_propagation DocExample.current
              DocExample.session s' (JNum 4, JArr [JStr "dapp test"])
              ltac:(vm_compute; reflexivity)) as (Hin & _ & _).
  assert (Hdep : ("Dep", DocExample.contract DocExample.dep_filenames true)
                   ∈ document_contracts DocExample.current)
    by (vm_compute; left).
  specialize (Hin _ _ Hdep eq_refl).
  destruct (Hin "absolute" ltac:(left)) as (v1 & Hv1 & H1).
  destruct (Hin "relative" ltac:(right; left)) as (v2 & Hv2 & H2).
  destruct (Hin "short" ltac:(right; right; left)) as (v3 & Hv3 & H3).
  vm_compute in Hv1, Hv2, Hv3.
  injection Hv1 as <-. injection Hv2 as <-. injection Hv3 as <-.
  split; [exact H1|]. split; [exact H2|]. split; [exact H3|].
  vm_compute. reflexivity.
Defined.

(** ** Legacy and current-schema imports side by side *)

(** Two units with the same content for every contract and the same
    compiler version. *)
Definition same_contracts (u1 u2 : CompilationUnit) : Prop :=
  compiler_version u1 = compiler_version u2
  /\ contracts_names u1 = contracts_names u2
  /\ contracts_filenames u1 = contracts_filenames u2
  /\ abis u1 = abis u2
  /\ bytecodes_init u1 = bytecodes_init u2
  /\ bytecodes_runtime u1 = bytecodes_runtime u2
  /\ srcmaps_init u1 = srcmaps_init u2
  /\ srcmaps_runtime u1 = srcmaps_runtime u2
  /\ libraries u1 = libraries u2
  /\ natspec u1 = natspec u2.

(** Two sessions that started from the units [m], created one unit each,
    under [key1] and under [key2], with the same content, and have the
    same dependency set. *)
Definition paired (key1 key2 : string) (m : gmap string CompilationUnit)
  (s1 s2 : CryticCompile) : Prop :=
  (exists u1 u2,
      compilation_units s1 = <[key1:=u1]> m
      /\ compilation_units s2 = <[key2:=u2]> m
      /\ same_contracts u1 u2)
  /\ dependencies s1 = dependencies s2.

(** Two computations that, from paired sessions, end with the same
    outcome in paired sessions. *)
Definition sim {A} (key1 key2 : string) (m : gmap string CompilationUnit)
  (m1 m2 : M A) : Prop :=
  forall s1 s2, paired key1 key2 m s1 s2 ->
    (m1 s1).1 = (m2 s2).1 /\ paired key1 key2 m (m1 s1).2 (m2 s2).2.

Section Sim.
Context (key1 key2 : string) (m : gmap string CompilationUnit).

Lemma sim_lift {A} (r : result A) : sim key1 key2 m (lift r) (lift r).
Proof. intros s1 s2 H. done. Qed.

Lemma sim_ret {A} (a : A) : sim key1 key2 m (ret a) (ret a).
Proof. intros s1 s2 H. done. Qed.

Lemma sim_bind {A B} (m1 m2 : M A) (k1 k2 : A -> M B) :
  sim key1 key2 m m1 m2 -> (forall a, sim key1 key2 m (k1 a) (k2 a)) ->
  sim key1 key2 m (bind m1 k1) (bind m2 k2).
Proof.
  intros Hm Hk s1 s2 H. destruct (Hm s1 s2 H) as [Hr Hs]. unfold bind.
  destruct (m1 s1) as [[e1|a1] s1'], (m2 s2) as [[e2|a2] s2']; simpl in *;
    try discriminate.
  - injection Hr as <-. by split.
  - injection Hr as <-. by apply Hk.
Qed.

Lemma sim_for_each {A} (l : list A) (b1 b2 : A -> M unit) :
  (forall x, sim key1 key2 m (b1 x) (b2 x)) ->
  sim key1 key2 m (for_each l b1) (for_each l b2).
Proof.
  intros Hb. induction l as [|x l IH]; simpl.
  - apply sim_ret.
  - apply sim_bind; [apply Hb|]. intros _. exact IH.
Qed.

Lemma sim_on_unit (f : CompilationUnit -> CompilationUnit) :
  (forall u1 u2, same_contracts u1 u2 -> same_contracts (f u1) (f u2)) ->
  sim key1 key2 m (on_unit key1 f) (on_unit key2 f).
Proof.
  intros Hf s1 s2 ((u1 & u2 & H1 & H2 & Hu) & Hd). split; [done|].
  split; [|exact Hd]. exists (f u1), (f u2). simpl.
  rewrite H1, H2, !alter_insert_eq. auto.
Qed.

Lemma sim_dependencies_add x :
  sim key1 key2 m (dependencies_add x) (dependencies_add x).
Proof.
  intros s1 s2 (Hu & Hd). unfold dependencies_add. rewrite Hd.
  destruct (Py.set_add x (dependencies s2)); simpl; [done|].
  split; [done|]. split; [exact Hu|done].
Qed.

Lemma sim_load_contract entry :
  sim key1 key2 m (load_contract key1 entry) (load_contract key2 entry).
Proof.
  destruct entry as [n c]. unfold load_contract.
  repeat first
    [ apply sim_bind; [|intros ?]
    | apply sim_lift
    | apply sim_ret
    | apply sim_dependencies_add
    | apply sim_on_unit; unfold same_contracts; simpl;
      intros ? ? (?&?&?&?&?&?&?&?&?&?); repeat split; congruence
    | match goal with |- sim _ _ _ (if ?b then _ else _) _ => destruct b end ].
Qed.

(** The legacy path sets the ASTs before the contracts, the
    current-schema path after them. *)
Lemma sim_set_asts_left a :
  sim key1 key2 m (on_unit key1 (Unit.set_asts a)) (ret tt).
Proof.
  intros s1 s2 ((u1 & u2 & H1 & H2 & Hu) & Hd). split; [done|].
  split; [|exact Hd]. exists (Unit.set_asts a u1), u2. simpl.
  rewrite H1, alter_insert_eq. auto.
Qed.

Lemma sim_set_asts_right a :
  sim key1 key2 m (ret tt) (on_unit key2 (Unit.set_asts a)).
Proof.
  intros s1 s2 ((u1 & u2 & H1 & H2 & Hu) & Hd). split; [done|].
  split; [|exact Hd]. exists u1, (Unit.set_asts a u2). simpl.
  rewrite H2, alter_insert_eq. auto.
Qed.

Lemma sim_bind_right (m1 m2 : M unit) (k2 : unit -> M unit) :
  sim key1 key2 m m1 m2 -> sim key1 key2 m (ret tt) (k2 tt) ->
  sim key1 key2 m m1 (bind m2 k2).
Proof.
  intros Hm Hk s1 s2 H. destruct (Hm s1 s2 H) as [Hr Hs]. unfold bind.
  destruct (m1 s1) as [[e1|[]] s1'], (m2 s2) as [[e2|[]] s2']; simpl in *;
    try discriminate.
  - by split.
  - by apply (Hk s1' s2').
Qed.

Lemma sim_bind_left_skip {A} (m1 : M unit) (k1 m2 : M A) :
  sim key1 key2 m m1 (ret tt) -> sim key1 key2 m k1 m2 ->
  sim key1 key2 m (bind m1 (fun _ => k1)) m2.
Proof.
  intros Hm Hk s1 s2 H. destruct (Hm s1 s2 H) as [Hr Hs]. unfold bind.
  destruct (m1 s1) as [[e1|[]] s1']; simpl in *; [discriminate|].
  by apply Hk.
Qed.

Lemma sim_ret_bind_right {A} (m1 : M A) (k2 : unit -> M A) :
  sim key1 key2 m m1 (k2 tt) -> sim key1 key2 m m1 (bind (ret tt) k2).
Proof. intros H s1 s2 Hp. exact (H s1 s2 Hp). Qed.

Lemma sim_lift_bind_right {A B} (m1 : M B) (a : A) (k2 : A -> M B) :
  sim key1 key2 m m1 (k2 a) -> sim key1 key2 m m1 (bind (lift (ok a)) k2).
Proof. intros H s1 s2 Hp. exact (H s1 s2 Hp). Qed.

Lemma sim_bind_right_skip {A} (m1 k2 : M A) (m2 : M unit) :
  sim key1 key2 m (ret tt) m2 -> sim key1 key2 m m1 k2 ->
  sim key1 key2 m m1 (bind m2 (fun _ => k2)).
Proof.
  intros Hm Hk s1 s2 H. destruct (Hm s1 s2 H) as [Hr Hs]. unfold bind.
  destruct (m2 s2) as [[e2|[]] s2']; simpl in *; [discriminate|].
  by apply Hk.
Qed.

Lemma sim_assoc_l {A B C} (ma : M A) (k1 : A -> M B) (k2 : B -> M C) m2 :
  sim key1 key2 m (bind ma (fun x => bind (k1 x) k2)) m2 ->
  sim key1 key2 m (bind (bind ma k1) k2) m2.
Proof. intros H s1 s2 Hp. rewrite bind_assoc. by apply H. Qed.

Lemma sim_assoc_r {A B C} (ma : M A) (k1 : A -> M B) (k2 : B -> M C) m1 :
  sim key1 key2 m m1 (bind ma (fun x => bind (k1 x) k2)) ->
  sim key1 key2 m m1 (bind (bind ma k1) k2).
Proof. intros H s1 s2 Hp. rewrite bind_assoc. by apply H. Qed.

End Sim.

(** The statements that load the payload, on the two paths, from two
    sessions with the same units and the same dependency set. *)
Lemma sim_payload (legacy_fields unit_fields : list (string * json))
  (key : string) (c a k : json) (s1 s2 : CryticCompile) :
  Py.assoc "compiler" legacy_fields = Some c ->
  Py.assoc "asts" legacy_fields = Some a ->
  Py.assoc "contracts" legacy_fields = Some k ->
  Py.assoc "compiler" unit_fields = Some c ->
  Py.assoc "asts" unit_fields = Some a ->
  Py.assoc "contracts" unit_fields = Some k ->
  compilation_units s1 = compilation_units s2 ->
  dependencies s1 = dependencies s2 ->
  let l := Standard._load_from_compile_legacy (JObj legacy_fields) s1 in
  let r := for_each [(key, JObj unit_fields)] Standard.load_unit s2 in
  l.1 = r.1
  /\ paired "legacy" key (compilation_units s1) l.2 r.2
  /\ (l.1 = inr tt ->
      exists u,
        compilation_units l.2 = <["legacy":=u]> (compilation_units s1)
        /\ compilation_units r.2 = <[key:=u]> (compilation_units s1)).
Proof.
  intros HLc HLa HLk HUc HUa HUk Hunits Hdeps l r.
  assert (Hsim : l.1 = r.1
                 /\ paired "legacy" key (compilation_units s1) l.2 r.2).
  { unfold l, r. rewrite legacy_unfold. cbn [for_each].
    rewrite load_unit_unfold.
    repeat first [rewrite bind_assoc | rewrite bind_new_unit].
    erewrite (bind_lift_ok (Py.getitem (JObj legacy_fields) "asts"))
      by (unfold Py.getitem; simpl; rewrite HLa; reflexivity).
    unfold Py.getitem2, Py.getitem. simpl.
    rewrite HLc, HLk, HUc, HUa, HUk.
    match goal with
    | |- (?m1 ?t1).1 = (?m2 ?t2).1 /\ _ =>
        assert (Hs : sim "legacy" key (compilation_units s1) m1 m2);
        [|apply Hs]
    end.
    - repeat
        match goal with
        | |- sim _ _ _ (bind (bind _ _) _) _ => apply sim_assoc_l
        | |- sim _ _ _ _ (bind (bind _ _) _) => apply sim_assoc_r
        | |- sim _ _ _ (for_each _ _) (bind (for_each _ _) _) =>
            apply sim_bind_right;
            [apply sim_for_each; apply sim_load_contract|]
        | |- sim _ _ _ (bind (on_unit _ (Unit.set_asts _)) _) _ =>
            apply sim_bind_left_skip; [apply sim_set_asts_left|]
        | |- sim _ _ _ _ (bind (on_unit _ (Unit.set_asts _)) _) =>
            apply sim_bind_right_skip; [apply sim_set_asts_right|]
        | |- sim _ _ _ _ (bind (ret tt) _) => apply sim_ret_bind_right
        | |- sim _ _ _ (bind (lift (ok _)) _) (bind (lift (ok _)) _) =>
            apply sim_bind; [apply sim_lift|intros ?]
        | |- sim _ _ _ _ (bind (lift (ok _)) _) => apply sim_lift_bind_right
        | |- sim _ _ _ (ret _) (ret _) => apply sim_ret
        | |- sim _ _ _ (bind _ _) (bind _ _) =>
            apply sim_bind;
            [ solve [ apply sim_lift
                    | apply sim_for_each; apply sim_load_contract
                    | apply sim_on_unit; unfold same_contracts; simpl;
                      intros ? ? (?&?&?&?&?&?&?&?&?&?); repeat split;
                      congruence ]
            | intros ? ]
        end.
    - split; [|done]. eexists _, _. simpl.
      split; [reflexivity|]. split; [by rewrite Hunits|]. by repeat split. }
  destruct Hsim as [Hr Hp]. split; [exact Hr|]. split; [exact Hp|].
  intros Hv. rewrite Hv in Hr. symmetry in Hr.
  destruct l as [r1 l2] eqn:HL. destruct r as [r2 c2] eqn:HC.
  simpl in Hv, Hr |- *. subst r1 r2. clear Hp.
  apply legacy_ok in HL
    as (a1 & cv1 & cs1 & ds1 & deps1 & Ha1 & Hcv1 & Hcs1 & Hds1 & _ & ->).
  apply units_loop_ok in HC. simpl in HC.
  destruct (parse_unit (JObj unit_fields)) as [[[cv2 ds2] a2]|] eqn:Hp2;
    [|discriminate].
  destruct (add_views_all ds2 _) as [|deps2]; [discriminate|].
  injection HC as <-.
  assert (Heq : (cv2, ds2, a2) = (cv1, ds1, a1)).
  { revert Hp2 Ha1 Hcv1 Hcs1 Hds1.
    unfold parse_unit, parse_compiler, Py.getitem2, Py.getitem. simpl.
    rewrite HLc, HLa, HLk, HUc, HUa, HUk. unfold ok.
    intros Hp2 [= <-] Hcv1 Hcs1 Hds1. rewrite Hcv1, Hcs1, Hds1 in Hp2.
    by injection Hp2 as <- <- <-. }
  injection Heq as -> -> ->.
  exists (imported_unit cv1 ds1 a1). simpl. by rewrite Hunits.
Qed.

(** Two sessions whose units differ under one key each hold a unit with
    an unhashable [Filename] together or not at all, when the units they
    share hold none. *)
Lemma hashable_insert_unit (m : gmap string CompilationUnit) k1 k2 u s1 s2 :
  (forall k v, m !! k = Some v ->
     forallb filename_hashable (unit_filenames v) = true) ->
  compilation_units s1 = <[k1:=u]> m ->
  compilation_units s2 = <[k2:=u]> m ->
  forallb filename_hashable (Standard.all_contract_filenames s1)
  = forallb filename_hashable (Standard.all_contract_filenames s2).
Proof.
  intros Hm H1 H2. apply Bool.eq_iff_eq_true.
  fold (filenames_hashable s1). fold (filenames_hashable s2).
  rewrite !filenames_hashable_lookup, H1, H2.
  assert (Hone : forall k0,
    (forall k v, <[k0:=u]> m !! k = Some v ->
       forallb filename_hashable (unit_filenames v) = true)
    <-> forallb filename_hashable (unit_filenames u) = true).
  { intros k0. split.
    - intros H. apply (H k0). by rewrite lookup_insert_eq.
    - intros Hu k v. destruct (decide (k = k0)) as [->|Hne].
      + rewrite lookup_insert_eq. by intros [= <-].
      + rewrite lookup_insert_ne by done. apply Hm. }
  by rewrite !Hone.
Qed.

(** C2. Take a legacy document and a current-schema document with one
    [compilation_units] entry that hold the same [compiler], [asts] and
    [contracts] payload; nothing is asked of their other fields. The
    statements that load the payload, [_load_from_compile_legacy] on the
    one and the loop over the entry on the other, end with the same
    outcome (both return, or both raise the same exception). Imported
    into the same session, whether the imports return or raise, the two
    documents leave the same dependency set and one new unit each, under
    ["legacy"] and under the entry's key, with the same compiler version
    and the same content for every contract; when one of the imports
    returns, the two units are equal. The imports themselves end with
    the same outcome when the documents also agree on [working_dir],
    [type] and [unit_tests] and every [Filename] of the units the
    session held before is hashable: the last statements of the import
    hash the filenames of every unit of the session. *)
Theorem legacy_import_equals_single_unit_import
  (legacy_fields current_fields unit_fields : list (string * json))
  (key : string) (c a k : json) (s : CryticCompile) :
  Py.assoc "compilation_units" legacy_fields = None ->
  Py.assoc "compilation_units" current_fields
    = Some (JObj [(key, JObj unit_fields)]) ->
  Py.assoc "compiler" legacy_fields = Some c ->
  Py.assoc "asts" legacy_fields = Some a ->
  Py.assoc "contracts" legacy_fields = Some k ->
  Py.assoc "compiler" unit_fields = Some c ->
  Py.assoc "asts" unit_fields = Some a ->
  Py.assoc "contracts" unit_fields = Some k ->
  let legacy_run := Standard.load_from_compile (JObj legacy_fields) s in
  let current_run := Standard.load_from_compile (JObj current_fields) s in
  (Standard._load_from_compile_legacy (JObj legacy_fields) s).1
  = (for_each [(key, JObj unit_fields)] Standard.load_unit s).1
  /\ paired "legacy" key (compilation_units s) legacy_run.2 current_run.2
  /\ ((exists v, legacy_run.1 = inr v) \/ (exists v, current_run.1 = inr v) ->
      exists u,
        compilation_units legacy_run.2
        = <["legacy":=u]> (compilation_units s)
        /\ compilation_units current_run.2
           = <[key:=u]> (compilation_units s))
  /\ (filenames_hashable s ->
      (forall f, f ∈ ["working_dir"; "type"; "unit_tests"] ->
         Py.assoc f current_fields = Py.assoc f legacy_fields) ->
      legacy_run.1 = current_run.1).
Proof.
  intros HLnone HCunits HLc HLa HLk HUc HUa HUk legacy_run current_run.
  split.
  { by destruct (sim_payload legacy_fields unit_fields key c a k s s
                   HLc HLa HLk HUc HUa HUk eq_refl eq_refl) as [Hr _]. }
  set (sL := Session.set_package_name
               (default JNull (Py.assoc "package" legacy_fields)) s).
  set (sC := Session.set_package_name
               (default JNull (Py.assoc "package" current_fields)) s).
  destruct (sim_payload legacy_fields unit_fields key c a k sL sC
              HLc HLa HLk HUc HUa HUk eq_refl eq_refl)
    as (Hr & Hp & Hu).
  assert (HL : legacy_run
               = bind (Standard._load_from_compile_legacy (JObj legacy_fields))
                   (fun _ => import_tail (JObj legacy_fields)) sL).
  { unfold legacy_run. rewrite load_from_compile_unfold.
    erewrite bind_lift_ok by reflexivity. rewrite bind_modify.
    erewrite bind_lift_ok by (simpl; rewrite HLnone; reflexivity).
    reflexivity. }
  assert (HC : current_run
               = bind (for_each [(key, JObj unit_fields)] Standard.load_unit)
                   (fun _ => import_tail (JObj current_fields)) sC).
  { unfold current_run. rewrite load_from_compile_unfold.
    erewrite bind_lift_ok by reflexivity. rewrite bind_modify.
    erewrite bind_lift_ok by (simpl; rewrite HCunits; reflexivity).
    unfold load_payload. simpl negb. cbv iota. rewrite bind_assoc.
    erewrite (bind_lift_ok (rbind _ Py.items))
      by (unfold Py.getitem; simpl; rewrite HCunits; reflexivity).
    reflexivity. }
  rewrite HL, HC. clear HL HC legacy_run current_run. unfold bind.
  change (compilation_units sL) with (compilation_units s) in Hp, Hu.
  destruct (Standard._load_from_compile_legacy (JObj legacy_fields) sL)
    as [[e1|[]] l2];
    destruct (for_each [(key, JObj unit_fields)] Standard.load_unit sC)
      as [[e2|[]] c2]; simpl in Hr, Hp, Hu; try discriminate.
  - injection Hr as <-. simpl. split; [exact Hp|].
    split; [by intros [[v [=]]|[v [=]]]|done].
  - destruct (import_tail_frame (JObj legacy_fields) l2)
      as (HuL & HdL & _).
    destruct (import_tail_frame (JObj current_fields) c2)
      as (HuC & HdC & _).
    destruct (Hu eq_refl) as (u & Hl2 & Hc2).
    split.
    { destruct Hp as [(u1 & u2 & H1 & H2 & Hsame) Hd]. split.
      - exists u1, u2. by rewrite HuL, HuC.
      - by rewrite HdL, HdC. }
    split.
    { intros _. exists u. by rewrite HuL, HuC. }
    intros Hhash Hother.
    rewrite !import_tail_outcome.
    rewrite (hashable_insert_unit (compilation_units s) "legacy" key u l2 c2);
      [|by apply filenames_hashable_lookup|done|done].
    destruct (forallb filename_hashable (Standard.all_contract_filenames c2));
      [|done].
    unfold tail_result, Py.getitem, Py.get. simpl.
    rewrite (Hother "working_dir") by (left).
    rewrite (Hother "type") by (right; left).
    by rewrite (Hother "unit_tests") by (right; right; left).
Qed.

Lemma legacy_import_equals_single_unit_import_witness :
  paired "legacy" "/a" ∅
    (Standard.load_from_compile DocExample.legacy DocExample.session).2
    (Standard.load_from_compile DocExample.current DocExample.session).2
  /\ exists u,
      compilation_units
        (Standard.load_from_compile DocExample.legacy
           DocExample.session).2 = <["legacy":=u]> ∅
      /\ compilation_units
           (Standard.load_from_compile DocExample.current
              DocExample.session).2 = <["/a":=u]> ∅.
Proof.
  destruct (legacy_import_equals_single_unit_import DocExample.legacy_fields
              DocExample.current_fields
              [("compiler", DocExample.compiler_json);
               ("asts", DocExample.asts_json);
               ("contracts", DocExample.contracts)]
              "/a" DocExample.compiler_json DocExample.asts_json
              DocExample.contracts DocExample.session
              eq_refl eq_refl eq_refl eq_refl eq_refl eq_refl eq_refl eq_refl)
    as (_ & Hp & Hu & _).
  split; [exact Hp|].
  apply Hu. left. exists (JNum 4, JArr []). vm_compute. reflexivity.
Defined.

(** ** Resolving the platform type of a re-loaded artifact *)

Module RegistryExample.

(** An enumeration and a table of platforms for the examples: the two
    adapters of this development under the tags 4 and 8. *)
Definition types : PlatformTypes :=
  {| members := [0; 1; 2; 3; 4; 5; 6; 7; 8; 9; 10; 100; 101];
     DAPP := 4; WAFFLE := 8; STANDARD := 100 |}.

Definition Dapp_class : PlatformClass :=
  {| NAME := "Dapp"; PROJECT_URL := "https://github.com/dapphub/dapptools";
     TYPE := DAPP types |}.

Definition Waffle_class : PlatformClass :=
  {| NAME := "Waffle"; PROJECT_URL := "https://github.com/EthWorks/Waffle";
     TYPE := WAFFLE types |}.

Definition platforms : list PlatformClass := [Dapp_class; Waffle_class].

(** A well-formed current-schema document with the value [ty] under
    [type], and the one that declares the type [n]. *)
Definition tagged (ty : json) : json :=
  JObj [("compilation_units", JObj []); ("package", JNull);
        ("working_dir", JStr "/a"); ("type", ty);
        ("unit_tests", JArr [])].

Definition document (n : Z) : json := tagged (JNum n).

End RegistryExample.

Lemma resolve_cases T platforms n :
  (Standard.resolve T platforms n ∈ platforms
   /\ TYPE (Standard.resolve T platforms n) = n)
  \/ (Standard.resolve T platforms n = Standard.Standard_class T
      /\ forall p, p ∈ platforms -> TYPE p <> n).
Proof.
  unfold Standard.resolve.
  destruct (List.find _ platforms) as [p|] eqn:Hfind; simpl.
  - left. apply find_some in Hfind as [Hin Heq].
    split; [by apply list_elem_of_In|]. by apply Z.eqb_eq.
  - right. split; [done|]. intros p Hp Heq.
    apply list_elem_of_In in Hp.
    pose proof (find_none _ _ Hfind p Hp) as Hne. simpl in Hne.
    apply Z.eqb_neq in Hne. done.
Qed.




(** ** The units an import writes *)

(** The units a current-schema document writes, in the order of its
    entries. *)
Fixpoint unit_writes (us : list (string * json))
  : list (string * CompilationUnit) :=
  match us with
  | [] => []
  | (key, compilation_unit_json) :: rest =>
      match parse_unit compilation_unit_json with
      | Some (cv, ds, a) => (key, imported_unit cv ds a) :: unit_writes rest
      | None => []
      end
  end.

Definition write_units (m : gmap string CompilationUnit)
  (ws : list (string * CompilationUnit)) : gmap string CompilationUnit :=
  foldl (fun m kw => <[kw.1:=kw.2]> m) m ws.

(** The last unit a list of writes leaves under a key. *)
Fixpoint last_write (ws : list (string * CompilationUnit)) (k : string)
  : option CompilationUnit :=
  match ws with
  | [] => None
  | (k', u) :: rest =>
      match last_write rest k with
      | Some u' => Some u'
      | None => if decide (k = k') then Some u else None
      end
  end.

Lemma lookup_write_units ws : forall m k,
  write_units m ws !! k = from_option Some (m !! k) (last_write ws k).
Proof.
  induction ws as [|[k' u] ws IH]; intros m k; [done|].
  unfold write_units in *. simpl. rewrite IH.
  destruct (last_write ws k) as [u'|]; [done|]. simpl.
  destruct (decide (k = k')) as [->|Hne]; simpl.
  - by rewrite lookup_insert_eq.
  - by rewrite lookup_insert_ne.
Qed.

Lemma write_units_idemp m ws :
  write_units (write_units m ws) ws = write_units m ws.
Proof.
  apply map_eq. intros k. rewrite !lookup_write_units.
  by destruct (last_write ws k).
Qed.

Lemma load_units_fields us : forall s s',
  load_units us s = Some s' ->
  compilation_units s' = write_units (compilation_units s) (unit_writes us)
  /\ filenames s' = filenames s
  /\ package s' = package s
  /\ package_name s' = package_name s
  /\ working_dir s' = working_dir s
  /\ platform s' = platform s.
Proof.
  induction us as [|[key uj] us IH]; intros s s'; simpl.
  - by intros [= <-].
  - destruct (parse_unit uj) as [[[cv ds] a]|] eqn:Hp; [|discriminate].
    destruct (add_views_all ds (dependencies s)) as [|deps1]; [discriminate|].
    intros Hrest. apply IH in Hrest as (-> & -> & -> & -> & -> & ->). done.
Qed.

Lemma assoc_of_elem k v kvs :
  NoDup kvs.*1 -> (k, v) ∈ kvs -> Py.assoc k kvs = Some v.
Proof.
  induction kvs as [|[k' v'] kvs IH]; intros Hnd Hin.
  - by apply elem_of_nil in Hin.
  - simpl in Hnd. apply NoDup_cons in Hnd as [Hk' Hnd]. simpl.
    apply elem_of_cons in Hin as [[= -> ->]|Hin].
    + by rewrite String.eqb_refl.
    + destruct (String.eqb_spec k k') as [->|_]; [|by apply IH].
      destruct Hk'. apply list_elem_of_fmap. by exists (k', v).
Qed.

(** The unit entries of a document of either schema: a legacy document
    is itself the entry of the unit [legacy]. *)
Definition document_units (doc : json) : list (string * json) :=
  match Py.contains "compilation_units" doc with
  | inr true =>
      match rbind (Py.getitem doc "compilation_units") Py.items with
      | inr us => us
      | inl _ => []
      end
  | inr false => [("legacy", doc)]
  | inl _ => []
  end.

Lemma load_units_parsed us : forall s s',
  load_units us s = Some s' ->
  forall k uj, (k, uj) ∈ us ->
    exists cv ds a, parse_unit uj = Some (cv, ds, a).
Proof.
  induction us as [|[key uj0] us IH]; intros s s'; simpl.
  - intros _ k uj Hin. by apply elem_of_nil in Hin.
  - destruct (parse_unit uj0) as [[[cv ds] a]|] eqn:Hp; [|discriminate].
    destruct (add_views_all ds (dependencies s)) as [|deps1]; [discriminate|].
    intros Hrest k uj Hin. apply elem_of_cons in Hin as [[= -> ->]|Hin].
    + by exists cv, ds, a.
    + by eapply IH.
Qed.

Lemma last_write_Some_key ws k u :
  last_write ws k = Some u -> k ∈ ws.*1.
Proof.
  revert u. induction ws as [|[k' u'] ws IH]; intros u; [done|]. simpl.
  destruct (last_write ws k) as [u0|].
  - intros _. right. by apply (IH u0).
  - destruct (decide (k = k')) as [->|]; [left|discriminate].
Qed.

Lemma unit_writes_keys us k : k ∈ (unit_writes us).*1 -> k ∈ us.*1.
Proof.
  induction us as [|[k0 uj0] us IH]; [done|]. simpl.
  destruct (parse_unit uj0) as [[[cv ds] a]|];
    [|intros Hin; by apply elem_of_nil in Hin].
  simpl. intros Hin. apply elem_of_cons in Hin as [->|Hin]; [left|].
  right. by apply IH.
Qed.

Lemma last_write_unit_writes us k uj cv ds a :
  (forall k' uj', (k', uj') ∈ us ->
     exists cv' ds' a', parse_unit uj' = Some (cv', ds', a')) ->
  NoDup us.*1 -> (k, uj) ∈ us -> parse_unit uj = Some (cv, ds, a) ->
  last_write (unit_writes us) k = Some (imported_unit cv ds a).
Proof.
  induction us as [|[k0 uj0] us IH]; intros Hall Hnd Hin Hp.
  - by apply elem_of_nil in Hin.
  - simpl in Hnd. apply NoDup_cons in Hnd as [Hk0 Hnd]. simpl.
    destruct (Hall k0 uj0) as (cv0 & ds0 & a0 & Hp0); [left|].
    rewrite Hp0. simpl.
    assert (Hall' : forall k' uj', (k', uj') ∈ us ->
              exists cv' ds' a', parse_unit uj' = Some (cv', ds', a')).
    { intros k' uj' Hin'. apply (Hall k'). by right. }
    apply elem_of_cons in Hin as [[= -> ->]|Hin].
    + rewrite Hp in Hp0. injection Hp0 as <- <- <-.
      destruct (last_write (unit_writes us) k0) as [u'|] eqn:Hl.
      * exfalso. apply Hk0.
        by eapply unit_writes_keys, last_write_Some_key.
      * by rewrite decide_True.
    + by rewrite (IH Hall' Hnd Hin Hp).
Qed.

(** What an import that returns has read and written, for a document of
    either schema. *)
Lemma import_units doc s r s' :
  Standard.load_from_compile doc s = (inr r, s') ->
  (forall k uj, (k, uj) ∈ document_units doc ->
     exists cv ds a, parse_unit uj = Some (cv, ds, a))
  /\ compilation_units s'
     = write_units (compilation_units s) (unit_writes (document_units doc)).
Proof.
  intros H.
  apply load_from_compile_ok in H
    as (pkg & has & s1 & wd & ty & ut & Hpkg & Hhas & Hload & Hhash & Hwd
        & Hty & Hut & -> & ->).
  unfold document_units. rewrite Hhas. destruct has.
  - destruct Hload as (us & -> & Hload). split.
    + by eapply load_units_parsed.
    + destruct (load_units_fields _ _ _ Hload) as (Hu & _). simpl.
      by rewrite Hu.
  - apply legacy_ok in Hload
      as (a & cv & cs & ds & deps' & Ha & Hcv & Hcs & Hds & Hadd & ->).
    assert (Hp : parse_unit doc = Some (cv, ds, a)).
    { unfold parse_unit. unfold ok in *. by rewrite Hcv, Hcs, Ha, Hds. }
    split.
    + intros k uj Hin. apply list_elem_of_singleton in Hin as [= -> ->].
      by exists cv, ds, a.
    + simpl. by rewrite Hp.
Qed.

Lemma document_units_contracts doc k uj n c :
  (k, uj) ∈ document_units doc -> (n, c) ∈ contracts_of uj ->
  (n, c) ∈ document_contracts doc.
Proof.
  unfold document_units, document_contracts.
  destruct (Py.contains "compilation_units" doc) as [|[]].
  - intros Hin. by apply elem_of_nil in Hin.
  - destruct (rbind _ Py.items) as [|us];
      [intros Hin; by apply elem_of_nil in Hin|].
    intros Hin Hc. induction us as [|[k0 uj0] us IH];
      [by apply elem_of_nil in Hin|].
    simpl. apply elem_of_app.
    apply elem_of_cons in Hin as [[= -> ->]|Hin]; [by left|].
    right. by apply IH.
  - intros Hin. by apply list_elem_of_singleton in Hin as [= -> ->].
Qed.

(** ** Documents changed at one place *)

(** [f] applied to the value under [k0] of an object, and to every value
    of an object. *)
Definition on_key (k0 : string) (f : json -> json) (j : json) : json :=
  match j with
  | JObj kvs =>
      JObj ((fun kv : string * json =>
               if String.eqb kv.1 k0 then (kv.1, f kv.2) else kv) <$> kvs)
  | _ => j
  end.

Definition on_values (f : json -> json) (j : json) : json :=
  match j with
  | JObj kvs => JObj ((fun kv : string * json => (kv.1, f kv.2)) <$> kvs)
  | _ => j
  end.

Lemma assoc_on_key k k0 f kvs :
  Py.assoc k ((fun kv : string * json =>
                 if String.eqb kv.1 k0 then (kv.1, f kv.2) else kv) <$> kvs)
  = if String.eqb k k0 then f <$> Py.assoc k kvs else Py.assoc k kvs.
Proof.
  induction kvs as [|[k' v] kvs IH]; simpl.
  - by destruct (String.eqb k k0).
  - destruct (String.eqb_spec k' k0) as [->|Hne]; simpl.
    + destruct (String.eqb_spec k k0) as [->|Hne']; [done|exact IH].
    + destruct (String.eqb_spec k k') as [->|Hne'].
      * by destruct (String.eqb_spec k' k0).
      * exact IH.
Qed.

Lemma getitem_on_key_ne k k0 f j :
  k <> k0 -> Py.getitem (on_key k0 f j) k = Py.getitem j k.
Proof.
  intros Hne. destruct j; try done. unfold Py.getitem. simpl.
  rewrite assoc_on_key. by destruct (String.eqb_spec k k0).
Qed.

Lemma getitem_on_key k0 f j :
  Py.getitem (on_key k0 f j) k0
  = rbind (Py.getitem j k0) (fun v => ok (f v)).
Proof.
  destruct j; try done. unfold Py.getitem. simpl.
  rewrite assoc_on_key, String.eqb_refl. by destruct (Py.assoc k0 kvs).
Qed.

Lemma contains_on_key k k0 f j :
  Py.contains k (on_key k0 f j) = Py.contains k j.
Proof.
  destruct j; try done. simpl. rewrite assoc_on_key.
  destruct (String.eqb k k0); [|done]. by destruct (Py.assoc k kvs).
Qed.

Lemma get_on_key_ne k k0 f j dflt :
  k <> k0 -> Py.get (on_key k0 f j) k dflt = Py.get j k dflt.
Proof.
  intros Hne. destruct j; try done. simpl.
  rewrite assoc_on_key. by destruct (String.eqb_spec k k0).
Qed.

Lemma items_on_values f j :
  Py.items (on_values f j)
  = rbind (Py.items j)
      (fun l => ok ((fun kv : string * json => (kv.1, f kv.2)) <$> l)).
Proof. by destruct j. Qed.

(** The items of the mapping under [k0] after [on_key k0 (on_values f)]. *)
Lemma items_on_key_values k0 f j :
  rbind (Py.getitem (on_key k0 (on_values f) j) k0) Py.items
  = rbind (rbind (Py.getitem j k0) Py.items)
      (fun l => ok ((fun kv : string * json => (kv.1, f kv.2)) <$> l)).
Proof.
  rewrite getitem_on_key. destruct (Py.getitem j k0) as [e|v]; [done|].
  simpl. apply items_on_values.
Qed.

















Lemma bind_lift_err {A B} (e : exn) (k : A -> M B) s :
  bind (lift (inl e)) k s = (inl e, s).
Proof. reflexivity. Qed.




































(** ** Documents with a missing key *)

Definition has_key (k : string) (j : json) : Prop :=
  exists v, Py.getitem j k = ok v.

(** A contract entry with every key the import subscripts. *)
Definition contract_complete (c : json) : Prop :=
  (forall view, view ∈ ["absolute"; "relative"; "short"; "used"] ->
     exists v, Py.getitem2 c "filenames" view = ok v)
  /\ (forall k, k ∈ ["abi"; "bin"; "bin-runtime"; "srcmap"; "srcmap-runtime";
                     "libraries"; "is_dependency"] -> has_key k c).

(** A unit, or a legacy document, with every key the import subscripts. *)
Definition unit_complete (u : json) : Prop :=
  (forall f, f ∈ ["compiler"; "version"; "optimized"] ->
     exists v, Py.getitem2 u "compiler" f = ok v)
  /\ has_key "asts" u
  /\ has_key "contracts" u
  /\ (forall n c, (n, c) ∈ contracts_of u -> contract_complete c).

Definition units_of (doc : json) : list (string * json) :=
  match rbind (Py.getitem doc "compilation_units") Py.items with
  | inr us => us
  | inl _ => []
  end.

Definition document_complete (doc : json) : Prop :=
  has_key "working_dir" doc
  /\ has_key "type" doc
  /\ match Py.contains "compilation_units" doc with
     | inr false => unit_complete doc
     | inr true => forall k u, (k, u) ∈ units_of doc -> unit_complete u
     | inl _ => False
     end.

Lemma parse_contract_complete c d :
  parse_contract c = ok d -> contract_complete c.
Proof.
  intros H. apply parse_contract_fields in H
    as (H1 & H2 & H3 & H4 & H5 & H6 & H7 & H8 & H9 & H10 & _ & _ & H13).
  split.
  - intros view Hv.
    repeat (apply elem_of_cons in Hv as [->|Hv]); eauto.
    by apply elem_of_nil in Hv.
  - intros k Hk. unfold has_key.
    repeat (apply elem_of_cons in Hk as [->|Hk]); eauto.
    + destruct (Py.getitem c "srcmap"); [discriminate|eauto].
    + destruct (Py.getitem c "srcmap-runtime"); [discriminate|eauto].
    + by apply elem_of_nil in Hk.
Qed.




(** A computation that raises only exceptions with the property [P]. *)
Definition raises_only {A} (P : exn -> Prop) (m : M A) : Prop :=
  forall s e s', m s = (inl e, s') -> P e.

Section RaisesOnly.
Context {A B : Type} (P : exn -> Prop).

Lemma raises_only_ret (a : A) : raises_only P (ret a).
Proof. intros s e s'. discriminate. Qed.

Lemma raises_only_modify f : raises_only P (modify f).
Proof. intros s e s'. discriminate. Qed.

Lemma raises_only_gets (f : CryticCompile -> A) : raises_only P (gets f).
Proof. intros s e s'. discriminate. Qed.

Lemma raises_only_lift (r : result A) :
  (forall e, r = inl e -> P e) -> raises_only P (lift r).
Proof. intros H s e s' [= -> _]. by apply H. Qed.

Lemma raises_only_bind (m : M A) (k : A -> M B) :
  raises_only P m -> (forall a, raises_only P (k a)) ->
  raises_only P (bind m k).
Proof.
  intros Hm Hk s e s'. unfold bind.
  destruct (m s) as [[e1|a] s1] eqn:Hms.
  - intros [= <- <-]. by eapply Hm.
  - apply Hk.
Qed.

Lemma raises_only_bind_lift (r : result A) (k : A -> M B) :
  (forall e, r = inl e -> P e) ->
  (forall a, r = inr a -> raises_only P (k a)) ->
  raises_only P (bind (lift r) k).
Proof.
  intros Hr Hk s e s'. destruct r as [e1|a].
  - intros [= <- <-]. by apply Hr.
  - by apply Hk.
Qed.

Lemma raises_only_for_each (l : list A) (body : A -> M unit) :
  (forall x, x ∈ l -> raises_only P (body x)) ->
  raises_only P (for_each l body).
Proof.
  induction l as [|x l IH]; intros Hb; simpl.
  - intros s e s'. discriminate.
  - intros s e s'. unfold bind.
    destruct (body x s) as [[e1|[]] s1] eqn:Hx.
    + intros [= <- <-]. eapply Hb; [left|exact Hx].
    + apply IH. intros y Hy. apply Hb. by right.
Qed.

End RaisesOnly.

Lemma raises_only_weaken {A} (P Q : exn -> Prop) (m : M A) :
  (forall e, P e -> Q e) -> raises_only P m -> raises_only Q m.
Proof. intros HPQ Hm s e s' H. by eapply HPQ, Hm. Qed.

Lemma raises_only_dependencies_add (P : exn -> Prop) x :
  P TypeError -> raises_only P (dependencies_add x).
Proof.
  intros HP s e s'. unfold dependencies_add, Py.set_add.
  destruct (Py.hashable x); [discriminate|]. by intros [= <- _].
Qed.

(** A subscript with a string raises [KeyError] with that string, on a
    mapping that lacks the key, or [TypeError], on a value that is no
    mapping. *)
Lemma getitem_err j k e :
  Py.getitem j k = inl e ->
  (e = KeyError (JStr k)
   /\ exists kvs, j = JObj kvs /\ Py.assoc k kvs = None)
  \/ e = TypeError.
Proof.
  unfold Py.getitem. destruct j as [| | |s|l|kvs]; simpl;
    try (intros [= <-]; by right).
  destruct (Py.assoc k kvs) eqn:Hk; [discriminate|].
  intros [= <-]. left. split; [done|]. by exists kvs.
Qed.

Lemma getitem_key_error j k x :
  Py.getitem j k = inl (KeyError x) -> x = JStr k.
Proof. intros H. apply getitem_err in H as [[[= ->] _]|[=]]. done. Qed.

Lemma get_err j k dflt e : Py.get j k dflt = inl e -> e = AttributeError.
Proof. destruct j; simpl; try discriminate; by intros [= <-]. Qed.

Lemma contains_err k j e : Py.contains k j = inl e -> e = TypeError.
Proof. destruct j; simpl; try discriminate; by intros [= <-]. Qed.

Lemma items_err j e : Py.items j = inl e -> e = AttributeError.
Proof. destruct j; simpl; try discriminate; by intros [= <-]. Qed.

Lemma split_err j sep e : Py.split j sep = inl e -> e = AttributeError.
Proof. destruct j; simpl; try discriminate; by intros [= <-]. Qed.

(** The [KeyError] of a read that subscripts and then calls a method
    comes from the subscript. *)
Lemma rbind_key_error {A B} (r : result A) (g : A -> result B) x :
  (forall a e, g a = inl e -> e = AttributeError) ->
  rbind r g = inl (KeyError x) -> r = inl (KeyError x).
Proof.
  intros Hg. destruct r as [e|a]; simpl; [by intros [= ->]|].
  intros H. by apply Hg in H.
Qed.

Lemma getitem2_key_error j k1 k2 x :
  Py.getitem2 j k1 k2 = inl (KeyError x) -> x = JStr k1 \/ x = JStr k2.
Proof.
  unfold Py.getitem2. destruct (Py.getitem j k1) as [e|v] eqn:H1; simpl.
  - intros [= ->]. left. by eapply getitem_key_error.
  - intros H2. right. by eapply getitem_key_error.
Qed.

(** The keys the import subscripts. *)
Definition subscripted_keys : list string :=
  ["compilation_units"; "working_dir"; "type"; "asts"; "compiler";
   "version"; "optimized"; "contracts"; "filenames"; "absolute";
   "relative"; "short"; "used"; "abi"; "bin"; "bin-runtime"; "srcmap";
   "srcmap-runtime"; "libraries"; "is_dependency"].

(** A [KeyError] names a key the import subscripts, and is raised only
    when [complete] fails. *)
Definition key_error_of (complete : Prop) (e : exn) : Prop :=
  forall x, e = KeyError x ->
    (exists k, x = JStr k /\ k ∈ subscripted_keys) /\ ~ complete.

Ltac solve_elem := apply (bool_decide_unpack _); vm_compute; exact I.

Ltac subscripted k :=
  exists k; split; [reflexivity|solve_elem].

Lemma load_contract_key_error key n c :
  raises_only (key_error_of (contract_complete c)) (load_contract key (n, c)).
Proof.
  assert (Hview : forall view,
            view ∈ ["absolute"; "relative"; "short"; "used"] ->
            forall e, Py.getitem2 c "filenames" view = inl e ->
                      key_error_of (contract_complete c) e).
  { intros view Hv e He x ->. split.
    - apply getitem2_key_error in He as [-> | ->]; [subscripted "filenames"|].
      exists view. split; [done|].
      repeat (apply elem_of_cons in Hv as [->|Hv]); try solve_elem.
      by apply elem_of_nil in Hv.
    - intros [Hviews _]. destruct (Hviews view Hv) as (v & Hok).
      unfold ok in Hok. congruence. }
  assert (Hkey : forall k,
            k ∈ ["abi"; "bin"; "bin-runtime"; "srcmap"; "srcmap-runtime";
                 "libraries"; "is_dependency"] ->
            forall e, Py.getitem c k = inl e ->
                      key_error_of (contract_complete c) e).
  { intros k Hk e He x ->. split.
    - apply getitem_key_error in He as ->. exists k. split; [done|].
      repeat (apply elem_of_cons in Hk as [->|Hk]); try solve_elem.
      by apply elem_of_nil in Hk.
    - intros [_ Hkeys]. destruct (Hkeys k Hk) as (v & Hok).
      unfold ok in Hok. congruence. }
  assert (Hsplit : forall k,
            k ∈ ["abi"; "bin"; "bin-runtime"; "srcmap"; "srcmap-runtime";
                 "libraries"; "is_dependency"] ->
            forall e,
              rbind (Py.getitem c k) (fun m => Py.split m ";") = inl e ->
              key_error_of (contract_complete c) e).
  { intros k Hk e He x ->. apply (Hkey k Hk (KeyError x)); [|done].
    eapply rbind_key_error; [|exact He]. intros a e. apply split_err. }
  assert (Hget : forall k dflt e,
            Py.get c k dflt = inl e -> key_error_of (contract_complete c) e).
  { intros k dflt e He x ->. by apply get_err in He. }
  unfold load_contract.
  repeat first
    [ apply raises_only_bind; [|intros ?]
    | apply raises_only_modify
    | apply raises_only_ret
    | apply raises_only_dependencies_add; by intros x
    | apply raises_only_lift;
      first [ apply Hview; solve_elem
            | apply Hkey; solve_elem
            | apply Hsplit; solve_elem
            | apply Hget ]
    | match goal with
      | |- raises_only _ (if ?b then _ else _) => destruct b
      end ].
Qed.

Lemma contracts_of_items u cs :
  rbind (Py.getitem u "contracts") Py.items = inr cs -> contracts_of u = cs.
Proof. unfold contracts_of. by intros ->. Qed.

(** The reads of a unit entry, or of a legacy document. *)
Lemma unit_reads_key_error u :
  (forall f, f ∈ ["compiler"; "version"; "optimized"] ->
     forall e, Py.getitem2 u "compiler" f = inl e ->
               key_error_of (unit_complete u) e)
  /\ (forall e, Py.getitem u "asts" = inl e ->
                key_error_of (unit_complete u) e)
  /\ (forall e, rbind (Py.getitem u "contracts") Py.items = inl e ->
                key_error_of (unit_complete u) e)
  /\ (forall cs key, rbind (Py.getitem u "contracts") Py.items = inr cs ->
        raises_only (key_error_of (unit_complete u))
          (for_each cs (load_contract key))).
Proof.
  split; [|split; [|split]].
  - intros f Hf e He x ->. split.
    + apply getitem2_key_error in He as [-> | ->]; [subscripted "compiler"|].
      exists f. split; [done|].
      repeat (apply elem_of_cons in Hf as [->|Hf]); try solve_elem.
      by apply elem_of_nil in Hf.
    + intros [Hc _]. destruct (Hc f Hf) as (v & Hok).
      unfold ok in Hok. congruence.
  - intros e He x ->. split.
    + apply getitem_key_error in He as ->. subscripted "asts".
    + intros (_ & (v & Hok) & _). unfold ok in Hok. congruence.
  - intros e He x ->.
    apply rbind_key_error in He; [|intros a e; apply items_err].
    split.
    + apply getitem_key_error in He as ->. subscripted "contracts".
    + intros (_ & _ & (v & Hok) & _). unfold ok in Hok. congruence.
  - intros cs key Hcs. apply raises_only_for_each. intros [n c] Hin.
    eapply raises_only_weaken; [|apply load_contract_key_error].
    intros e He x Hx. destruct (He x Hx) as [Hk Hnot]. split; [done|].
    intros (_ & _ & _ & Hall). apply Hnot, (Hall n).
    by rewrite (contracts_of_items _ _ Hcs).
Qed.

Lemma legacy_key_error doc :
  raises_only (key_error_of (unit_complete doc))
    (Standard._load_from_compile_legacy doc).
Proof.
  destruct (unit_reads_key_error doc) as (Hcompiler & Hasts & Hitems & Hloop).
  rewrite legacy_unfold.
  repeat first
    [ apply raises_only_modify
    | apply raises_only_bind_lift;
      [ first [ apply Hcompiler; solve_elem | exact Hasts | exact Hitems ]
      | intros ? ? ]
    | apply raises_only_bind; [|intros ?]
    | by apply Hloop ].
Qed.

Lemma load_unit_key_error key uj :
  raises_only (key_error_of (unit_complete uj)) (Standard.load_unit (key, uj)).
Proof.
  destruct (unit_reads_key_error uj) as (Hcompiler & Hasts & Hitems & Hloop).
  rewrite load_unit_unfold.
  repeat first
    [ apply raises_only_modify
    | apply raises_only_bind_lift;
      [ first [ apply Hcompiler; solve_elem | exact Hasts | exact Hitems ]
      | intros ? ? ]
    | apply raises_only_bind; [|intros ?]
    | by apply Hloop ].
Qed.

(** A [KeyError] of the import carries the name of a key the import
    subscripts, and is raised only for a document that lacks a required
    key. *)
Lemma import_key_error doc :
  raises_only (key_error_of (document_complete doc))
    (Standard.load_from_compile doc).
Proof.
  rewrite load_from_compile_unfold.
  apply raises_only_bind_lift.
  { intros e He x ->. by apply get_err in He. }
  intros pkg _. apply raises_only_bind; [apply raises_only_modify|].
  intros _. apply raises_only_bind_lift.
  { intros e He x ->. by apply contains_err in He. }
  intros has Hhas. apply raises_only_bind.
  - unfold load_payload. destruct has; simpl.
    + apply raises_only_bind_lift.
      { intros e He x ->.
        apply rbind_key_error in He; [|intros a e; apply items_err].
        exfalso. apply getitem_err in He as [[_ (kvs & -> & Hnone)]|[=]].
        simpl in Hhas. rewrite Hnone in Hhas. discriminate. }
      intros us Hus. apply raises_only_for_each. intros [key uj] Hin.
      eapply raises_only_weaken; [|apply load_unit_key_error].
      intros e He x Hx. destruct (He x Hx) as [Hk Hnot]. split; [done|].
      intros (_ & _ & Hunits). rewrite Hhas in Hunits.
      apply Hnot, (Hunits key). unfold units_of. by rewrite Hus.
    + eapply raises_only_weaken; [|apply legacy_key_error].
      intros e He x Hx. destruct (He x Hx) as [Hk Hnot]. split; [done|].
      intros (_ & _ & Hunit). rewrite Hhas in Hunit. by apply Hnot.
  - intros _. unfold import_tail.
    apply raises_only_bind; [apply raises_only_gets|]. intros units.
    apply raises_only_bind.
    { apply raises_only_for_each. intros u _. unfold add_filenames.
      apply raises_only_bind; [|intros ?; apply raises_only_modify].
      apply raises_only_lift. unfold Standard.set_of_filenames.
      intros e He x ->. by destruct (forallb _ _). }
    intros _. apply raises_only_bind_lift.
    { intros e He x ->. split.
      - apply getitem_key_error in He as ->. subscripted "working_dir".
      - intros ((v & Hok) & _). unfold ok in Hok. congruence. }
    intros wd _. apply raises_only_bind; [apply raises_only_modify|].
    intros _. apply raises_only_bind_lift.
    { intros e He x ->. split.
      - apply getitem_key_error in He as ->. subscripted "type".
      - intros (_ & (v & Hok) & _). unfold ok in Hok. congruence. }
    intros ty _. apply raises_only_bind_lift.
    { intros e He x ->. by apply get_err in He. }
    intros ut _. apply raises_only_ret.
Qed.




Lemma assoc_app_ne k k0 v kvs :
  k <> k0 -> Py.assoc k (kvs ++ [(k0, v)]) = Py.assoc k kvs.
Proof.
  intros Hne. induction kvs as [|[k' v'] kvs IH]; simpl.
  - destruct (String.eqb_spec k k0); [done|reflexivity].
  - destruct (String.eqb k k'); [done|exact IH].
Qed.


Module MalformedExample.

(** The current-schema example document with the [absolute] filename of
    the contract [Dep] removed. *)
Definition dep_filenames : json :=
  JObj [("used", JStr "Dep.sol"); ("short", JStr "Dep.sol");
        ("relative", JStr "lib/Dep.sol")].

Definition document : json :=
  JObj [("compilation_units",
         JObj [("/a",
                JObj [("compiler", DocExample.compiler_json);
                      ("asts", DocExample.asts_json);
                      ("contracts",
                       JObj [("Token",
                              DocExample.contract DocExample.token_filenames
                                false);
                             ("Dep",
                              DocExample.contract dep_filenames true)])])]);
        ("package", JNull); ("working_dir", JStr "/a"); ("type", JNum 4);
        ("unit_tests", JArr [])].

Definition run : result (json * json) * CryticCompile :=
  Standard.load_from_compile document DocExample.session.

(** The same document with the [absolute] filename of [Dep] in place. *)
Definition complete : json :=
  JObj [("compilation_units",
         JObj [("/a",
                JObj [("compiler", DocExample.compiler_json);
                      ("asts", DocExample.asts_json);
                      ("contracts",
                       JObj [("Token",
                              DocExample.contract DocExample.token_filenames
                                false);
                             ("Dep",
                              DocExample.contract DocExample.dep_filenames
                                true)])])]);
        ("package", JNull); ("working_dir", JStr "/a"); ("type", JNum 4);
        ("unit_tests", JArr [])].

End MalformedExample.




(** ** Contracts without documentation keys *)

(** A mapping with an empty mapping written under the key [k] when it
    has no such key. *)
Definition add_missing (k : string) (kvs : list (string * json))
  : list (string * json) :=
  match Py.assoc k kvs with
  | Some _ => kvs
  | None => kvs ++ [(k, JObj [])]
  end.

(** A contract entry, a unit entry and a document of either schema, with
    an empty mapping written under each documentation key a contract
    lacks. *)
Definition with_docs_contract (c : json) : json :=
  match c with
  | JObj kvs => JObj (add_missing "devdoc" (add_missing "userdoc" kvs))
  | _ => c
  end.

Definition with_docs_unit : json -> json :=
  on_key "contracts" (on_values with_docs_contract).

Definition with_docs (doc : json) : json :=
  on_key "compilation_units" (on_values with_docs_unit) (with_docs_unit doc).

Lemma assoc_app_eq k v kvs :
  Py.assoc k kvs = None -> Py.assoc k (kvs ++ [(k, v)]) = Some v.
Proof.
  induction kvs as [|[k' v'] kvs IH]; simpl.
  - by rewrite String.eqb_refl.
  - destruct (String.eqb k k'); [done|exact IH].
Qed.

Lemma assoc_add_missing k k0 kvs :
  Py.assoc k (add_missing k0 kvs)
  = if String.eqb k k0 then Some (default (JObj []) (Py.assoc k0 kvs))
    else Py.assoc k kvs.
Proof.
  unfold add_missing. destruct (String.eqb_spec k k0) as [->|Hne].
  - destruct (Py.assoc k0 kvs) as [v|] eqn:Hk; [done|].
    by rewrite assoc_app_eq.
  - destruct (Py.assoc k0 kvs); [done|]. by apply assoc_app_ne.
Qed.

Lemma getitem_with_docs c k :
  k <> "userdoc" -> k <> "devdoc" ->
  Py.getitem (with_docs_contract c) k = Py.getitem c k.
Proof.
  intros H1 H2. destruct c as [| | | | |kvs]; try done.
  unfold Py.getitem. simpl. rewrite !assoc_add_missing.
  destruct (String.eqb_spec k "devdoc"); [done|].
  by destruct (String.eqb_spec k "userdoc").
Qed.

Lemma get_with_docs c k :
  k = "userdoc" \/ k = "devdoc" ->
  Py.get (with_docs_contract c) k (JObj []) = Py.get c k (JObj []).
Proof.
  intros Hk. destruct c as [| | | | |kvs]; try done.
  simpl. rewrite !assoc_add_missing.
  destruct Hk as [-> | ->]; simpl; by destruct (Py.assoc _ kvs).
Qed.

(** The import reads the same from a contract entry with the empty
    mappings written out. *)
Lemma load_contract_with_docs key n c s :
  load_contract key (n, with_docs_contract c) s = load_contract key (n, c) s.
Proof.
  unfold load_contract, Py.getitem2.
  rewrite !getitem_with_docs by done.
  rewrite !get_with_docs by auto. reflexivity.
Qed.

Lemma contracts_loop_with_docs key cs s :
  for_each ((fun kv : string * json => (kv.1, with_docs_contract kv.2))
              <$> cs) (load_contract key) s
  = for_each cs (load_contract key) s.
Proof.
  rewrite for_each_fmap. apply for_each_ext. intros [n c] s1.
  apply load_contract_with_docs.
Qed.

Lemma load_unit_with_docs key uj s :
  Standard.load_unit (key, with_docs_unit uj) s
  = Standard.load_unit (key, uj) s.
Proof.
  rewrite !load_unit_unfold. unfold with_docs_unit at 1 2 3 5, Py.getitem2.
  rewrite !getitem_on_key_ne by done.
  unfold with_docs_unit. rewrite items_on_key_values.
  destruct (rbind (Py.getitem uj "contracts") Py.items) as [e|cs];
    [reflexivity|].
  simpl rbind. repeat (apply bind_ext; intros ? ?).
  erewrite !bind_lift_ok by reflexivity. unfold bind.
  by rewrite contracts_loop_with_docs.
Qed.

Lemma with_docs_getitem doc k :
  k <> "contracts" -> k <> "compilation_units" ->
  Py.getitem (with_docs doc) k = Py.getitem doc k.
Proof.
  intros H1 H2. unfold with_docs, with_docs_unit.
  by rewrite !getitem_on_key_ne.
Qed.

Lemma with_docs_get doc k dflt :
  k <> "contracts" -> k <> "compilation_units" ->
  Py.get (with_docs doc) k dflt = Py.get doc k dflt.
Proof.
  intros H1 H2. unfold with_docs, with_docs_unit.
  by rewrite !get_on_key_ne.
Qed.

Lemma with_docs_contains doc k :
  Py.contains k (with_docs doc) = Py.contains k doc.
Proof. unfold with_docs, with_docs_unit. by rewrite !contains_on_key. Qed.

Lemma legacy_with_docs doc s :
  Standard._load_from_compile_legacy (with_docs doc) s
  = Standard._load_from_compile_legacy doc s.
Proof.
  rewrite !legacy_unfold. unfold Py.getitem2.
  rewrite !with_docs_getitem by done.
  unfold with_docs. rewrite (getitem_on_key_ne "contracts") by done.
  unfold with_docs_unit. rewrite items_on_key_values.
  destruct (rbind (Py.getitem doc "contracts") Py.items) as [e|cs];
    [reflexivity|].
  simpl rbind. repeat (apply bind_ext; intros ? ?).
  erewrite !bind_lift_ok by reflexivity.
  apply contracts_loop_with_docs.
Qed.

Lemma payload_with_docs doc has s :
  load_payload (with_docs doc) has s = load_payload doc has s.
Proof.
  unfold load_payload. destruct has; simpl; [|apply legacy_with_docs].
  unfold with_docs. rewrite items_on_key_values.
  unfold with_docs_unit at 1. rewrite getitem_on_key_ne by done.
  destruct (rbind (Py.getitem doc "compilation_units") Py.items) as [e|us];
    [reflexivity|].
  simpl rbind. erewrite !bind_lift_ok by reflexivity.
  rewrite for_each_fmap. apply for_each_ext. intros [key uj] s1.
  apply load_unit_with_docs.
Qed.

Lemma import_tail_with_docs doc s :
  import_tail (with_docs doc) s = import_tail doc s.
Proof.
  unfold import_tail.
  rewrite !with_docs_getitem by done. by rewrite with_docs_get.
Qed.

(** The import of a document is the import of the document with the
    empty mappings written out. *)
Lemma import_with_docs doc s :
  Standard.load_from_compile (with_docs doc) s
  = Standard.load_from_compile doc s.
Proof.
  rewrite !load_from_compile_unfold.
  rewrite with_docs_get, with_docs_contains by done.
  repeat (apply bind_ext; intros ? ?).
  unfold bind. rewrite payload_with_docs.
  destruct (load_payload doc _ _) as [[e|[]] sa]; [done|].
  apply import_tail_with_docs.
Qed.

Lemma parse_contract_natspec c d :
  parse_contract c = ok d ->
  exists kvs,
    c = JObj kvs
    /\ d_natspec d
       = {| userdoc := default (JObj []) (Py.assoc "userdoc" kvs);
            devdoc := default (JObj []) (Py.assoc "devdoc" kvs) |}.
Proof.
  intros H. destruct c as [| | | | |kvs]; try discriminate.
  exists kvs. split; [done|].
  apply parse_contract_fields in H
    as (_ & _ & _ & _ & _ & _ & _ & _ & _ & _ & Hu & Hd & _).
  simpl in Hu, Hd. injection Hu as Hu. injection Hd as Hd.
  destruct (d_natspec d). simpl in *. by subst.
Qed.

(** The unit an import that returns leaves under the key of a unit entry
    holds what the entry's contracts provide. *)
Lemma imported_contract doc s r s' key uj n c :
  Standard.load_from_compile doc s = (inr r, s') ->
  NoDup (document_units doc).*1 ->
  (key, uj) ∈ document_units doc ->
  NoDup (contracts_of uj).*1 ->
  (n, c) ∈ contracts_of uj ->
  exists u d,
    compilation_units s' !! key = Some u
    /\ parse_contract c = ok d
    /\ holds u n d.
Proof.
  intros H Hnd Hin Hndc Hc.
  destruct (import_units _ _ _ _ H) as [Hparsed Hunits].
  destruct (Hparsed key uj Hin) as (cv & ds & a & Hp).
  pose proof (parse_unit_contracts _ _ _ _ Hp) as Hds.
  destruct (parse_all_elem _ _ _ _ Hds Hc) as (d & Hd & Hind).
  exists (imported_unit cv ds a), d. split; [|split; [done|]].
  - rewrite Hunits, lookup_write_units.
    by rewrite (last_write_unit_writes _ _ _ _ _ _ Hparsed Hnd Hin Hp).
  - apply imported_unit_holds; [|done].
    by rewrite (parse_all_keys _ _ Hds).
Qed.

Module MissingDocsExample.

(** The current-schema example document in which the contract [Dep] has
    no [devdoc] key and the contract [Token] has both keys. *)
Definition dep_contract : json :=
  JObj [("abi", JArr []); ("bin", JStr "6080"); ("bin-runtime", JStr "6080");
        ("srcmap", JStr "0:9:0;;1:2:0"); ("srcmap-runtime", JStr "0:9:0");
        ("filenames", DocExample.dep_filenames); ("libraries", JObj []);
        ("is_dependency", JBool true);
        ("userdoc", JObj [("methods", JObj [])])].

Definition unit_json : json :=
  JObj [("compiler", DocExample.compiler_json);
        ("asts", DocExample.asts_json);
        ("contracts",
         JObj [("Dep", dep_contract);
               ("Token",
                DocExample.contract DocExample.token_filenames false)])].

Definition document : json :=
  JObj [("compilation_units", JObj [("/a", unit_json)]);
        ("package", JNull); ("working_dir", JStr "/a"); ("type", JNum 4);
        ("unit_tests", JArr [])].

End MissingDocsExample.

(** C10. A contract entry that lacks its [userdoc] key, its [devdoc] key
    or both does not make the import fail, on the legacy and on the
    current-schema path: the import of any document, from any session,
    ends with the same outcome and leaves the same session as the import
    of the document with an empty mapping written under each
    documentation key a contract lacks, and it never raises [KeyError]
    for [userdoc] or [devdoc]. When the import returns, the session
    holds, for each contract of each unit entry, the [Natspec] made of
    the entry's [userdoc] and [devdoc] values with an empty mapping in
    place of a missing one (keys of unit entries and contract names
    being distinct, as in every parsed JSON object), and every other
    per-contract key is there: the absence of one of them makes the
    import raise. *)
Theorem missing_docs_do_not_fail (doc : json) (s : CryticCompile) :
  let run := Standard.load_from_compile doc s in
  Standard.load_from_compile (with_docs doc) s = run
  /\ (forall k, k ∈ ["userdoc"; "devdoc"] ->
        run.1 <> inl (KeyError (JStr k)))
  /\ (forall v, run.1 = inr v ->
      (forall n c, (n, c) ∈ document_contracts doc -> contract_complete c)
      /\ (NoDup (document_units doc).*1 ->
          forall key uj n kvs,
            (key, uj) ∈ document_units doc ->
            NoDup (contracts_of uj).*1 ->
            (n, JObj kvs) ∈ contracts_of uj ->
            exists u,
              compilation_units run.2 !! key = Some u
              /\ natspec u !! n
                 = Some {| userdoc :=
                             default (JObj []) (Py.assoc "userdoc" kvs);
                           devdoc :=
                             default (JObj []) (Py.assoc "devdoc" kvs) |})).
Proof.
  intros run. split; [apply import_with_docs|]. split.
  - intros k Hk Hrun.
    assert (Heq : Standard.load_from_compile doc s
                  = (inl (KeyError (JStr k)), run.2))
      by (rewrite <- Hrun; apply surjective_pairing).
    destruct (import_key_error doc s _ _ Heq (JStr k) eq_refl)
      as [(k' & [= <-] & Hin) _].
    revert Hin.
    repeat (apply elem_of_cons in Hk as [-> | Hk]);
      [| |by apply elem_of_nil in Hk];
      apply (bool_decide_unpack _); vm_compute; exact I.
  - intros v Hv.
    assert (H : Standard.load_from_compile doc s = (inr v, run.2))
      by (rewrite <- Hv; apply surjective_pairing).
    split.
    + intros n c Hin.
      destruct (import_dependencies _ _ _ _ H) as (ds & Hds & _).
      destruct (parse_all_elem _ _ _ _ Hds Hin) as (d & Hd & _).
      by eapply parse_contract_complete.
    + intros Hnd key uj n kvs Hin Hndc Hc.
      destruct (imported_contract _ _ _ _ _ _ _ _ H Hnd Hin Hndc Hc)
        as (u & d & Hu & Hd & Hholds).
      exists u. split; [exact Hu|].
      destruct (parse_contract_natspec _ _ Hd) as (kvs' & [= <-] & Hn).
      destruct Hholds as (_ & _ & _ & _ & _ & _ & _ & Hnat).
      by rewrite Hnat, Hn.
Qed.

Lemma missing_docs_do_not_fail_witness :
  let run := Standard.load_from_compile MissingDocsExample.document
               DocExample.session in
  run.1 = inr (JNum 4, JArr [])
  /\ exists u,
      compilation_units run.2 !! "/a" = Some u
      /\ natspec u !! "Dep"
         = Some {| userdoc := JObj [("methods", JObj [])];
                   devdoc := JObj [] |}.
Proof.
  intros run.
  assert (Hrun : run.1 = inr (JNum 4, JArr [])) by (vm_compute; reflexivity).
  split; [exact Hrun|].
  destruct (missing_docs_do_not_fail MissingDocsExample.document
              DocExample.session) as (_ & _ & Hret).
  destruct (Hret _ Hrun) as [_ Hnat].
  assert (Hunits : document_units MissingDocsExample.document
                   = [("/a", MissingDocsExample.unit_json)]) by reflexivity.
  assert (Hcontracts : contracts_of MissingDocsExample.unit_json
            = [("Dep", MissingDocsExample.dep_contract);
               ("Token",
                DocExample.contract DocExample.token_filenames false)])
    by reflexivity.
  destruct (Hnat
              ltac:(rewrite Hunits; apply NoDup_singleton)
              "/a" MissingDocsExample.unit_json "Dep"
              [("abi", JArr []); ("bin", JStr "6080");
               ("bin-runtime", JStr "6080");
               ("srcmap", JStr "0:9:0;;1:2:0");
               ("srcmap-runtime", JStr "0:9:0");
               ("filenames", DocExample.dep_filenames);
               ("libraries", JObj []);
               ("is_dependency", JBool true);
               ("userdoc", JObj [("methods", JObj [])])]
              ltac:(rewrite Hunits; left)
              ltac:(rewrite Hcontracts; apply (bool_decide_unpack _);
                    vm_compute; exact I)
              ltac:(rewrite Hcontracts; left))
    as (u & Hu & Hn).
  exists u. split; [exact Hu|]. rewrite Hn. reflexivity.
Defined.

(** ** Source maps: [split] and [join] *)

Fixpoint has_char (c : ascii) (s : string) : bool :=
  match s with
  | EmptyString => false
  | String c' rest => Ascii.eqb c' c || has_char c rest
  end.

Lemma split_on_nonempty sep s : Py.split_on sep s <> [].
Proof.
  destruct s as [|c s]; simpl; [done|].
  destruct (Ascii.eqb c sep); [done|]. by destruct (Py.split_on sep s).
Qed.

Lemma split_on_no_sep sep s :
  Forall (fun seg => has_char sep seg = false) (Py.split_on sep s).
Proof.
  induction s as [|c s IH]; simpl.
  - by repeat constructor.
  - destruct (Ascii.eqb c sep) eqn:Hc.
    + by constructor.
    + destruct (Py.split_on sep s) as [|seg segs].
      * constructor; [|done]. simpl. by rewrite Hc.
      * apply Forall_cons in IH as [Hseg Hsegs]. constructor; [|done].
        simpl. by rewrite Hc, Hseg.
Qed.

Lemma split_on_no_sep_id sep s :
  has_char sep s = false -> Py.split_on sep s = [s].
Proof.
  induction s as [|c s IH]; simpl; [done|].
  intros H. apply orb_false_iff in H as [Hc Hs]. rewrite Hc, (IH Hs). done.
Qed.

Lemma split_on_app sep seg rest :
  has_char sep seg = false ->
  Py.split_on sep (String.append seg (String sep rest))
  = seg :: Py.split_on sep rest.
Proof.
  induction seg as [|c seg IH]; simpl.
  - intros _. by rewrite Ascii.eqb_refl.
  - intros H. apply orb_false_iff in H as [Hc Hs]. rewrite Hc, (IH Hs). done.
Qed.

(** Splitting the joined segments gives the segments back when there is
    at least one segment and none holds the separator. *)
Lemma split_join sep segs :
  segs <> [] ->
  Forall (fun seg => has_char sep seg = false) segs ->
  Py.split_on sep (Py.join (String sep EmptyString) segs) = segs.
Proof.
  intros Hne Hall. induction Hall as [|seg segs Hseg Hall IH]; [done|].
  destruct segs as [|seg' segs].
  - simpl. by apply split_on_no_sep_id.
  - change (Py.join (String sep EmptyString) (seg :: seg' :: segs))
      with (String.append seg
              (String sep (Py.join (String sep EmptyString) (seg' :: segs)))).
    rewrite split_on_app by done. by rewrite IH.
Qed.

(** The segment sequences an adapter stores are results of [split]. *)
Lemma split_join_split sep s :
  Py.split_on sep (Py.join (String sep EmptyString) (Py.split_on sep s))
  = Py.split_on sep s.
Proof. apply split_join; [apply split_on_nonempty|apply split_on_no_sep]. Qed.

(** Without these conditions the reassembly fails. *)
Example split_join_empty : Py.split_on ";" (Py.join ";" []) = [""%string].
Proof. reflexivity. Qed.

(** ** The export *)

(** Two platform instances of one class: for an adapter the cache of
    earlier answers may differ. *)
Definition same_class (p q : Platform) : Prop :=
  match p, q with
  | DappInstance _, DappInstance _ => True
  | WaffleInstance _, WaffleInstance _ => True
  | StandardInstance c t, StandardInstance c' t' => c = c' /\ t = t'
  | _, _ => False
  end.

(** [s'] is [s] with other cached answers in its platform instance. *)
Definition only_cache (s s' : CryticCompile) : Prop :=
  s' = Session.set_platform (platform s') s
  /\ same_class (platform s) (platform s').

(** A platform instance whose dependency predicate gives one answer for
    a path whatever was asked before. *)
Definition stable (p : Platform) : Prop :=
  match p with
  | StandardInstance _ _ => True
  | WaffleInstance cache =>
      forall path b, cache !! path = Some b ->
        b = Pathlib.in_parts "node_modules" (Pathlib.parts path)
  | DappInstance _ => False
  end.

(** The answer of the session's dependency query on a stable platform. *)
Definition known_dependency (s : CryticCompile) (x : json) : bool :=
  Py.set_in x (dependencies s)
  || match platform s, x with
     | WaffleInstance _, JStr path =>
         Pathlib.in_parts "node_modules" (Pathlib.parts path)
     | _, _ => false
     end.

Lemma same_class_refl p : same_class p p.
Proof. by destruct p. Qed.

Lemma same_class_trans p q r :
  same_class p q -> same_class q r -> same_class p r.
Proof. destruct p, q, r; simpl; try done. intros [-> ->] [-> ->]. done. Qed.

Lemma only_cache_refl s : only_cache s s.
Proof. split; [by destruct s|apply same_class_refl]. Qed.

Lemma only_cache_trans s1 s2 s3 :
  only_cache s1 s2 -> only_cache s2 s3 -> only_cache s1 s3.
Proof.
  intros [H1 Hc1] [H2 Hc2]. split; [|by eapply same_class_trans].
  unfold Session.set_platform in *. destruct s1, s2, s3; simpl in *.
  congruence.
Qed.

Lemma known_dependency_only_cache s s' x :
  only_cache s s' -> known_dependency s' x = known_dependency s x.
Proof.
  intros [H Hc]. unfold known_dependency. rewrite H. simpl.
  destruct (platform s), (platform s'); simpl in Hc; try done.
Qed.

Lemma is_dependency_inv x s b s' :
  CryticCompile_is_dependency x s = (inr b, s') ->
  Py.hashable x = true
  /\ only_cache s s'
  /\ (stable (platform s) ->
      b = known_dependency s x /\ stable (platform s')).
Proof.
  unfold CryticCompile_is_dependency, known_dependency. intros H.
  apply bind_ok_inv in H as (deps & s1 & Hg & H).
  apply gets_ok_inv in Hg as [-> ->].
  destruct (Py.hashable x); [|discriminate]. split; [done|].
  destruct (Py.set_in x (dependencies s)).
  { apply ret_ok_inv in H as [-> ->]. split; [apply only_cache_refl|done]. }
  unfold platform_is_dependency in H. simpl.
  destruct (platform s) as [cache|cache|cls ut] eqn:Hp.
  - destruct x as [| | |path| |]; try discriminate.
    destruct (Dapp.is_dependency cache path) as [r cache'].
    injection H as <- <-. split; [|done].
    split; [done|]. simpl. by rewrite Hp.
  - destruct x as [| | |path| |]; try discriminate.
    unfold Waffle.is_dependency in H.
    destruct (cache !! path) as [cached|] eqn:Hc.
    + injection H as <- <-. split.
      * split; [|simpl; by rewrite Hp]. simpl. rewrite <- Hp. by destruct s.
      * simpl. intros Hst. split; [by apply Hst|done].
    + injection H as <- <-. split.
      * split; [done|]. simpl. by rewrite Hp.
      * simpl. intros Hst. split; [done|]. intros path' b'.
        destruct (decide (path = path')) as [<-|Hne].
        -- rewrite lookup_insert_eq. by intros [= <-].
        -- rewrite lookup_insert_ne by done. apply Hst.
  - injection H as <- <-. split; [apply only_cache_refl|].
    by rewrite Hp.
Qed.

Section ExportDocument.

Variable T : PlatformTypes.
Variable py_str : json -> string.

(** The [compiler] record the export writes for a unit. *)
Definition compiler_record (u : CompilationUnit) : json :=
  match compiler_version u with
  | Some cv =>
      JObj [("compiler", compiler cv); ("version", version cv);
            ("optimized", optimized cv)]
  | None => JObj []
  end.

(** The entry the export writes for contract [n] of unit [u], given its
    filename, the copy of its libraries, the answer of the dependency
    query and its documentation. *)
Definition contract_entry (u : CompilationUnit) (n : string) (f : Filename)
  (libs : json) (is_dep : bool) (doc : Natspec) : json :=
  JObj
    [("abi", Unit.abi u n);
     ("bin", Unit.bytecode_init u n);
     ("bin-runtime", Unit.bytecode_runtime u n);
     ("srcmap", JStr (Py.join ";" (Unit.srcmap_init u n)));
     ("srcmap-runtime", JStr (Py.join ";" (Unit.srcmap_runtime u n)));
     ("filenames",
      JObj [("absolute", absolute f); ("used", used f);
            ("short", short f); ("relative", relative f)]);
     ("libraries", libs);
     ("is_dependency", JBool is_dep);
     ("userdoc", userdoc doc);
     ("devdoc", devdoc doc)].

(** [c] is the entry exported for contract [n] of [u] from a session that
    is [S] up to cached answers. *)
Definition exported_contract (S : CryticCompile) (u : CompilationUnit)
  (n : string) (c : json) : Prop :=
  exists f libs b doc,
    contracts_filenames u !! n = Some (FilenameObj f)
    /\ natspec u !! n = Some doc
    /\ Py.hashable (absolute f) = true
    /\ c = contract_entry u n f libs b doc
    /\ (stable (platform S) -> b = known_dependency S (absolute f)).

Definition exported_unit (S : CryticCompile) (u : CompilationUnit)
  (uj : json) : Prop :=
  exists cs,
    uj = JObj [("compiler", compiler_record u); ("asts", asts u);
               ("contracts", JObj cs)]
    /\ Forall2 (fun n kv => kv.1 = n /\ exported_contract S u n kv.2)
         (elements (contracts_names u)) cs.

(** The sessions an export goes through, started from [S]. *)
Definition exporting (S s : CryticCompile) : Prop :=
  only_cache S s /\ (stable (platform S) -> stable (platform s)).

Lemma exporting_refl S : exporting S S.
Proof. split; [apply only_cache_refl|done]. Qed.

Lemma export_contract_inv S u n s c s' :
  exporting S s ->
  Standard.export_contract u n s = (inr c, s') ->
  exported_contract S u n c /\ exporting S s'.
Proof.
  intros [Hoc Hst] H. unfold Standard.export_contract in H.
  apply bind_ok_inv in H as (fe & s1 & Hf & H).
  apply lift_ok_inv in Hf as [Hf ->].
  unfold Unit.filename_of_contract in Hf.
  destruct (contracts_filenames u !! n) as [fe'|] eqn:Hfe; [|discriminate].
  injection Hf as ->. destruct fe as [f|]; [|discriminate].
  apply bind_ok_inv in H as (libs & s1 & Hl & H).
  apply lift_ok_inv in Hl as [Hl ->].
  apply bind_ok_inv in H as (b & s1 & Hb & H).
  apply bind_ok_inv in H as (doc & s2 & Hd & H).
  apply lift_ok_inv in Hd as [Hd ->].
  apply ret_ok_inv in H as [-> ->].
  destruct (natspec u !! n) as [doc'|] eqn:Hdoc; [|discriminate].
  injection Hd as ->.
  apply is_dependency_inv in Hb as (Hh & Hoc' & Hb). split.
  - exists f, libs, b, doc. repeat (split; [done|]). intros HS.
    destruct (Hb (Hst HS)) as [-> _].
    by apply known_dependency_only_cache.
  - split; [by eapply only_cache_trans|]. intros HS.
    by destruct (Hb (Hst HS)).
Qed.

Lemma dict_set_fresh k v kvs :
  k ∉ kvs.*1 -> Py.dict_set k v kvs = kvs ++ [(k, v)].
Proof.
  induction kvs as [|[k' v'] kvs IH]; simpl; [done|].
  intros Hnot. apply not_elem_of_cons in Hnot as [Hne Hnot].
  destruct (String.eqb_spec k k') as [->|_]; [done|]. by rewrite IH.
Qed.

Lemma for_fold_ext {A B} (l : list A) (b1 b2 : B -> A -> M B) :
  (forall acc x s, b1 acc x s = b2 acc x s) ->
  forall acc s, for_fold l acc b1 s = for_fold l acc b2 s.
Proof.
  intros Hb. induction l as [|x l IH]; intros acc s; simpl; [done|].
  unfold bind. rewrite Hb. destruct (b2 acc x s) as [[e|acc'] s1]; [done|].
  apply IH.
Qed.

(** A loop that fills a dict, one fresh key per iteration. *)
Lemma for_fold_dict_set {A} (key : A -> string) (body : A -> M json)
  (I : CryticCompile -> Prop) (P : A -> json -> Prop) (l : list A) :
  (forall x s1 c s2, I s1 -> body x s1 = (inr c, s2) -> P x c /\ I s2) ->
  forall acc s acc' s',
    I s -> NoDup (key <$> l) -> (forall x, x ∈ l -> key x ∉ acc.*1) ->
    for_fold l acc
      (fun acc x => bind (body x) (fun c => ret (Py.dict_set (key x) c acc)))
      s = (inr acc', s') ->
    exists cs, acc' = acc ++ cs
               /\ Forall2 (fun x kv => kv.1 = key x /\ P x kv.2) l cs
               /\ I s'.
Proof.
  intros Hbody. induction l as [|x l IH]; intros acc s acc' s' HI Hnd Hfresh H.
  - apply ret_ok_inv in H as [-> ->]. exists []. rewrite app_nil_r.
    split; [done|]. split; [constructor|done].
  - simpl in H, Hnd. apply NoDup_cons in Hnd as [Hx Hnd].
    apply bind_ok_inv in H as (acc1 & s1 & Hstep & H).
    apply bind_ok_inv in Hstep as (c & s2 & Hc & Hr).
    apply ret_ok_inv in Hr as [-> ->].
    destruct (Hbody _ _ _ _ HI Hc) as [HP HI2].
    rewrite dict_set_fresh in H by (apply Hfresh; left).
    apply IH in H as (cs & -> & Hcs & HI'); [|done|done|].
    + exists ((key x, c) :: cs). rewrite <- app_assoc. split; [done|].
      split; [|done]. by constructor.
    + intros y Hy. rewrite fmap_app. simpl.
      rewrite elem_of_app, list_elem_of_singleton.
      intros [Hin|Heq]; [by apply (Hfresh y); [right|]|].
      apply Hx. rewrite <- Heq. by apply list_elem_of_fmap_2.
Qed.

Lemma export_unit_inv S u s uj s' :
  exporting S s ->
  Standard.export_unit u s = (inr uj, s') ->
  exported_unit S u uj /\ exporting S s'.
Proof.
  intros HI H. unfold Standard.export_unit in H.
  apply bind_ok_inv in H as (cs & s1 & Hloop & H).
  apply ret_ok_inv in H as [-> ->].
  apply (for_fold_dict_set (fun n => n)
           (Standard.export_contract u) (exporting S)
           (exported_contract S u)) in Hloop as (cs' & -> & Hcs & HI').
  - split; [|done]. by exists cs'.
  - intros n s2 c s3. apply export_contract_inv.
  - done.
  - rewrite list_fmap_id. apply NoDup_elements.
  - intros n _. simpl. apply not_elem_of_nil.
Qed.

(** The document an export returns. *)
Definition exported (S : CryticCompile) (doc : json) : Prop :=
  exists us,
    doc = JObj
            [("compilation_units", JObj us);
             ("package", package S);
             ("working_dir", JStr (py_str (working_dir S)));
             ("type", JNum (Standard.platform_type_used T (platform S)));
             ("unit_tests", Standard.guessed_tests (platform S))]
    /\ Forall2 (fun ku kv => kv.1 = ku.1 /\ exported_unit S ku.2 kv.2)
         (map_to_list (compilation_units S)) us.

Lemma generate_standard_export_inv S doc S' :
  Standard.generate_standard_export T py_str S = (inr doc, S') ->
  exported S doc.
Proof.
  intros H. unfold Standard.generate_standard_export in H.
  apply bind_ok_inv in H as (units & s1 & Hg & H).
  apply gets_ok_inv in Hg as [-> ->].
  apply bind_ok_inv in H as (us & s1 & Hloop & H).
  apply bind_ok_inv in H as (s2 & s3 & Hg & H).
  apply gets_ok_inv in Hg as [-> ->].
  apply ret_ok_inv in H as [-> ->].
  rewrite (for_fold_ext _ _
             (fun acc x => bind (Standard.export_unit x.2)
                             (fun c => ret (Py.dict_set x.1 c acc))))
    in Hloop by (by intros acc [k u] s).
  apply (for_fold_dict_set fst (fun x => Standard.export_unit x.2)
           (exporting S) (fun x => exported_unit S x.2))
    in Hloop as (us' & -> & Hus & [[Hs Hc] _]).
  - exists us'. split; [|done]. rewrite Hs. simpl.
    destruct (platform S), (platform s1); simpl in Hc; try done.
    by destruct Hc as [-> ->].
  - intros x s2 c s3. apply export_unit_inv.
  - apply exporting_refl.
  - apply NoDup_fst_map_to_list.
  - intros x _. simpl. apply not_elem_of_nil.
Qed.

End ExportDocument.

(** ** The import of an exported document *)

(** A segment sequence that the export's [join] and the import's [split]
    give back. *)
Definition reassembles (segs : list string) : Prop :=
  Py.split_on ";" (Py.join ";" segs) = segs.

(** What an adapter leaves for a contract: a source map that is the
    result of a [split], on either side, and hashable filename values. *)
Definition adapter_contract (u : CompilationUnit) (n : string) : Prop :=
  (exists segs, srcmaps_init u !! n = Some segs /\ reassembles segs)
  /\ (exists segs, srcmaps_runtime u !! n = Some segs /\ reassembles segs)
  /\ forall f, contracts_filenames u !! n = Some (FilenameObj f) ->
       Forall (fun v => Py.hashable v = true) (views f).

Definition adapter_unit (u : CompilationUnit) : Prop :=
  is_Some (compiler_version u)
  /\ forall n, n ∈ contracts_names u -> adapter_contract u n.

Definition adapter_session (S : CryticCompile) : Prop :=
  forall k u, compilation_units S !! k = Some u -> adapter_unit u.

Lemma split_reassembles m : reassembles (Py.split_on ";" m).
Proof. apply split_join_split. Qed.

(** What the import reads from the entry exported for a contract. *)
Definition reimported (S : CryticCompile) (u : CompilationUnit) (n : string)
  (d : ContractData) : Prop :=
  contracts_filenames u !! n = Some (FilenameObj (d_filename d))
  /\ d_abi d = Unit.abi u n
  /\ d_bin d = Unit.bytecode_init u n
  /\ d_bin_runtime d = Unit.bytecode_runtime u n
  /\ d_srcmap d = Py.split_on ";" (Py.join ";" (Unit.srcmap_init u n))
  /\ d_srcmap_runtime d
     = Py.split_on ";" (Py.join ";" (Unit.srcmap_runtime u n))
  /\ natspec u !! n = Some (d_natspec d)
  /\ exists b, d_is_dependency d = JBool b
               /\ (stable (platform S) ->
                   b = known_dependency S (absolute (d_filename d))).

Lemma parse_exported_contract S u n c :
  exported_contract S u n c ->
  exists d, parse_contract c = ok d /\ reimported S u n d.
Proof.
  intros (f & libs & b & doc & Hf & Hdoc & Hh & -> & Hb).
  destruct f as [fa fu fr fs], doc as [ud dd].
  eexists. split; [reflexivity|].
  unfold reimported. simpl. repeat (split; [done|]). by exists b.
Qed.

Lemma parse_exported_contracts S u ns cs :
  Forall2 (fun n kv => kv.1 = n /\ exported_contract S u n kv.2) ns cs ->
  exists ds,
    parse_all cs = Some ds
    /\ Forall2 (fun n nd => nd.1 = n /\ reimported S u n nd.2) ns ds.
Proof.
  induction 1 as [|n [n' c] ns cs [Hn Hc] _ (ds & Hds & IH)].
  - exists []. split; [done|constructor].
  - simpl in Hn, Hc. subst n'.
    destruct (parse_exported_contract _ _ _ _ Hc) as (d & Hd & Hr).
    exists ((n, d) :: ds). simpl. unfold ok in Hd. rewrite Hd, Hds.
    split; [done|]. by constructor.
Qed.

Lemma contracts_of_exported u cs :
  contracts_of (JObj [("compiler", compiler_record u); ("asts", asts u);
                      ("contracts", JObj cs)]) = cs.
Proof. reflexivity. Qed.

Lemma parse_exported_unit S u uj cv :
  compiler_version u = Some cv ->
  exported_unit S u uj ->
  exists ds,
    parse_unit uj = Some (cv, ds, asts u)
    /\ Forall2 (fun n nd => nd.1 = n /\ reimported S u n nd.2)
         (elements (contracts_names u)) ds.
Proof.
  intros Hcv (cs & -> & Hcs).
  destruct (parse_exported_contracts _ _ _ _ Hcs) as (ds & Hds & Hall).
  exists ds. split; [|done].
  unfold parse_unit, compiler_record. rewrite Hcv. destruct cv.
  change (rbind (Py.getitem _ "contracts") Py.items) with (ok cs).
  cbv beta iota delta [parse_compiler Py.getitem2 Py.getitem rbind ok].
  simpl. unfold ok. by rewrite Hds.
Qed.

Lemma Forall2_elem_r {A B} (R : A -> B -> Prop) l k y :
  Forall2 R l k -> y ∈ k -> exists x, x ∈ l /\ R x y.
Proof.
  induction 1 as [|x y' l k HR _ IH]; intros Hin.
  - by apply elem_of_nil in Hin.
  - apply elem_of_cons in Hin as [->|Hin].
    + exists x. split; [left|done].
    + destruct (IH Hin) as (x' & Hx' & HR'). exists x'. split; [by right|done].
Qed.

Lemma Forall2_elem_l {A B} (R : A -> B -> Prop) l k x :
  Forall2 R l k -> x ∈ l -> exists y, y ∈ k /\ R x y.
Proof.
  induction 1 as [|x' y l k HR _ IH]; intros Hin.
  - by apply elem_of_nil in Hin.
  - apply elem_of_cons in Hin as [->|Hin].
    + exists y. split; [left|done].
    + destruct (IH Hin) as (y' & Hy' & HR'). exists y'. split; [by right|done].
Qed.

Lemma reimported_keys S u ns ds :
  Forall2 (fun n (nd : string * ContractData) =>
             nd.1 = n /\ reimported S u n nd.2) ns ds ->
  ds.*1 = ns.
Proof.
  induction 1 as [|n [n' d] ns ds [Hn _] _ IH]; [done|].
  rewrite fmap_cons. simpl in *. by rewrite IH, Hn.
Qed.

(** Two units that agree on what a round trip is to keep. *)
Definition agree (u u' : CompilationUnit) : Prop :=
  compiler_version u' = compiler_version u
  /\ asts u' = asts u
  /\ contracts_names u' = contracts_names u
  /\ forall n, n ∈ contracts_names u ->
       Unit.abi u' n = Unit.abi u n
       /\ Unit.bytecode_init u' n = Unit.bytecode_init u n
       /\ Unit.bytecode_runtime u' n = Unit.bytecode_runtime u n
       /\ Unit.srcmap_init u' n = Unit.srcmap_init u n
       /\ Unit.srcmap_runtime u' n = Unit.srcmap_runtime u n
       /\ contracts_filenames u' !! n = contracts_filenames u !! n
       /\ natspec u' !! n = natspec u !! n.

Lemma imported_unit_agrees S u cv ds :
  compiler_version u = Some cv ->
  adapter_unit u ->
  Forall2 (fun n nd => nd.1 = n /\ reimported S u n nd.2)
    (elements (contracts_names u)) ds ->
  agree u (imported_unit cv ds (asts u)).
Proof.
  intros Hcv [_ Hwf] Hds. pose proof (reimported_keys _ _ _ _ Hds) as Hkeys.
  split; [by rewrite imported_unit_compiler_version|].
  split; [apply imported_unit_asts|].
  split.
  { rewrite imported_unit_names, Hkeys. apply list_to_set_elements_L. }
  intros n Hn.
  destruct (Forall2_elem_l _ _ _ n Hds) as ([n' d] & Hin & Hn' & Hr);
    [by apply elem_of_elements|].
  simpl in Hn', Hr. subst n'.
  assert (Hnd : NoDup ds.*1) by (rewrite Hkeys; apply NoDup_elements).
  destruct (imported_unit_holds cv ds (asts u) n d Hnd Hin)
    as (Hf & Ha & Hb & Hbr & Hs & Hsr & _ & Hdoc).
  destruct Hr as (Hf' & Ha' & Hb' & Hbr' & Hs' & Hsr' & Hdoc' & _).
  destruct (Hwf n Hn) as ((si & Hsi & Hri) & (sr & Hsr0 & Hrr) & _).
  unfold Unit.abi, Unit.bytecode_init, Unit.bytecode_runtime,
    Unit.srcmap_init, Unit.srcmap_runtime in *.
  rewrite Ha, Hb, Hbr, Hs, Hsr, Hf, Hdoc. simpl.
  rewrite Ha', Hb', Hbr', Hs', Hsr', Hf', Hdoc'.
  rewrite Hsi, Hsr0. simpl. rewrite Hri, Hrr. done.
Qed.

Lemma add_all_hashable xs : forall l,
  Forall (fun v => Py.hashable v = true) xs -> exists l', add_all xs l = ok l'.
Proof.
  induction xs as [|x xs IH]; intros l Hall; simpl; [by eexists|].
  apply Forall_cons in Hall as [Hx Hall]. unfold Py.set_add. rewrite Hx. simpl.
  by apply IH.
Qed.

Lemma add_views_all_hashable ds : forall l,
  (forall n d, (n, d) ∈ ds ->
     Forall (fun v => Py.hashable v = true) (views (d_filename d))) ->
  exists l', add_views_all ds l = ok l'.
Proof.
  induction ds as [|[n d] ds IH]; intros l Hall; simpl; [by eexists|].
  assert (Hd : exists l1, add_views d l = ok l1).
  { unfold add_views. destruct (Py.truthy (d_is_dependency d)); [|by eexists].
    apply add_all_hashable, (Hall n). left. }
  destruct Hd as (l1 & ->). simpl. apply IH. intros n' d' Hin.
  apply (Hall n'). by right.
Qed.

Lemma filename_hashable_views f :
  Forall (fun v => Py.hashable v = true) (views f) ->
  filename_hashable (FilenameObj f) = true.
Proof.
  unfold views. intros H.
  apply Forall_cons in H as [Ha H]. apply Forall_cons in H as [Hr H].
  apply Forall_cons in H as [Hs H]. apply Forall_cons in H as [Hu _].
  simpl. by rewrite Ha, Hu, Hr, Hs.
Qed.

(** The filenames of an imported unit are those of its contract
    entries. *)
Lemma populate_all_filenames ds : forall u n f,
  contracts_filenames (populate_all ds u) !! n = Some f ->
  (exists d, (n, d) ∈ ds /\ f = FilenameObj (d_filename d))
  \/ contracts_filenames u !! n = Some f.
Proof.
  induction ds as [|[n' d'] ds IH]; intros u n f; [by right|].
  rewrite populate_all_cons. intros H. apply IH in H as [(d & Hd & ->)|H].
  - left. exists d. split; [by right|done].
  - simpl in H. destruct (decide (n' = n)) as [->|Hne].
    + rewrite lookup_insert_eq in H. injection H as <-. left.
      exists d'. split; [left|done].
    + rewrite lookup_insert_ne in H by done. by right.
Qed.

Lemma imported_unit_filenames cv ds a n f :
  contracts_filenames (imported_unit cv ds a) !! n = Some f ->
  exists d, (n, d) ∈ ds /\ f = FilenameObj (d_filename d).
Proof.
  unfold imported_unit. simpl. intros H.
  apply populate_all_filenames in H as [H|H]; [done|].
  simpl in H. by rewrite lookup_empty in H.
Qed.

(** The import of the exported units registers, under each key, a unit
    that agrees with the exported one and holds hashable filenames. *)
Lemma load_exported_units S kus us :
  Forall2 (fun ku kv => kv.1 = ku.1 /\ exported_unit S ku.2 kv.2) kus us ->
  (forall k u, (k, u) ∈ kus -> adapter_unit u) ->
  NoDup kus.*1 ->
  forall s, exists s',
    load_units us s = Some s'
    /\ (forall k u, (k, u) ∈ kus ->
          exists u',
            compilation_units s' !! k = Some u' /\ agree u u'
            /\ forallb filename_hashable (unit_filenames u') = true)
    /\ (forall k, k ∉ kus.*1 ->
          compilation_units s' !! k = compilation_units s !! k).
Proof.
  induction 1 as [|[k u] [k' uj] kus us [Hk Hu] _ IH]; intros Hwf Hnd s.
  - exists s. split; [done|]. split; [|done]. intros k u Hin.
    by apply elem_of_nil in Hin.
  - simpl in Hk, Hu. subst k'. simpl in Hnd.
    apply NoDup_cons in Hnd as [Hk Hnd].
    assert (Hau : adapter_unit u) by (apply (Hwf k); left).
    destruct Hau as [[cv Hcv] Hcontracts].
    destruct (parse_exported_unit _ _ _ _ Hcv Hu) as (ds & Hp & Hds).
    destruct (add_views_all_hashable ds (dependencies s)) as (deps' & Hadd).
    { intros n d Hin.
      destruct (Forall2_elem_r _ _ _ _ Hds Hin) as (n' & Hn' & Heq & Hr).
      simpl in Heq, Hr. subst n'. apply elem_of_elements in Hn'.
      destruct (Hcontracts n Hn') as (_ & _ & Hviews). apply Hviews.
      by destruct Hr as (Hf & _). }
    destruct (IH (fun k0 u0 Hin => Hwf k0 u0 (list_elem_of_further _ _ _ Hin))
                Hnd
                (Session.set_dependencies deps'
                   (Session.set_units
                      (<[k:=imported_unit cv ds (asts u)]>
                         (compilation_units s)) s)))
      as (s' & Hload & Hin & Hout).
    exists s'. simpl. rewrite Hp. unfold ok in Hadd. rewrite Hadd.
    split; [exact Hload|]. split.
    + intros k0 u0 Hin0. apply elem_of_cons in Hin0 as [[= -> ->]|Hin0].
      * rewrite (Hout _ Hk). simpl. rewrite lookup_insert_eq. eexists.
        split; [done|]. split.
        -- eapply imported_unit_agrees; [done| |done].
           split; [by exists cv|done].
        -- apply unit_filenames_lookup. intros n f Hf.
           apply imported_unit_filenames in Hf as (d & Hd & ->).
           destruct (Forall2_elem_r _ _ _ _ Hds Hd) as (n' & Hn' & Heq & Hr).
           simpl in Heq, Hr. subst n'. apply elem_of_elements in Hn'.
           destruct (Hcontracts n Hn') as (_ & _ & Hviews).
           apply filename_hashable_views, Hviews. by destruct Hr as (Hf & _).
      * by apply Hin.
    + intros k0 Hk0. apply not_elem_of_cons in Hk0 as [Hne Hk0].
      rewrite (Hout _ Hk0). simpl. by rewrite lookup_insert_ne.
Qed.

(** The contract entries of an exported document are those of the
    contracts of the session's units. *)
Lemma units_contracts_exported S kus us :
  Forall2 (fun ku kv => kv.1 = ku.1 /\ exported_unit S ku.2 kv.2) kus us ->
  (forall n c, (n, c) ∈ units_contracts us ->
     exists k u, (k, u) ∈ kus /\ n ∈ contracts_names u
                 /\ exported_contract S u n c)
  /\ (forall k u n, (k, u) ∈ kus -> n ∈ contracts_names u ->
        exists c, (n, c) ∈ units_contracts us /\ exported_contract S u n c).
Proof.
  induction 1 as [|[k u] [k' uj] kus us [Hk (cs & Huj & Hcs)] _ [IH1 IH2]].
  - split.
    + intros n c Hin. by apply elem_of_nil in Hin.
    + intros k u n Hin. by apply elem_of_nil in Hin.
  - simpl in Huj, Hcs. subst uj.
    cbn [units_contracts snd]. rewrite contracts_of_exported.
    split.
    + intros n c Hin. apply elem_of_app in Hin as [Hin|Hin].
      * destruct (Forall2_elem_r _ _ _ _ Hcs Hin) as (n' & Hn' & Heq & Hc).
        simpl in Heq, Hc. subst n'. exists k, u.
        split; [left|]. split; [by apply elem_of_elements|done].
      * destruct (IH1 _ _ Hin) as (k0 & u0 & Hin0 & Hrest).
        exists k0, u0. split; [by right|done].
    + intros k0 u0 n Hin Hn. apply elem_of_cons in Hin as [[= -> ->]|Hin].
      * destruct (Forall2_elem_l _ _ _ n Hcs) as ([n' c] & Hin' & Heq & Hc);
          [by apply elem_of_elements|].
        simpl in Heq, Hc. subst n'. exists c.
        split; [apply elem_of_app; by left|done].
      * destruct (IH2 _ _ _ Hin Hn) as (c & Hc & Hrest). exists c.
        split; [apply elem_of_app; by right|done].
Qed.

(** ** Sessions of a Waffle run *)

(** What [Waffle.compile] leaves for a contract: a filename made of
    strings, source maps that are results of a [split], documentation and
    no library entry. *)
Definition waffle_contract (u : CompilationUnit) (n : string) : Prop :=
  (exists a us r sh,
      contracts_filenames u !! n
      = Some (FilenameObj {| absolute := JStr a; used := JStr us;
                             relative := JStr r; short := JStr sh |}))
  /\ (exists m, srcmaps_init u !! n = Some (Py.split_on ";" m))
  /\ (exists m, srcmaps_runtime u !! n = Some (Py.split_on ";" m))
  /\ is_Some (natspec u !! n).

Definition waffle_unit (u : CompilationUnit) : Prop :=
  libraries u = ∅ /\ forall n, n ∈ contracts_names u -> waffle_contract u n.

Lemma convert_filename_str used_filename rs wd f :
  Naming.convert_filename used_filename rs wd = ok f ->
  exists a r sh,
    f = {| absolute := JStr a; used := JStr used_filename;
           relative := JStr r; short := JStr sh |}.
Proof.
  unfold Naming.convert_filename.
  destruct (Pathlib.relative_to _ _) as [|rel]; [discriminate|].
  destruct (rs rel) as [|sh]; [discriminate|]. simpl. intros [= <-].
  by eexists _, _, _.
Qed.

Lemma asts_setitem_inv key k v s u0 r s' :
  compilation_units s !! key = Some u0 ->
  asts_setitem key k v s = (inr r, s') ->
  exists a,
    s' = Session.set_units
           (<[key:=Unit.set_asts a u0]> (compilation_units s)) s.
Proof.
  unfold asts_setitem. intros ->.
  destruct (Py.setitem (asts u0) k v) as [|a]; [discriminate|].
  intros [= _ <-]. by exists a.
Qed.

Lemma split_result (x : result json) l :
  rbind x (fun m => Py.split m ";") = inr l ->
  exists m, l = Py.split_on ";" m.
Proof.
  destruct x as [|[| | |m| |]]; try discriminate. simpl. intros [= <-].
  by exists m.
Qed.

Lemma compile_contract_waffle key target target_all contract m0 s r s' :
  (exists u, compilation_units s = <[key:=u]> m0 /\ waffle_unit u) ->
  Waffle.compile_contract key target target_all contract s = (inr r, s') ->
  exists u', compilation_units s' = <[key:=u']> m0 /\ waffle_unit u'.
Proof.
  intros (u & Hu & Hlib & Hwu) H. unfold Waffle.compile_contract in H.
  inv_ok H. apply modify_ok_inv in H. subst s'.
  match goal with
  | Ha : asts_setitem _ _ _ _ = _ |- _ =>
      apply (asts_setitem_inv _ _ _ _ u) in Ha as (a' & ->);
        [|by rewrite Hu, lookup_insert_eq]
  end.
  match goal with
  | Hf : Naming.convert_filename _ _ _ = _ |- _ =>
      apply convert_filename_str in Hf as (fa & fr & fs & ->)
  end.
  repeat match goal with
  | Hs : rbind _ (fun m => Py.split m ";") = inr _ |- _ =>
      apply split_result in Hs as (? & ->)
  end.
  norm_session. rewrite Hu, insert_insert_eq, !alter_insert_eq.
  eexists. split; [reflexivity|]. split; [exact Hlib|].
  intros n Hn. simpl in Hn. unfold waffle_contract. simpl.
  match goal with
  | |- context [<[?c:=FilenameObj _]> _] =>
      destruct (decide (n = c)) as [->|Hne]
  end.
  - rewrite !lookup_insert_eq. eauto 10.
  - rewrite !lookup_insert_ne by done. apply Hwu. set_solver.
Qed.

Lemma compile_waffle target compiler version target_all s r S :
  Waffle.compile target compiler version target_all s = (inr r, S) ->
  exists u,
    compilation_units S = <[target:=u]> (compilation_units s)
    /\ waffle_unit u
    /\ is_Some (compiler_version u).
Proof.
  unfold Waffle.compile. intros H.
  rewrite bind_new_unit in H. inv_ok H. apply modify_ok_inv in H. subst S.
  match goal with
  | Hl : for_each _ _ _ = _ |- _ =>
      apply (for_each_ok_ind
               (fun s1 => exists u,
                    compilation_units s1
                    = <[target:=u]> (compilation_units s)
                    /\ waffle_unit u)) in Hl as (u & Hu & Hlib & Hwu)
  end.
  - norm_session. rewrite Hu, alter_insert_eq. eexists.
    split; [reflexivity|]. split; [by split|]. simpl. by eexists.
  - exists empty_unit. split; [done|]. split; [done|].
    intros n Hn. simpl in Hn. set_solver.
  - intros x s1 s2 u' _ HI Hx. by eapply compile_contract_waffle.
Qed.

Lemma waffle_unit_adapter u :
  waffle_unit u -> is_Some (compiler_version u) -> adapter_unit u.
Proof.
  intros [_ Hwu] Hcv. split; [done|]. intros n Hn.
  destruct (Hwu n Hn)
    as ((a & us & r & sh & Hf) & (m & Hm) & (m' & Hm') & _).
  split; [eexists; split; [exact Hm|apply split_reassembles]|].
  split; [eexists; split; [exact Hm'|apply split_reassembles]|].
  intros f Hf'. rewrite Hf in Hf'. injection Hf' as <-.
  unfold views. simpl. by repeat constructor.
Qed.

(** The session of a Waffle run that returns, started with no unit, is
    one the round trip applies to. *)
Lemma Waffle_session_adapter target compiler version target_all s r S :
  compilation_units s = ∅ ->
  Waffle.compile target compiler version target_all s = (inr r, S) ->
  adapter_session S.
Proof.
  intros Hempty H.
  apply compile_waffle in H as (u & Hu & Hwu & Hcv).
  intros k u' Hk. rewrite Hu, Hempty in Hk.
  apply lookup_insert_Some in Hk as [[_ <-]|[_ Hk]].
  - by apply waffle_unit_adapter.
  - by rewrite lookup_empty in Hk.
Qed.

(** ** When the export returns *)

(** A contract the export can write: its filename is a [Filename] with a
    string for [absolute], it has documentation, and its libraries are
    absent, or something [dict] accepts. *)
Definition exportable_contract (u : CompilationUnit) (n : string) : Prop :=
  (exists f a, contracts_filenames u !! n = Some (FilenameObj f)
               /\ absolute f = JStr a)
  /\ is_Some (natspec u !! n)
  /\ exists libs,
       (if Py.truthy (Unit.libraries_names_and_patterns u n)
        then Py.dict (Unit.libraries_names_and_patterns u n)
        else ok (JObj [])) = ok libs.

Definition exportable (S : CryticCompile) : Prop :=
  forall k u, compilation_units S !! k = Some u ->
    forall n, n ∈ contracts_names u -> exportable_contract u n.

Lemma is_dependency_returns a s :
  exists b s', CryticCompile_is_dependency (JStr a) s = (inr b, s').
Proof.
  unfold CryticCompile_is_dependency, bind, gets. simpl.
  destruct (Py.set_in (JStr a) (dependencies s)); [by eexists _, _|].
  unfold platform_is_dependency.
  destruct (platform s) as [cache|cache|cls ut].
  - destruct (Dapp.is_dependency cache a). by eexists _, _.
  - destruct (Waffle.is_dependency cache a). by eexists _, _.
  - by eexists _, _.
Qed.

Lemma export_contract_returns u n s :
  exportable_contract u n ->
  exists c s', Standard.export_contract u n s = (inr c, s').
Proof.
  intros ((f & a & Hf & Ha) & [doc Hdoc] & libs & Hlibs).
  unfold Standard.export_contract, Unit.filename_of_contract.
  rewrite Hf. rewrite (bind_lift_ok (ok (FilenameObj f)) _ s _ eq_refl).
  erewrite bind_lift_ok by exact Hlibs.
  rewrite Ha. destruct (is_dependency_returns a s) as (b & s' & Hb).
  erewrite bind_ok_intro by exact Hb.
  rewrite Hdoc. by eexists _, _.
Qed.

Lemma for_fold_returns {A B} (l : list A) (body : B -> A -> M B) :
  (forall x, x ∈ l ->
     forall acc s, exists acc' s', body acc x s = (inr acc', s')) ->
  forall acc s, exists acc' s', for_fold l acc body s = (inr acc', s').
Proof.
  induction l as [|x l IH]; intros Hbody acc s; simpl.
  - by eexists _, _.
  - destruct (Hbody x ltac:(left) acc s) as (acc1 & s1 & Hx).
    erewrite bind_ok_intro by exact Hx. apply IH.
    intros y Hy. apply Hbody. by right.
Qed.

Lemma export_unit_returns u s :
  (forall n, n ∈ contracts_names u -> exportable_contract u n) ->
  exists uj s', Standard.export_unit u s = (inr uj, s').
Proof.
  intros Hu. unfold Standard.export_unit.
  destruct (for_fold_returns (elements (contracts_names u))
              (fun contracts contract_name =>
                 bind (Standard.export_contract u contract_name)
                   (fun c => ret (Py.dict_set contract_name c contracts))))
    with (acc := @nil (string * json)) (s := s) as (cs & s' & Hcs).
  - intros n Hn acc s1. apply elem_of_elements in Hn.
    destruct (export_contract_returns u n s1 (Hu n Hn)) as (c & s2 & Hc).
    erewrite bind_ok_intro by exact Hc. by eexists _, _.
  - erewrite bind_ok_intro by exact Hcs. by eexists _, _.
Qed.

Lemma generate_standard_export_returns T py_str S :
  exportable S ->
  exists doc S', Standard.generate_standard_export T py_str S = (inr doc, S').
Proof.
  intros HS. unfold Standard.generate_standard_export.
  destruct (for_fold_returns (map_to_list (compilation_units S))
              (fun compilation_units '(key, compilation_unit) =>
                 bind (Standard.export_unit compilation_unit)
                   (fun u => ret (Py.dict_set key u compilation_units))))
    with (acc := @nil (string * json)) (s := S) as (us & s' & Hus).
  - intros [k u] Hku acc s1. apply elem_of_map_to_list in Hku.
    destruct (export_unit_returns u s1 (HS k u Hku)) as (uj & s2 & Huj).
    erewrite bind_ok_intro by exact Huj. by eexists _, _.
  - rewrite bind_gets. erewrite bind_ok_intro by exact Hus.
    by eexists _, _.
Qed.

(** The export of the session of a Waffle run that returns, started with
    no unit, returns. *)
Lemma Waffle_session_exportable target compiler version target_all s r S :
  compilation_units s = ∅ ->
  Waffle.compile target compiler version target_all s = (inr r, S) ->
  exportable S.
Proof.
  intros Hempty H.
  apply compile_waffle in H as (u & Hu & [Hlib Hwu] & Hcv).
  intros k u' Hk n Hn. rewrite Hu, Hempty in Hk.
  apply lookup_insert_Some in Hk as [[_ <-]|[_ Hk]];
    [|by rewrite lookup_empty in Hk].
  destruct (Hwu n Hn) as ((a & us & r' & sh & Hf) & _ & _ & Hdoc).
  split; [by eexists _, _|]. split; [done|].
  unfold Unit.libraries_names_and_patterns. rewrite Hlib, lookup_empty.
  by eexists.
Qed.

(** ** Export, then import *)

Module WaffleExample.

(** The build output of a Waffle project in [/p] with one contract of
    its own and one under [node_modules]. *)
Definition info (bin : string) (srcmap : string) : json :=
  JObj [("abi", JArr []);
        ("evm",
         JObj [("bytecode",
                JObj [("object", JStr bin); ("sourceMap", JStr srcmap)]);
               ("deployedBytecode",
                JObj [("object", JStr bin); ("sourceMap", JStr srcmap)])])].

Definition target_all : json :=
  JObj [("contracts",
         JObj [("contracts/Token.sol:Token", info "6080" "0:9:0;;4:2:0");
               ("node_modules/x/Y.sol:Y", info "60" "")]);
        ("sources",
         JObj [("contracts/Token.sol", JObj [("AST", JObj [])]);
               ("node_modules/x/Y.sol", JObj [("AST", JObj [])])])].

Definition run : result unit * CryticCompile :=
  Waffle.compile "/p" (JStr "native") (JStr "0.8.0") target_all
    (new_session (WaffleInstance ∅)).

Definition session : CryticCompile := run.2.

Definition py_str (j : json) : string :=
  match j with
  | JStr s => s
  | _ => "None"
  end.

(** The document exported from [session], and the session a Standard
    platform builds from it. *)
Definition document : json :=
  match (Standard.generate_standard_export RegistryExample.types py_str
           session).1 with
  | inr doc => doc
  | inl _ => JNull
  end.

Definition reloaded : CryticCompile :=
  (Standard.compile RegistryExample.types RegistryExample.platforms document
     (new_session (StandardInstance
                     (Standard.Standard_class RegistryExample.types)
                     (JArr [])))).2.

End WaffleExample.

(** C1 (as the code has it). Take a session in which every unit has a
    compiler version and, for each contract, source maps that [split]
    gives back after [join] and hashable filename values. Its export
    returns when every contract has a [Filename] with a string for
    [absolute], documentation, and libraries that are absent or a
    mapping. Whenever the export returns a document, the import of the
    document into a new session returns the platform type and the test
    commands of the session, and builds a session with the same unit keys
    in which every unit agrees with the exported one on the compiler
    version, the ASTs, the contract names and, for each contract, the
    ABI, both bytecodes, both source maps, the filename and the
    documentation. The dependency set is not carried over: the set of the
    new session is made of the four filename values of contracts of the
    exported session, and on a platform with stable answers these are the
    contracts whose absolute filename the exported session answers to be
    a dependency. *)
Theorem export_import_round_trip
  (T : PlatformTypes) (py_str : json -> string)
  (S : CryticCompile) (p : Platform) :
  adapter_session S ->
  (exportable S ->
   exists doc S_exp,
     Standard.generate_standard_export T py_str S = (inr doc, S_exp))
  /\ forall doc S_exp,
  Standard.generate_standard_export T py_str S = (inr doc, S_exp) ->
  exists S',
    Standard.load_from_compile doc (new_session p)
    = (inr (JNum (Standard.platform_type_used T (platform S)),
            Standard.guessed_tests (platform S)), S')
    /\ (forall k, is_Some (compilation_units S' !! k)
                  <-> is_Some (compilation_units S !! k))
    /\ (forall k u, compilation_units S !! k = Some u ->
          exists u', compilation_units S' !! k = Some u' /\ agree u u')
    /\ (forall x, x ∈ dependencies S' ->
          exists k u n f,
            compilation_units S !! k = Some u
            /\ n ∈ contracts_names u
            /\ contracts_filenames u !! n = Some (FilenameObj f)
            /\ x ∈ views f
            /\ (stable (platform S) ->
                known_dependency S (absolute f) = true))
    /\ (stable (platform S) ->
        forall k u n f,
          compilation_units S !! k = Some u ->
          n ∈ contracts_names u ->
          contracts_filenames u !! n = Some (FilenameObj f) ->
          known_dependency S (absolute f) = true ->
          forall x, x ∈ views f -> Py.set_in x (dependencies S') = true).
Proof.
  intros Hwf. split; [apply generate_standard_export_returns|].
  intros doc S_exp Hexp.
  apply generate_standard_export_inv in Hexp as (us & -> & Hus).
  destruct (load_exported_units S _ _ Hus) with
    (s := Session.set_package_name (package S) (new_session p))
    as (s1 & Hload & Hin & Hout).
  { intros k u Hku. apply elem_of_map_to_list in Hku. by apply (Hwf k). }
  { apply NoDup_fst_map_to_list. }
  match goal with
  | |- exists S', Standard.load_from_compile ?d _ = _ /\ _ => set (doc := d)
  end.
  assert (Hrun :
    Standard.load_from_compile doc (new_session p)
    = (inr (JNum (Standard.platform_type_used T (platform S)),
            Standard.guessed_tests (platform S)),
       finish_import (JStr (py_str (working_dir S))) s1)).
  { apply load_from_compile_ok.
    exists (package S), true, s1, (JStr (py_str (working_dir S))),
      (JNum (Standard.platform_type_used T (platform S))),
      (Standard.guessed_tests (platform S)).
    split; [reflexivity|]. split; [reflexivity|].
    split; [exists us; split; [reflexivity|exact Hload]|].
    split.
    { apply filenames_hashable_lookup. intros k u' Hk.
      destruct (decide (k ∈ (map_to_list (compilation_units S)).*1))
        as [Hin'|Hnot].
      - apply list_elem_of_fmap in Hin' as ([k0 u] & -> & Hku).
        destruct (Hin _ _ Hku) as (u'' & Hu'' & _ & Hhash). simpl in Hk.
        rewrite Hk in Hu''. by injection Hu'' as <-.
      - rewrite (Hout _ Hnot) in Hk. simpl in Hk.
        by rewrite lookup_empty in Hk. }
    repeat (split; [reflexivity|]). reflexivity. }
  exists (finish_import (JStr (py_str (working_dir S))) s1).
  split; [exact Hrun|].
  change (compilation_units (finish_import (JStr (py_str (working_dir S))) s1))
    with (compilation_units s1).
  split.
  { intros k. destruct (compilation_units S !! k) as [u|] eqn:Hk.
    - destruct (Hin k u) as (u' & Hu' & _); [by apply elem_of_map_to_list|].
      rewrite Hu'. split; eauto.
    - rewrite Hout.
      + simpl. rewrite lookup_empty. done.
      + intros Hk'. apply list_elem_of_fmap in Hk' as ([k0 u0] & -> & Hin0).
        apply elem_of_map_to_list in Hin0. simpl in Hk. congruence. }
  split.
  { intros k u Hk.
    destruct (Hin k u) as (u' & Hu' & Hagree & _);
      [by apply elem_of_map_to_list|].
    by exists u'. }
  destruct (import_dependencies _ _ _ _ Hrun) as (ds & Hds & Hadd).
  apply add_views_all_ok in Hadd as (Hadd_in & _ & Hacc & _ & _).
  assert (Hdc : document_contracts doc = units_contracts us) by reflexivity.
  destruct (units_contracts_exported _ _ _ Hus) as [Hc1 Hc2].
  split.
  - intros x Hx.
    destruct (Hacc x Hx) as [Hnil|(n & d & Hnd & Ht & Hv)];
      [by apply elem_of_nil in Hnil|].
    destruct (parse_all_elem_inv _ _ _ _ Hds Hnd) as (c & Hd & Hc).
    rewrite Hdc in Hc. destruct (Hc1 _ _ Hc) as (k & u & Hku & Hn & Hec).
    destruct (parse_exported_contract _ _ _ _ Hec) as (d' & Hd' & Hr).
    rewrite Hd in Hd'. injection Hd' as <-.
    destruct Hr as (Hf & _ & _ & _ & _ & _ & _ & b & Hb & Hst).
    exists k, u, n, (d_filename d). apply elem_of_map_to_list in Hku.
    repeat (split; [done|]). intros HS. rewrite <- (Hst HS).
    rewrite Hb in Ht. exact Ht.
  - intros HS k u n f Hk Hn Hf Hknown x Hx.
    destruct (Hc2 k u n) as (c & Hc & Hec);
      [by apply elem_of_map_to_list|done|].
    rewrite <- Hdc in Hc.
    destruct (parse_all_elem _ _ _ _ Hds Hc) as (d & Hd & Hnd).
    destruct (parse_exported_contract _ _ _ _ Hec) as (d' & Hd' & Hr).
    rewrite Hd in Hd'. injection Hd' as <-.
    destruct Hr as (Hf' & _ & _ & _ & _ & _ & _ & b & Hb & Hst).
    rewrite Hf in Hf'. injection Hf' as Hf'. subst f.
    apply (Hadd_in n d Hnd); [|done].
    rewrite Hb. simpl. rewrite (Hst HS). exact Hknown.
Qed.

Lemma export_import_round_trip_witness :
  (exists doc S_exp,
      Standard.generate_standard_export RegistryExample.types
        WaffleExample.py_str WaffleExample.session = (inr doc, S_exp))
  /\ exists S',
    Standard.load_from_compile WaffleExample.document
      (new_session (StandardInstance
                      (Standard.Standard_class RegistryExample.types)
                      (JArr [])))
    = (inr (JNum 8, JArr [JStr "npx mocha"]), S')
    /\ (exists u',
          compilation_units S' !! "/p" = Some u'
          /\ Unit.srcmap_init u' "Token" = ["0:9:0"; ""; "4:2:0"]
          /\ Unit.srcmap_init u' "Y" = [""]
          /\ Unit.bytecode_init u' "Token" = JStr "6080")
    /\ Py.set_in (JStr "x/Y.sol") (dependencies S') = true.
Proof.
  pose (U := default empty_unit
               (compilation_units WaffleExample.session !! "/p")).
  assert (Hrun : Waffle.compile "/p" (JStr "native") (JStr "0.8.0")
                   WaffleExample.target_all (new_session (WaffleInstance ∅))
                 = (inr tt, WaffleExample.session))
    by (vm_compute; reflexivity).
  assert (HU : compilation_units WaffleExample.session !! "/p" = Some U)
    by (vm_compute; reflexivity).
  assert (Hp : platform WaffleExample.session = WaffleInstance ∅)
    by (vm_compute; reflexivity).
  assert (HS : stable (platform WaffleExample.session)).
  { rewrite Hp. intros path b Hb. rewrite lookup_empty in Hb. discriminate. }
  assert (HT : "Token" ∈ contracts_names U)
    by (apply elem_of_elements; vm_compute; right; left).
  assert (HY : "Y" ∈ contracts_names U)
    by (apply elem_of_elements; vm_compute; left).
  destruct (export_import_round_trip RegistryExample.types
              WaffleExample.py_str WaffleExample.session
              (StandardInstance
                 (Standard.Standard_class RegistryExample.types) (JArr []))
              (Waffle_session_adapter "/p" (JStr "native") (JStr "0.8.0")
                 WaffleExample.target_all (new_session (WaffleInstance ∅))
                 tt WaffleExample.session eq_refl Hrun))
    as [Hret Hrt].
  split.
  { apply Hret.
    exact (Waffle_session_exportable "/p" (JStr "native") (JStr "0.8.0")
             WaffleExample.target_all (new_session (WaffleInstance ∅))
             tt WaffleExample.session eq_refl Hrun). }
  destruct (Hrt WaffleExample.document
              (Standard.generate_standard_export RegistryExample.types
                 WaffleExample.py_str WaffleExample.session).2
              ltac:(vm_compute; reflexivity))
    as (S' & Himp & _ & Hunits & _ & Hdeps).
  exists S'. split; [exact Himp|]. split.
  - destruct (Hunits "/p" U HU) as (u' & Hu' & _ & _ & _ & Hc).
    exists u'. split; [exact Hu'|].
    destruct (Hc "Token" HT) as (_ & Hb & _ & Hs & _).
    destruct (Hc "Y" HY) as (_ & _ & _ & Hs' & _).
    rewrite Hs, Hs', Hb.
    split; [vm_compute; reflexivity|]. split; vm_compute; reflexivity.
  - apply (Hdeps HS "/p" U "Y"
             {| absolute := JStr "/p/node_modules/x/Y.sol";
                used := JStr "node_modules/x/Y.sol";
                relative := JStr "node_modules/x/Y.sol";
                short := JStr "x/Y.sol" |} HU HY).
    + vm_compute. reflexivity.
    + vm_compute. reflexivity.
    + unfold views. simpl. right. right. left.
Defined.

(** C1, refuted as stated: the session a Waffle run builds for a project
    with a contract under [node_modules] has an empty dependency set and
    answers that [x/Y.sol] is not a dependency; the session re-loaded
    from its export holds three of the contract's filename values in its
    dependency set and answers that [x/Y.sol] is one. *)
Lemma round_trip_changes_dependency_set :
  WaffleExample.run.1 = inr tt
  /\ (Standard.generate_standard_export RegistryExample.types
        WaffleExample.py_str WaffleExample.session).1
     = inr WaffleExample.document
  /\ dependencies WaffleExample.session = []
  /\ dependencies WaffleExample.reloaded
     = [JStr "/p/node_modules/x/Y.sol"; JStr "node_modules/x/Y.sol";
        JStr "x/Y.sol"]
  /\ (CryticCompile_is_dependency (JStr "x/Y.sol") WaffleExample.session).1
     = inr false
  /\ (CryticCompile_is_dependency (JStr "x/Y.sol") WaffleExample.reloaded).1
     = inr true.
Proof.
  split; [vm_compute; reflexivity|]. split; [vm_compute; reflexivity|].
  split; [vm_compute; reflexivity|]. split; [vm_compute; reflexivity|].
  split; vm_compute; reflexivity.
Qed.

(** The Dapp adapter stores the raw path string as a contract's filename,
    where the export reads the [absolute] attribute of a [Filename]: the
    export of the session of a Dapp run with a contract raises. *)
Example Dapp_session_export_raises :
  DappExample.run.1 = inr tt
  /\ (Standard.generate_standard_export RegistryExample.types
        WaffleExample.py_str DappExample.run.2).1
     = inl AttributeError.
Proof. split; vm_compute; reflexivity. Qed.

(** * Further properties of the code *)

(** ** The export only reads the session *)

Lemma is_dependency_only_cache x s :
  only_cache s (CryticCompile_is_dependency x s).2.
Proof.
  unfold CryticCompile_is_dependency. rewrite bind_gets.
  destruct (Py.hashable x); [|apply only_cache_refl].
  destruct (Py.set_in x (dependencies s)); [apply only_cache_refl|].
  unfold platform_is_dependency.
  destruct (platform s) as [cache|cache|cls ut] eqn:Hp.
  - destruct x as [| | |path| |]; try apply only_cache_refl.
    destruct (Dapp.is_dependency cache path) as [r cache'].
    split; [done|]. simpl. by rewrite Hp.
  - destruct x as [| | |path| |]; try apply only_cache_refl.
    destruct (Waffle.is_dependency cache path) as [r cache'].
    split; [done|]. simpl. by rewrite Hp.
  - apply only_cache_refl.
Qed.

Lemma preserves_is_dependency S x :
  preserves (only_cache S) (CryticCompile_is_dependency x).
Proof.
  intros s r s' HP H. eapply only_cache_trans; [exact HP|].
  pose proof (is_dependency_only_cache x s) as Hc. by rewrite H in Hc.
Qed.

Lemma preserves_generate_standard_export T py_str S :
  preserves (only_cache S) (Standard.generate_standard_export T py_str).
Proof.
  unfold Standard.generate_standard_export.
  apply preserves_bind; [apply preserves_gets|]. intros units.
  apply preserves_bind.
  - apply preserves_for_fold. intros acc [k u] _.
    apply preserves_bind; [|intros ?; apply preserves_ret].
    unfold Standard.export_unit.
    apply preserves_bind; [|intros ?; apply preserves_ret].
    apply preserves_for_fold. intros acc' n _.
    apply preserves_bind; [|intros ?; apply preserves_ret].
    unfold Standard.export_contract.
    apply preserves_bind; [apply preserves_lift|]. intros [f|p];
      [|apply preserves_raise].
    apply preserves_bind; [apply preserves_lift|]. intros libs.
    apply preserves_bind; [apply preserves_is_dependency|]. intros b.
    apply preserves_bind; [apply preserves_lift|]. intros doc.
    apply preserves_ret.
  - intros us. apply preserves_bind; [apply preserves_gets|].
    intros s. apply preserves_ret.
Qed.

(** X1. Whether it returns or raises, [generate_standard_export] leaves
    the session as it found it, except for the answers the platform
    instance of an adapter caches: the units, the filenames, the
    dependency set, the package, the working directory and the class of
    the platform are the same, and a session with a [Standard] platform
    is not changed at all. *)
Theorem generate_standard_export_read_only
  (T : PlatformTypes) (py_str : json -> string) (S : CryticCompile) :
  let S' := (Standard.generate_standard_export T py_str S).2 in
  compilation_units S' = compilation_units S
  /\ filenames S' = filenames S
  /\ dependencies S' = dependencies S
  /\ package S' = package S
  /\ package_name S' = package_name S
  /\ working_dir S' = working_dir S
  /\ same_class (platform S) (platform S')
  /\ (forall cls ut, platform S = StandardInstance cls ut -> S' = S).
Proof.
  intros S'.
  assert (H : only_cache S S').
  { eapply (preserves_generate_standard_export T py_str S);
      [apply only_cache_refl|]. unfold S'. apply surjective_pairing. }
  destruct H as [HS Hc]. rewrite HS. simpl. repeat (split; [done|]).
  intros cls ut Hp. rewrite Hp in Hc. rewrite <- HS.
  rewrite HS. destruct (platform S') as [| |cls' ut']; simpl in Hc; try done.
  destruct Hc as [<- <-]. rewrite <- Hp. by destruct S.
Qed.

(** ** The cache of the Waffle platform *)

(** X2. [Waffle.is_dependency] is idempotent: a second call on the same
    path returns the answer of the first and leaves the cache as the
    first call left it. *)
Theorem Waffle_is_dependency_idempotent
  (cache : gmap string bool) (path : string) :
  Waffle.is_dependency (Waffle.is_dependency cache path).2 path
  = Waffle.is_dependency cache path.
Proof.
  unfold Waffle.is_dependency.
  destruct (cache !! path) as [cached|] eqn:Hc; simpl.
  - by rewrite Hc.
  - by rewrite lookup_insert_eq.
Qed.

(** ** What the outcome of an import depends on *)

(** A computation whose outcome, a value or an exception, is the same
    from every session. *)
Definition state_blind {A} (m : M A) : Prop :=
  forall s t, (m s).1 = (m t).1.

Lemma state_blind_lift {A} (r : result A) : state_blind (lift r).
Proof. done. Qed.

Lemma state_blind_ret {A} (a : A) : state_blind (ret a).
Proof. done. Qed.

Lemma state_blind_modify f : state_blind (modify f).
Proof. done. Qed.

Lemma state_blind_bind {A B} (m : M A) (k : A -> M B) :
  state_blind m -> (forall a, state_blind (k a)) -> state_blind (bind m k).
Proof.
  intros Hm Hk s t. unfold bind. specialize (Hm s t).
  destruct (m s) as [[e|a] s1], (m t) as [[e'|a'] t1]; simpl in *;
    try discriminate.
  - by injection Hm as <-.
  - injection Hm as <-. apply Hk.
Qed.

Lemma state_blind_for_each {A} (l : list A) (body : A -> M unit) :
  (forall x, state_blind (body x)) -> state_blind (for_each l body).
Proof.
  intros Hb. induction l as [|x l IH]; simpl; [done|].
  apply state_blind_bind; [apply Hb|]. by intros _.
Qed.

Lemma state_blind_dependencies_add x : state_blind (dependencies_add x).
Proof.
  intros s t. unfold dependencies_add, Py.set_add.
  by destruct (Py.hashable x).
Qed.

Ltac solve_state_blind :=
  repeat first
    [ apply state_blind_bind; [|intros ?]
    | apply state_blind_lift
    | apply state_blind_ret
    | apply state_blind_modify
    | apply state_blind_dependencies_add
    | apply state_blind_for_each; intros ?
    | match goal with
      | |- state_blind (let '(_, _) := ?x in _) => destruct x
      | |- state_blind (if ?b then _ else _) => destruct b
      end ].

(** The statements that load the payload end the same way from every
    session. *)
Lemma state_blind_payload doc has : state_blind (load_payload doc has).
Proof.
  unfold load_payload, Standard._load_from_compile_legacy,
    Standard.load_unit, new_CompilationUnit, on_unit.
  solve_state_blind.
Qed.

(** The units the payload of a document writes, when it loads. *)
Lemma payload_writes doc has s s1 :
  load_payload doc has s = (inr tt, s1) ->
  exists ws,
    (forall t t1, load_payload doc has t = (inr tt, t1) ->
       compilation_units t1 = write_units (compilation_units t) ws)
    /\ ws.*1 ⊆ (if has then (units_of doc).*1 else ["legacy"]).
Proof.
  unfold load_payload. destruct has; simpl.
  - intros H. apply bind_ok_inv in H as (us & s0 & Hus & H).
    apply lift_ok_inv in Hus as [Hus ->].
    exists (unit_writes us). split.
    + intros t t1 Ht. erewrite bind_lift_ok in Ht by exact Hus.
      apply units_loop_ok, load_units_fields in Ht. by destruct Ht.
    + unfold units_of. rewrite Hus. intros k Hk. by apply unit_writes_keys.
  - intros H. apply legacy_ok in H
      as (a & cv & cs & ds & deps' & Ha & Hcv & Hcs & Hds & _ & _).
    exists [("legacy", imported_unit cv ds a)]. split; [|done].
    intros t t1 Ht. apply legacy_ok in Ht
      as (a' & cv' & cs' & ds' & deps'' & Ha' & Hcv' & Hcs' & Hds' & _ & ->).
    unfold ok in *. rewrite Ha in Ha'. rewrite Hcv in Hcv'.
    rewrite Hcs in Hcs'. injection Ha' as <-. injection Hcv' as <-.
    injection Hcs' as <-. rewrite Hds in Hds'. by injection Hds' as <-.
Qed.

Lemma last_write_None ws k : k ∉ ws.*1 -> last_write ws k = None.
Proof.
  intros Hk. destruct (last_write ws k) as [u|] eqn:Hl; [|done].
  destruct Hk. by eapply last_write_Some_key.
Qed.

(** Writing the same units over two sets of units with hashable
    filenames gives two sets that hold an unhashable filename together
    or not at all. *)
Lemma hashable_write_units ws s t s1 t1 :
  filenames_hashable s -> filenames_hashable t ->
  compilation_units s1 = write_units (compilation_units s) ws ->
  compilation_units t1 = write_units (compilation_units t) ws ->
  forallb filename_hashable (Standard.all_contract_filenames s1)
  = forallb filename_hashable (Standard.all_contract_filenames t1).
Proof.
  intros Hs Ht Hs1 Ht1. apply Bool.eq_iff_eq_true.
  fold (filenames_hashable s1). fold (filenames_hashable t1).
  rewrite filenames_hashable_lookup in Hs, Ht.
  rewrite !filenames_hashable_lookup, Hs1, Ht1.
  split; intros H k u; rewrite lookup_write_units;
    specialize (H k); rewrite lookup_write_units in H;
    destruct (last_write ws k) as [w|]; simpl in *; try apply H.
  - apply Ht.
  - apply Hs.
Qed.

(** X3. From two sessions in which every [Filename] the units hold is
    hashable (a new session, a session an adapter or a returning import
    has built), an import ends with the same outcome, the same value or
    the same exception, whatever else the sessions hold; the same is
    true of [Standard.compile]. The outcome does depend on the session
    otherwise: the last statements of the import hash the filenames of
    every unit of the session, so a session that holds an unhashable
    [Filename] in a unit the document does not write makes every import
    raise. *)
Theorem import_outcome_depends_on_document_only
  (T : PlatformTypes) (platforms : list PlatformClass)
  (loaded_json : json) (s t : CryticCompile) :
  filenames_hashable s ->
  ((filenames_hashable t ->
    (Standard.load_from_compile loaded_json s).1
    = (Standard.load_from_compile loaded_json t).1
    /\ (Standard.compile T platforms loaded_json s).1
       = (Standard.compile T platforms loaded_json t).1)
   /\ (forall k u,
         compilation_units t !! k = Some u ->
         forallb filename_hashable (unit_filenames u) = false ->
         k ∉ (document_units loaded_json).*1 ->
         exists e, (Standard.load_from_compile loaded_json t).1 = inl e)).
Proof.
  intros Hs. split.
  - intros Ht.
    assert (Hload : (Standard.load_from_compile loaded_json s).1
                    = (Standard.load_from_compile loaded_json t).1).
    { rewrite !load_from_compile_unfold.
      destruct (Py.get loaded_json "package" JNull) as [e|pkg]; [done|].
      erewrite !bind_lift_ok by reflexivity. rewrite !bind_modify.
      destruct (Py.contains "compilation_units" loaded_json) as [e|has];
        [done|].
      erewrite !bind_lift_ok by reflexivity.
      set (sa := Session.set_package_name pkg s).
      set (ta := Session.set_package_name pkg t).
      pose proof (state_blind_payload loaded_json has sa ta) as Hp.
      unfold bind.
      destruct (load_payload loaded_json has sa) as [[e1|[]] sb] eqn:Hsa;
        destruct (load_payload loaded_json has ta) as [[e2|[]] tb] eqn:Hta;
        simpl in Hp; try discriminate; [by injection Hp as ->|].
      rewrite !import_tail_outcome.
      destruct (payload_writes _ _ _ _ Hsa) as (ws & Hws & _).
      by rewrite (hashable_write_units ws sa ta sb tb Hs Ht
                    (Hws _ _ Hsa) (Hws _ _ Hta)). }
    split; [exact Hload|].
    unfold Standard.compile, bind.
    destruct (Standard.load_from_compile loaded_json s) as [[e1|[ty ut]] s1];
      destruct (Standard.load_from_compile loaded_json t)
        as [[e2|[ty' ut']] t1];
      cbn [fst] in Hload |- *; try discriminate;
      [by injection Hload as ->|].
    injection Hload as <- <-. unfold lift.
    by destruct (Standard.PlatformType T ty).
  - intros k u Hk Hu Hnot.
    destruct (Standard.load_from_compile loaded_json t) as [[e|v] t1] eqn:Hrun;
      [by exists e|].
    exfalso. pose proof (import_units _ _ _ _ Hrun) as [_ Hunits].
    apply load_from_compile_ok in Hrun
      as (pkg & has & t0 & wd & ty & ut & _ & _ & _ & Hhash & _ & _ & _ & _
          & ->).
    rewrite filenames_hashable_lookup in Hhash.
    assert (Hk' : compilation_units t0 !! k = Some u).
    { change (compilation_units t0)
        with (compilation_units (finish_import wd t0)).
      rewrite Hunits, lookup_write_units, last_write_None; [done|].
      intros Hin. by apply Hnot, unit_writes_keys. }
    by rewrite (Hhash _ _ Hk') in Hu.
Qed.

Lemma import_outcome_depends_on_document_only_witness :
  (Standard.load_from_compile DocExample.current DocExample.session).1
  = (Standard.load_from_compile DocExample.current
       (Standard.load_from_compile DocExample.legacy DocExample.session).2).1.
Proof.
  destruct (import_outcome_depends_on_document_only RegistryExample.types
              RegistryExample.platforms DocExample.current DocExample.session
              (Standard.load_from_compile DocExample.legacy
                 DocExample.session).2 eq_refl) as [Hsame _].
  apply Hsame. vm_compute. reflexivity.
Defined.

(** ** Importing a document again *)

Lemma add_all_hashable_inv xs : forall l l',
  add_all xs l = ok l' -> Forall (fun v => Py.hashable v = true) xs.
Proof.
  induction xs as [|x xs IH]; intros l l'; simpl; [by constructor|].
  unfold Py.set_add at 1. destruct (Py.hashable x) eqn:Hx; [|discriminate].
  simpl. intros H. constructor; [done|]. by eapply IH.
Qed.

Lemma add_all_absorbed xs t :
  Forall (fun v => Py.hashable v = true) xs ->
  (forall x, x ∈ xs -> Py.set_in x t = true) ->
  add_all xs t = ok t.
Proof.
  induction 1 as [|x xs Hx _ IH]; intros Hin; simpl; [done|].
  unfold Py.set_add. rewrite Hx, (Hin x) by left. simpl.
  apply IH. intros y Hy. apply Hin. by right.
Qed.

(** Adding the views again to a set that holds them changes nothing. *)
Lemma add_views_all_absorbed ds : forall l l' t,
  add_views_all ds l = ok l' ->
  (forall y, Py.set_in y l' = true -> Py.set_in y t = true) ->
  add_views_all ds t = ok t.
Proof.
  induction ds as [|[n d] ds IH]; intros l l' t; simpl; [done|].
  destruct (add_views d l) as [|l1] eqn:Hadd; [discriminate|]. simpl.
  intros Hrest Hsub.
  assert (Hd : add_views d t = ok t).
  { unfold add_views in *.
    destruct (Py.truthy (d_is_dependency d)); [|done].
    apply add_all_absorbed; [by eapply add_all_hashable_inv|].
    intros x Hx. apply Hsub.
    apply add_views_all_ok in Hrest as (_ & Hmono & _).
    apply Hmono. apply add_all_ok in Hadd as (Hin & _). by apply Hin. }
  rewrite Hd. simpl. by eapply IH.
Qed.

Lemma load_units_again us : forall s s' t,
  load_units us s = Some s' ->
  (forall y, Py.set_in y (dependencies s') = true ->
             Py.set_in y (dependencies t) = true) ->
  exists t',
    load_units us t = Some t' /\ dependencies t' = dependencies t.
Proof.
  induction us as [|[key uj] us IH]; intros s s' t; simpl.
  - intros _ _. by exists t.
  - destruct (parse_unit uj) as [[[cv ds] a]|] eqn:Hp; [|discriminate].
    destruct (add_views_all ds (dependencies s)) as [|deps1] eqn:Hadd;
      [discriminate|].
    intros Hrest Hsub.
    assert (Hmono : forall y, Py.set_in y deps1 = true ->
                              Py.set_in y (dependencies s') = true).
    { destruct (load_units_dependencies _ _ _ Hrest) as (ds' & _ & Hadd').
      apply add_views_all_ok in Hadd' as (_ & Hm & _). exact Hm. }
    rewrite (add_views_all_absorbed ds _ _ (dependencies t) Hadd)
      by (intros y Hy; by apply Hsub, Hmono).
    destruct (IH _ _
                (Session.set_dependencies (dependencies t)
                   (Session.set_units
                      (<[key:=imported_unit cv ds a]> (compilation_units t)) t))
                Hrest Hsub)
      as (t' & Ht' & Hd).
    by exists t'.
Qed.

Lemma all_contract_filenames_units s t :
  compilation_units s = compilation_units t ->
  Standard.all_contract_filenames s = Standard.all_contract_filenames t.
Proof. unfold Standard.all_contract_filenames. by intros ->. Qed.

(** X4. Importing a document into the session its import has just built
    returns the same value and changes nothing: the units, the dependency
    set, the package name, the working directory and the platform are the
    same, and so are the members of the filename set. *)
Theorem import_is_idempotent
  (doc : json) (s s1 : CryticCompile) (r : json * json) :
  Standard.load_from_compile doc s = (inr r, s1) ->
  exists s2,
    Standard.load_from_compile doc s1 = (inr r, s2)
    /\ compilation_units s2 = compilation_units s1
    /\ dependencies s2 = dependencies s1
    /\ package_name s2 = package_name s1
    /\ working_dir s2 = working_dir s1
    /\ platform s2 = platform s1
    /\ forall f, f ∈ filenames s2 <-> f ∈ filenames s1.
Proof.
  intros H.
  apply load_from_compile_ok in H
    as (pkg & has & s0 & wd & ty & ut & Hpkg & Hhas & Hload & Hhash & Hwd
        & Hty & Hut & -> & ->).
  set (t := Session.set_package_name pkg (finish_import wd s0)).
  assert (Hsecond : exists t',
    (if has
     then exists us,
         rbind (Py.getitem doc "compilation_units") Py.items = ok us
         /\ load_units us t = Some t'
     else Standard._load_from_compile_legacy doc t = (inr tt, t'))
    /\ compilation_units t' = compilation_units s0
    /\ dependencies t' = dependencies s0
    /\ package_name t' = package_name s0
    /\ platform t' = platform s0
    /\ filenames t' = filenames (finish_import wd s0)).
  { destruct has.
    - destruct Hload as (us & Hus & Hload).
      destruct (load_units_again us _ _ t Hload) as (t' & Ht' & Hd); [done|].
      exists t'. split; [by exists us|].
      destruct (load_units_fields _ _ _ Hload) as (Hu & _ & _ & Hp & _ & Hpl).
      destruct (load_units_fields _ _ _ Ht') as (Hu' & Hf' & _ & Hp' & _ & Hpl').
      rewrite Hu', Hd, Hp', Hpl', Hf'. simpl.
      rewrite Hu, write_units_idemp. rewrite Hp, Hpl. done.
    - apply legacy_ok in Hload
        as (a & cv & cs & ds & deps' & Ha & Hcv & Hcs & Hds & Hadd & ->).
      eexists. split.
      + apply legacy_ok. exists a, cv, cs, ds, deps'.
        repeat (split; [done|]). split; [|reflexivity].
        simpl. by eapply add_views_all_absorbed.
      + simpl. by rewrite insert_insert_eq. }
  destruct Hsecond as (t' & Hrun & Hu & Hd & Hp & Hpl & Hf).
  exists (finish_import wd t'). split.
  - apply load_from_compile_ok. exists pkg, has, t', wd, ty, ut.
    repeat (split; [done|]).
    split; [|by repeat (split; [done|])].
    unfold filenames_hashable.
    by rewrite (all_contract_filenames_units t' s0 Hu).
  - simpl. repeat (split; [done|]). intros f. rewrite Hf. simpl.
    rewrite (all_contract_filenames_units t' s0 Hu).
    rewrite !elem_of_app. tauto.
Qed.

Lemma import_is_idempotent_witness :
  exists s2,
    Standard.load_from_compile DocExample.current
      (Standard.load_from_compile DocExample.current DocExample.session).2
    = (inr (JNum 4, JArr [JStr "dapp test"]), s2)
    /\ dependencies s2
       = [JStr "/a/Dep.sol"; JStr "lib/Dep.sol"; JStr "Dep.sol"].
Proof.
  destruct (import_is_idempotent DocExample.current DocExample.session
              (Standard.load_from_compile DocExample.current
                 DocExample.session).2
              (JNum 4, JArr [JStr "dapp test"])
              ltac:(vm_compute; reflexivity))
    as (s2 & Hrun & _ & Hd & _).
  exists s2. split; [exact Hrun|]. rewrite Hd. vm_compute. reflexivity.
Defined.

(** ** Exporting a session again *)

(** Two sessions that differ in cached answers only, on a platform whose
    answers are stable. *)
Definition same_answers (s t : CryticCompile) : Prop :=
  only_cache s t /\ stable (platform s) /\ stable (platform t).

(** Two computations that, from such sessions, end with the same outcome
    in such sessions. *)
Definition agree_up_to_cache {A} (m1 m2 : M A) : Prop :=
  forall s t, same_answers s t ->
    (m1 s).1 = (m2 t).1 /\ same_answers (m1 s).2 (m2 t).2.

Lemma agree_lift {A} (r : result A) : agree_up_to_cache (lift r) (lift r).
Proof. by intros s t H. Qed.

Lemma agree_ret {A} (a : A) : agree_up_to_cache (ret a) (ret a).
Proof. by intros s t H. Qed.

Lemma agree_raise {A} (e : exn) :
  agree_up_to_cache (@raise A e) (@raise A e).
Proof. by intros s t H. Qed.

Lemma agree_bind {A B} (m1 m2 : M A) (k1 k2 : A -> M B) :
  agree_up_to_cache m1 m2 ->
  (forall a, agree_up_to_cache (k1 a) (k2 a)) ->
  agree_up_to_cache (bind m1 k1) (bind m2 k2).
Proof.
  intros Hm Hk s t H. destruct (Hm s t H) as [Hr Hs]. unfold bind.
  destruct (m1 s) as [[e1|a1] s1], (m2 t) as [[e2|a2] t1]; simpl in *;
    try discriminate.
  - injection Hr as <-. by split.
  - injection Hr as <-. by apply Hk.
Qed.

Lemma agree_for_fold {A B} (l : list A) (b1 b2 : B -> A -> M B) :
  (forall acc x, agree_up_to_cache (b1 acc x) (b2 acc x)) ->
  forall acc, agree_up_to_cache (for_fold l acc b1) (for_fold l acc b2).
Proof.
  intros Hb. induction l as [|x l IH]; intros acc; simpl.
  - apply agree_ret.
  - apply agree_bind; [apply Hb|]. intros acc'. apply IH.
Qed.

Lemma Waffle_is_dependency_stable cache path :
  stable (WaffleInstance cache) ->
  (Waffle.is_dependency cache path).1
  = Pathlib.in_parts "node_modules" (Pathlib.parts path)
  /\ stable (WaffleInstance (Waffle.is_dependency cache path).2).
Proof.
  intros Hst. unfold Waffle.is_dependency.
  destruct (cache !! path) as [cached|] eqn:Hc; simpl.
  - split; [by apply Hst|done].
  - split; [done|]. intros path' b'.
    destruct (decide (path = path')) as [<-|Hne].
    + rewrite lookup_insert_eq. by intros [= <-].
    + rewrite lookup_insert_ne by done. apply Hst.
Qed.

Lemma agree_is_dependency x :
  agree_up_to_cache (CryticCompile_is_dependency x)
    (CryticCompile_is_dependency x).
Proof.
  intros s t H0. pose proof H0 as ([Heq Hc] & Hs & Ht).
  unfold CryticCompile_is_dependency. rewrite !bind_gets.
  replace (dependencies t) with (dependencies s) by (by rewrite Heq).
  destruct (Py.hashable x); [|by split].
  destruct (Py.set_in x (dependencies s)); [by split|].
  unfold platform_is_dependency.
  destruct (platform s) as [c1|c1|cls ut] eqn:Hps,
           (platform t) as [c2|c2|cls' ut'] eqn:Hpt;
    rewrite ?Hps, ?Hpt in Hc, Hs, Ht; simpl in Hc, Hs, Ht; try done;
    try (by split).
  destruct x as [| | |path| |]; try (by split).
  destruct (Waffle_is_dependency_stable c1 path Hs) as [H1 Hs1].
  destruct (Waffle_is_dependency_stable c2 path Ht) as [H2 Ht1].
  destruct (Waffle.is_dependency c1 path) as [r1 c1'].
  destruct (Waffle.is_dependency c2 path) as [r2 c2']. simpl in *.
  subst r1 r2. split; [done|]. split; [|done].
  split; [|done]. simpl. rewrite Heq. done.
Qed.

Lemma agree_bind_gets {A B} (f : CryticCompile -> A) (k1 k2 : A -> M B) :
  (forall s t, same_answers s t -> f s = f t) ->
  (forall a, agree_up_to_cache (k1 a) (k2 a)) ->
  agree_up_to_cache (bind (gets f) k1) (bind (gets f) k2).
Proof.
  intros Hf Hk s t H. rewrite !bind_gets, (Hf s t H). by apply Hk.
Qed.

Lemma agree_gets_ret {A} (g : CryticCompile -> A) :
  (forall s t, same_answers s t -> g s = g t) ->
  agree_up_to_cache (bind (gets (fun s => s)) (fun s => ret (g s)))
    (bind (gets (fun s => s)) (fun s => ret (g s))).
Proof. intros Hg s t H. rewrite !bind_gets. unfold ret. simpl. by rewrite (Hg s t H). Qed.

Lemma agree_generate_standard_export T py_str :
  agree_up_to_cache (Standard.generate_standard_export T py_str)
    (Standard.generate_standard_export T py_str).
Proof.
  unfold Standard.generate_standard_export.
  apply agree_bind_gets; [by intros s t ([-> _] & _)|]. intros units.
  apply agree_bind.
  - apply agree_for_fold. intros acc [k u].
    apply agree_bind; [|intros ?; apply agree_ret].
    unfold Standard.export_unit.
    apply agree_bind; [|intros ?; apply agree_ret].
    apply agree_for_fold. intros acc' n.
    apply agree_bind; [|intros ?; apply agree_ret].
    unfold Standard.export_contract.
    apply agree_bind; [apply agree_lift|]. intros [f|p];
      [|apply agree_raise].
    apply agree_bind; [apply agree_lift|]. intros libs.
    apply agree_bind; [apply agree_is_dependency|]. intros b.
    apply agree_bind; [apply agree_lift|]. intros doc.
    apply agree_ret.
  - intros us.
    apply (agree_gets_ret (fun s =>
      JObj [("compilation_units", JObj us); ("package", package s);
            ("working_dir", JStr (py_str (working_dir s)));
            ("type", JNum (Standard.platform_type_used T (platform s)));
            ("unit_tests", Standard.guessed_tests (platform s))])).
    intros s t ([Heq Hc] & _ & _). rewrite Heq. simpl.
    destruct (platform s), (platform t); simpl in Hc; try done.
    by destruct Hc as [-> ->].
Qed.

(** X5. On a platform whose dependency answers are stable (a [Standard]
    platform, or a [Waffle] platform whose cache holds only answers it
    gave), the export is a function of the session up to the cached
    answers: from a session that differs in them only it ends with the
    same document or the same exception, and so does an export run
    right after the first one. *)
Theorem export_is_reproducible
  (T : PlatformTypes) (py_str : json -> string) (S : CryticCompile) :
  stable (platform S) ->
  (forall S1, only_cache S S1 -> stable (platform S1) ->
     (Standard.generate_standard_export T py_str S1).1
     = (Standard.generate_standard_export T py_str S).1)
  /\ (Standard.generate_standard_export T py_str
        (Standard.generate_standard_export T py_str S).2).1
     = (Standard.generate_standard_export T py_str S).1.
Proof.
  intros HS.
  assert (Hgen : forall S1, only_cache S S1 -> stable (platform S1) ->
     (Standard.generate_standard_export T py_str S1).1
     = (Standard.generate_standard_export T py_str S).1).
  { intros S1 Hoc HS1. symmetry.
    by apply (agree_generate_standard_export T py_str S S1). }
  split; [exact Hgen|]. apply Hgen.
  - eapply (preserves_generate_standard_export T py_str S);
      [apply only_cache_refl|apply surjective_pairing].
  - destruct (agree_generate_standard_export T py_str S S) as [_ (_ & H & _)];
      [|exact H].
    split; [apply only_cache_refl|done].
Qed.

Lemma export_is_reproducible_witness :
  (Standard.generate_standard_export RegistryExample.types
     WaffleExample.py_str
     (Standard.generate_standard_export RegistryExample.types
        WaffleExample.py_str WaffleExample.session).2).1
  = inr WaffleExample.document.
Proof.
  assert (Hp : platform WaffleExample.session = WaffleInstance ∅)
    by (vm_compute; reflexivity).
  assert (HS : stable (platform WaffleExample.session)).
  { rewrite Hp. intros path b Hb. rewrite lookup_empty in Hb. discriminate. }
  destruct (export_is_reproducible RegistryExample.types WaffleExample.py_str
              WaffleExample.session HS) as [_ H].
  rewrite H. vm_compute. reflexivity.
Defined.

(** ** Sessions of a Dapp run *)

Lemma for_fold_ok_ind {A B} (I : CryticCompile -> Prop) (l : list A)
  (body : B -> A -> M B) : forall acc s acc' s',
  I s ->
  (forall b x s1 b' s2, x ∈ l -> I s1 -> body b x s1 = (inr b', s2) -> I s2) ->
  for_fold l acc body s = (inr acc', s') -> I s'.
Proof.
  induction l as [|x l IH]; intros acc s acc' s' HI Hbody; simpl.
  - intros H. by apply ret_ok_inv in H as [_ ->].
  - intros H. apply bind_ok_inv in H as (acc1 & s1 & Hx & Hrest).
    eapply IH; [| |exact Hrest].
    + eapply Hbody; [left|exact HI|exact Hx].
    + intros b y s2 b' s3 Hy. apply Hbody. by right.
Qed.

(** What [Dapp.compile] leaves in its unit: the path string of the build
    output as the filename of every contract, and one source map for
    both sides. *)
Definition dapp_unit (u : CompilationUnit) : Prop :=
  srcmaps_runtime u = srcmaps_init u
  /\ forall n, n ∈ contracts_names u ->
       exists p, contracts_filenames u !! n = Some (FilenameStr p).

Definition dapp_session (key : string) (m0 : gmap string CompilationUnit)
  (s : CryticCompile) : Prop :=
  exists u, compilation_units s = <[key:=u]> m0 /\ dapp_unit u.

Section DappSession.

Variable json_loads : string -> result json.
Variable findall_version : string -> list string.

Lemma compile_contract_dapp key m0 original_filename locals entry s r s' :
  dapp_session key m0 s ->
  Dapp.compile_contract json_loads findall_version key original_filename
    locals entry s = (inr r, s') ->
  dapp_session key m0 s'.
Proof.
  intros (u & Hu & Hsm & Hf) H. unfold Dapp.compile_contract in H.
  destruct locals as [o v], entry as [name info]. inv_ok H.
  match goal with
  | H1 : rbind _ (fun m => Py.split m ";") = inr ?a,
    H2 : rbind _ (fun m => Py.split m ";") = inr ?b |- _ =>
      rewrite H1 in H2; injection H2 as <-
  end.
  subst s'. rewrite Hu, !alter_insert_eq.
  eexists. split; [reflexivity|]. split.
  - simpl. by rewrite Hsm.
  - intros n Hn. simpl in Hn. simpl.
    destruct (decide (n = Naming.extract_name name)) as [->|Hne].
    + rewrite lookup_insert_eq. by eexists.
    + rewrite lookup_insert_ne by done. apply Hf. set_solver.
Qed.

Lemma compile_dapp target got_version targets_json s r S :
  Dapp.compile json_loads findall_version target got_version targets_json s
  = (inr r, S) ->
  dapp_session target (compilation_units s) S.
Proof.
  unfold Dapp.compile. intros H. rewrite bind_new_unit in H. inv_ok H.
  apply modify_ok_inv in H. subst S.
  match goal with
  | Hs : for_each _ _ _ = _ |- _ => rename Hs into Hsources
  end.
  match goal with
  | Hf : for_fold _ _ _ _ = _ |- _ => rename Hf into Hfiles
  end.
  apply (for_each_ok_ind (dapp_session target (compilation_units s)))
    in Hsources as (u & Hu & Hsm & Hf).
  - norm_session. rewrite Hu, alter_insert_eq. eexists.
    split; [reflexivity|]. by split.
  - apply (for_fold_ok_ind (dapp_session target (compilation_units s)))
      in Hfiles; [exact Hfiles| |].
    + norm_session. rewrite alter_insert_eq. eexists.
      split; [reflexivity|]. split; [done|]. intros n Hn. simpl in Hn.
      set_solver.
    + intros locals [file infos] sa locals' sb _ HI Hx. inv_ok Hx.
      apply (for_fold_ok_ind (dapp_session target (compilation_units s)))
        in Hx; [exact Hx|exact HI|].
      intros b x sc b' sd _. apply compile_contract_dapp.
  - intros [path info] sa sb u' _ (u & Hu & Hsm & Hf) Hx. inv_ok Hx.
    apply (asts_setitem_inv _ _ _ _ u) in Hx as (a' & ->);
      [|norm_session; by rewrite Hu, lookup_insert_eq].
    norm_session. rewrite Hu, insert_insert_eq. eexists.
    split; [reflexivity|]. by split.
Qed.

End DappSession.

(** X6. When [Dapp.compile] returns, the unit it has built holds, for
    every contract, the same segment sequence as runtime source map and
    as init source map: both are read from [evm.bytecode.sourceMap]. *)
Theorem Dapp_runtime_srcmap_is_init_srcmap
  (json_loads : string -> result json)
  (findall_version : string -> list string)
  (target : string) (got_version : CompilerVersion) (targets_json : json)
  (s S : CryticCompile) (r : unit) :
  Dapp.compile json_loads findall_version target got_version targets_json s
  = (inr r, S) ->
  exists u,
    compilation_units S !! target = Some u
    /\ forall n, Unit.srcmap_runtime u n = Unit.srcmap_init u n.
Proof.
  intros H. apply compile_dapp in H as (u & Hu & Hsm & _).
  exists u. split; [by rewrite Hu, lookup_insert_eq|].
  intros n. unfold Unit.srcmap_runtime, Unit.srcmap_init. by rewrite Hsm.
Qed.

Lemma Dapp_runtime_srcmap_is_init_srcmap_witness :
  exists u,
    compilation_units DappExample.run.2 !! "." = Some u
    /\ Unit.srcmap_runtime u "A" = ["0:9:0"; ""; ""].
Proof.
  destruct (Dapp_runtime_srcmap_is_init_srcmap DappExample.json_loads
              DappExample.findall_version "." DappExample.got_version
              DappExample.targets_json (new_session (DappInstance ∅))
              DappExample.run.2 tt ltac:(vm_compute; reflexivity))
    as (u & Hu & Hsm).
  exists u. split; [exact Hu|]. rewrite Hsm.
  vm_compute in Hu. injection Hu as <-. vm_compute. reflexivity.
Defined.

Lemma export_contract_str u n p s :
  contracts_filenames u !! n = Some (FilenameStr p) ->
  Standard.export_contract u n s = (inl AttributeError, s).
Proof.
  intros Hf. unfold Standard.export_contract, Unit.filename_of_contract.
  rewrite Hf. reflexivity.
Qed.

(** X7. The export of the session a [Dapp.compile] that returns has built
    from a session without units raises [AttributeError] as soon as the
    unit has a contract: the adapter stores a path string where the
    export reads the [absolute] attribute of a [Filename]. *)
Theorem Dapp_session_cannot_be_exported
  (json_loads : string -> result json)
  (findall_version : string -> list string)
  (T : PlatformTypes) (py_str : json -> string)
  (target : string) (got_version : CompilerVersion) (targets_json : json)
  (s S : CryticCompile) (r : unit) :
  compilation_units s = ∅ ->
  Dapp.compile json_loads findall_version target got_version targets_json s
  = (inr r, S) ->
  exists u,
    compilation_units S = {[target := u]}
    /\ (contracts_names u <> ∅ ->
        Standard.generate_standard_export T py_str S
        = (inl AttributeError, S)).
Proof.
  intros Hempty H. apply compile_dapp in H as (u & Hu & _ & Hf).
  rewrite Hempty, insert_empty in Hu. exists u. split; [exact Hu|].
  intros Hne. unfold Standard.generate_standard_export.
  rewrite bind_gets, Hu, map_to_list_singleton.
  destruct (elements (contracts_names u)) as [|n rest] eqn:Hel.
  { apply elements_empty_inv in Hel. by apply leibniz_equiv in Hel. }
  destruct (Hf n) as (p & Hp).
  { apply elem_of_elements. rewrite Hel. left. }
  apply bind_err. simpl. apply bind_err. apply bind_err.
  unfold Standard.export_unit. apply bind_err. rewrite Hel. simpl.
  apply bind_err. apply bind_err. by eapply export_contract_str.
Qed.

Lemma Dapp_session_cannot_be_exported_witness :
  (Standard.generate_standard_export RegistryExample.types
     WaffleExample.py_str DappExample.run.2).1
  = inl AttributeError.
Proof.
  destruct (Dapp_session_cannot_be_exported DappExample.json_loads
              DappExample.findall_version RegistryExample.types
              WaffleExample.py_str "." DappExample.got_version
              DappExample.targets_json (new_session (DappInstance ∅))
              DappExample.run.2 tt eq_refl ltac:(vm_compute; reflexivity))
    as (u & Hu & Hraise).
  rewrite Hraise; [reflexivity|]. intros Hnames.
  assert (HA : "C" ∈ contracts_names
                 (default empty_unit
                    (compilation_units DappExample.run.2 !! "."))).
  { apply elem_of_elements. vm_compute. left. }
  rewrite Hu, lookup_singleton_eq in HA. simpl in HA. rewrite Hnames in HA.
  by apply not_elem_of_empty in HA.
Defined.

(** ** What the adapters leave alone *)

(** The dependency set and the platform instance are the given ones. *)
Definition kept (d : list json) (p : Platform) (s : CryticCompile) : Prop :=
  dependencies s = d /\ platform s = p.

Lemma kept_on_unit d p key f : preserves (kept d p) (on_unit key f).
Proof. apply preserves_modify. by intros s HP. Qed.

Lemma kept_new d p key : preserves (kept d p) (new_CompilationUnit key).
Proof. apply preserves_modify. by intros s HP. Qed.

Lemma kept_filenames_add d p f : preserves (kept d p) (filenames_add f).
Proof. apply preserves_modify. by intros s HP. Qed.

Lemma kept_asts_setitem d p key x v :
  preserves (kept d p) (asts_setitem key x v).
Proof.
  intros s r s' HP. unfold asts_setitem.
  destruct (compilation_units s !! key) as [u|]; [|by intros [= _ <-]].
  destruct (Py.setitem (asts u) x v); intros [= _ <-]; exact HP.
Qed.

#[local] Hint Resolve kept_on_unit kept_new kept_filenames_add
  kept_asts_setitem : pres.

Lemma kept_Dapp_compile d p json_loads findall_version target got_version
  targets_json :
  preserves (kept d p)
    (Dapp.compile json_loads findall_version target got_version
       targets_json).
Proof.
  unfold Dapp.compile. solve_preserves.
  - apply preserves_for_fold. intros locals [file infos] _. solve_preserves.
    apply preserves_for_fold. intros [o v] [name info] _.
    unfold Dapp.compile_contract. solve_preserves.
  - apply preserves_for_each. intros [path info] _. solve_preserves.
Qed.

Lemma kept_Waffle_compile d p target compiler version target_all :
  preserves (kept d p) (Waffle.compile target compiler version target_all).
Proof.
  unfold Waffle.compile. solve_preserves.
  apply preserves_for_each. intros contract _.
  unfold Waffle.compile_contract. solve_preserves.
Qed.

(** X8. Whether they return or raise, [Dapp.compile] and [Waffle.compile]
    leave the session's dependency set and its platform instance, with
    the answers it has cached, as they found them: an adapter records no
    dependency. *)
Theorem adapters_leave_dependency_set
  (json_loads : string -> result json)
  (findall_version : string -> list string)
  (target : string) (got_version : CompilerVersion)
  (compiler version : json) (build_output : json) (s : CryticCompile) :
  (let S := (Dapp.compile json_loads findall_version target got_version
               build_output s).2 in
   dependencies S = dependencies s /\ platform S = platform s)
  /\ (let S := (Waffle.compile target compiler version build_output s).2 in
      dependencies S = dependencies s /\ platform S = platform s).
Proof.
  split; intros S.
  - eapply (kept_Dapp_compile (dependencies s) (platform s));
      [done|apply surjective_pairing].
  - eapply (kept_Waffle_compile (dependencies s) (platform s));
      [done|apply surjective_pairing].
Qed.

(** ** Waffle sessions and the export *)



(** ** The filename set after an import *)

Lemma elem_of_all_contract_filenames s k u n f :
  compilation_units s !! k = Some u ->
  contracts_filenames u !! n = Some f ->
  f ∈ Standard.all_contract_filenames s.
Proof.
  intros Hk Hn. unfold Standard.all_contract_filenames.
  apply list_elem_of_join. exists ((map_to_list (contracts_filenames u)).*2).
  split.
  - apply list_elem_of_fmap. exists (n, f). split; [done|].
    by apply elem_of_map_to_list.
  - apply list_elem_of_fmap. exists (k, u). split; [done|].
    by apply elem_of_map_to_list.
Qed.

(** X10. After an import that returns, the session's filename set holds
    what it held before and the filename of every contract of every unit
    of the session, those of the units it had before included. *)
Theorem import_registers_filenames
  (doc : json) (s s' : CryticCompile) (r : json * json) :
  Standard.load_from_compile doc s = (inr r, s') ->
  (forall f, f ∈ filenames s -> f ∈ filenames s')
  /\ forall k u n f,
       compilation_units s' !! k = Some u ->
       contracts_filenames u !! n = Some f ->
       f ∈ filenames s'.
Proof.
  intros H.
  apply load_from_compile_ok in H
    as (pkg & has & s1 & wd & ty & ut & Hpkg & Hhas & Hload & Hhash & Hwd
        & Hty & Hut & -> & ->).
  assert (Hf : filenames s1 = filenames s).
  { destruct has.
    - destruct Hload as (us & _ & Hload).
      by destruct (load_units_fields _ _ _ Hload) as (_ & -> & _).
    - apply legacy_ok in Hload as (a & cv & cs & ds & deps' & _ & _ & _ & _
                                   & _ & ->). done. }
  simpl. rewrite Hf. split.
  - intros f Hin. apply elem_of_app. by left.
  - intros k u n f Hk Hn. apply elem_of_app. right.
    by eapply elem_of_all_contract_filenames.
Qed.

Lemma import_registers_filenames_witness :
  FilenameObj {| absolute := JStr "/a/Dep.sol"; used := JStr "Dep.sol";
                 relative := JStr "lib/Dep.sol"; short := JStr "Dep.sol" |}
  ∈ filenames (Standard.load_from_compile DocExample.current
                 DocExample.session).2.
Proof.
  destruct (import_registers_filenames DocExample.current DocExample.session
              (Standard.load_from_compile DocExample.current
                 DocExample.session).2
              (JNum 4, JArr [JStr "dapp test"])
              ltac:(vm_compute; reflexivity)) as [_ H].
  apply (H "/a"
           (default empty_unit
              (compilation_units
                 (Standard.load_from_compile DocExample.current
                    DocExample.session).2 !! "/a")) "Dep").
  - vm_compute. reflexivity.
  - vm_compute. reflexivity.
Defined.

(** ** The configuration [Waffle.compile] hands to [waffle]

    Before it runs the tool, [Waffle.compile] (waffle.py, lines 91-137)
    rewrites the configuration it has loaded, a parsed JSON value, so
    that the build emits what the adapter reads. The code walks down the
    configuration with the local [curr_config] and writes through it;
    here each level returns the value it has updated and the level above
    stores it back under the key it was read from. *)

Module WaffleConfig.

(** [v != "all"] *)
Definition ne_all (v : json) : bool :=
  match v with
  | JStr s => negb (String.eqb s "all")
  | _ => true
  end.

(** The literal [needed_config] (lines 94-109), level by level. *)
Definition needed_outputs : list json :=
  [JStr "evm.bytecode.object"; JStr "evm.deployedBytecode.object";
   JStr "abi"; JStr "evm.bytecode.sourceMap";
   JStr "evm.deployedBytecode.sourceMap"].

Definition needed_ast : list json := [JStr "ast"].

Definition needed_star : json :=
  JObj [("*", JArr needed_outputs); ("", JArr needed_ast)].

Definition needed_selection : json := JObj [("*", needed_star)].

Definition needed_options : json :=
  JObj [("outputSelection", needed_selection)].

Definition needed_config : json := JObj [("compilerOptions", needed_options)].

(** [v += l] for a list [l]: only a list can be extended by one. *)
Definition iadd (v : json) (l : list json) : result json :=
  match v with
  | JArr old => ok (JArr (old ++ l))
  | _ => throw TypeError
  end.

(** Lines 91-92. *)
Definition set_output_type (config : json) : result json :=
  rbind (Py.contains "outputType" config) (fun has_type =>
  rbind (if has_type
         then rbind (Py.getitem config "outputType") (fun v => ok (ne_all v))
         else ok true) (fun not_all =>
  if not_all then Py.setitem config (JStr "outputType") (JStr "all")
  else ok config)).

(** Lines 121-129, on [curr_config] bound to the value under
    [compilerOptions.outputSelection["*"]]. *)
Definition merge_star (curr_config : json) : result json :=
  rbind (Py.contains "*" curr_config) (fun has =>
  rbind (if has
         then rbind (Py.getitem curr_config "*") (fun v =>
              rbind (iadd v needed_outputs) (fun v' =>
              Py.setitem curr_config (JStr "*") v'))
         else Py.setitem curr_config (JStr "*") (JArr needed_outputs))
    (fun curr_config =>
  rbind (Py.contains "" curr_config) (fun has =>
  if has
  then rbind (Py.getitem curr_config "") (fun v =>
       rbind (iadd v needed_ast) (fun v' =>
       Py.setitem curr_config (JStr "") v'))
  else Py.setitem curr_config (JStr "") (JArr needed_ast)))).

(** Lines 118-132, on [curr_config] bound to the value under
    [compilerOptions.outputSelection]. *)
Definition merge_selection (curr_config : json) : result json :=
  rbind (Py.contains "*" curr_config) (fun has =>
  if has
  then rbind (Py.getitem curr_config "*") (fun inner =>
       rbind (merge_star inner) (fun inner' =>
       Py.setitem curr_config (JStr "*") inner'))
  else Py.setitem curr_config (JStr "*") needed_star).

(** Lines 115-135, on [curr_config] bound to the value under
    [compilerOptions]. *)
Definition merge_options (curr_config : json) : result json :=
  rbind (Py.contains "outputSelection" curr_config) (fun has =>
  if has
  then rbind (Py.getitem curr_config "outputSelection") (fun inner =>
       rbind (merge_selection inner) (fun inner' =>
       Py.setitem curr_config (JStr "outputSelection") inner'))
  else Py.setitem curr_config (JStr "outputSelection") needed_selection).

(** Lines 91-137: the configuration written to the temporary file. *)
Definition prepare_config (config : json) : result json :=
  rbind (set_output_type config) (fun config =>
  rbind (Py.contains "compilerOptions" config) (fun has =>
  if has
  then rbind (Py.getitem config "compilerOptions") (fun inner =>
       rbind (merge_options inner) (fun inner' =>
       Py.setitem config (JStr "compilerOptions") inner'))
  else Py.setitem config (JStr "compilerOptions") needed_options)).

(** [j[k1][k2]...] *)
Fixpoint getpath (j : json) (ks : list string) : result json :=
  match ks with
  | [] => ok j
  | k :: rest => rbind (Py.getitem j k) (fun x => getpath x rest)
  end.

(** An example: a configuration that selects the ABI for every contract
    and sets the optimizer. *)
Definition example : json :=
  JObj [("compilerOptions",
         JObj [("optimizer", JObj [("enabled", JBool true)]);
               ("outputSelection",
                JObj [("*", JObj [("*", JArr [JStr "abi"])])])]);
        ("outputType", JStr "combined")].

End WaffleConfig.

Import WaffleConfig.

(** The shape the levels share: under key [k], update what is there with
    [g], or store [dflt]. *)
Definition descend (d : json) (k : string) (g : json -> result json)
  (dflt : json) : result json :=
  rbind (Py.contains k d) (fun has =>
  if has
  then rbind (Py.getitem d k) (fun x =>
       rbind (g x) (fun x' => Py.setitem d (JStr k) x'))
  else Py.setitem d (JStr k) dflt).

Lemma assoc_dict_set_eq k v kvs :
  Py.assoc k (Py.dict_set k v kvs) = Some v.
Proof.
  induction kvs as [|[k' v'] kvs IH]; simpl.
  - by rewrite String.eqb_refl.
  - destruct (String.eqb_spec k k') as [->|Hne]; simpl.
    + by rewrite String.eqb_refl.
    + destruct (String.eqb_spec k k'); [done|exact IH].
Qed.

Lemma assoc_dict_set_ne k k' v kvs :
  k' <> k -> Py.assoc k' (Py.dict_set k v kvs) = Py.assoc k' kvs.
Proof.
  intros Hne. induction kvs as [|[k0 v0] kvs IH]; simpl.
  - destruct (String.eqb_spec k' k); done.
  - destruct (String.eqb_spec k k0) as [->|Hne0]; simpl.
    + destruct (String.eqb_spec k' k0); done.
    + destruct (String.eqb_spec k' k0); [done|exact IH].
Qed.

Lemma setitem_inv d k v d' :
  Py.setitem d (JStr k) v = ok d' ->
  Py.getitem d' k = ok v
  /\ forall k', k' <> k -> Py.getitem d' k' = Py.getitem d k'.
Proof.
  destruct d as [| | | | |kvs]; try discriminate. simpl. intros [= <-].
  unfold Py.getitem. simpl. rewrite assoc_dict_set_eq. split; [done|].
  intros k' Hne. by rewrite assoc_dict_set_ne.
Qed.

Lemma contains_false_getitem d k v :
  Py.contains k d = ok false -> Py.getitem d k = ok v -> False.
Proof.
  destruct d as [| | |s|l|kvs]; try discriminate; unfold Py.getitem; simpl;
    try discriminate.
  intros [= Hc]. apply bool_decide_eq_false in Hc.
  destruct (Py.assoc k kvs) as [x|]; [|discriminate].
  intros _. apply Hc. by eexists.
Qed.

Lemma descend_inv d k g dflt d' :
  descend d k g dflt = ok d' ->
  (exists x', Py.getitem d' k = ok x'
              /\ ((exists x, Py.getitem d k = ok x /\ g x = ok x')
                  \/ ((forall v, Py.getitem d k <> ok v) /\ x' = dflt)))
  /\ forall k', k' <> k -> Py.getitem d' k' = Py.getitem d k'.
Proof.
  unfold descend. destruct (Py.contains k d) as [|[]] eqn:Hc; try discriminate;
    simpl.
  - destruct (Py.getitem d k) as [|x] eqn:Hx; [discriminate|]. simpl.
    destruct (g x) as [|x'] eqn:Hg; [discriminate|]. simpl.
    intros H. apply setitem_inv in H as [H1 H2]. split; [|exact H2].
    exists x'. split; [exact H1|]. left. by exists x.
  - intros H. apply setitem_inv in H as [H1 H2]. split; [|exact H2].
    exists dflt. split; [exact H1|]. right. split; [|done].
    intros v Hv. by eapply contains_false_getitem.
Qed.

(** Under the path [leaf], [c'] holds the list of [c], or no entry,
    followed by the entries of [needed]. *)
Definition appended (leaf : list string) (needed : list json) (c c' : json)
  : Prop :=
  exists l, getpath c' leaf = ok (JArr (l ++ needed))
            /\ forall v, getpath c leaf = ok v -> v = JArr l.

(** What [c] holds under [path], [c'] holds. *)
Definition kept_at (path : list string) (c c' : json) : Prop :=
  forall v, getpath c path = ok v -> getpath c' path = ok v.

Lemma appended_leaf d k needed d' :
  descend d k (fun v => iadd v needed) (JArr needed) = ok d' ->
  appended [k] needed d d'.
Proof.
  intros H. apply descend_inv in H as [(x' & Hx' & Hcase) _].
  unfold appended. simpl. rewrite Hx'. simpl.
  destruct Hcase as [(x & Hx & Hg)|[Hno ->]].
  - destruct x as [| | | |old|]; try discriminate. injection Hg as <-.
    exists old. split; [done|]. rewrite Hx. simpl. by intros v [= <-].
  - exists []. split; [done|]. intros v Hv.
    destruct (Py.getitem d k) as [|x] eqn:Hx; [discriminate|].
    by destruct (Hno x).
Qed.

Lemma appended_descend d k g dflt d' leaf needed :
  descend d k g dflt = ok d' ->
  (forall x x', g x = ok x' -> appended leaf needed x x') ->
  getpath dflt leaf = ok (JArr needed) ->
  appended (k :: leaf) needed d d'.
Proof.
  intros H Hg Hdflt. apply descend_inv in H as [(x' & Hx' & Hcase) _].
  unfold appended. simpl. rewrite Hx'. simpl.
  destruct Hcase as [(x & Hx & Hgx)|[Hno ->]].
  - destruct (Hg x x' Hgx) as (l & Hl & Hold). exists l. split; [done|].
    rewrite Hx. simpl. exact Hold.
  - exists []. split; [done|]. intros v Hv.
    destruct (Py.getitem d k) as [|x] eqn:Hx; [discriminate|].
    by destruct (Hno x).
Qed.

Lemma kept_descend_other d k g dflt d' k' rest :
  descend d k g dflt = ok d' -> k' <> k -> kept_at (k' :: rest) d d'.
Proof.
  intros H Hne. apply descend_inv in H as [_ Hother].
  unfold kept_at. simpl. by rewrite (Hother k' Hne).
Qed.

Lemma kept_descend d k g dflt d' path :
  descend d k g dflt = ok d' ->
  (forall x x', g x = ok x' -> kept_at path x x') ->
  kept_at (k :: path) d d'.
Proof.
  intros H Hg. apply descend_inv in H as [(x' & Hx' & Hcase) _].
  unfold kept_at. simpl. rewrite Hx'. simpl. intros v Hv.
  destruct (Py.getitem d k) as [|x] eqn:Hx; [discriminate|]. simpl in Hv.
  destruct Hcase as [(x0 & [= <-] & Hgx)|[Hno _]]; [|by destruct (Hno x)].
  by apply (Hg x x').
Qed.

Lemma merge_star_unfold c :
  merge_star c
  = rbind (descend c "*" (fun v => iadd v needed_outputs)
             (JArr needed_outputs))
      (fun c1 => descend c1 "" (fun v => iadd v needed_ast) (JArr needed_ast)).
Proof.
  unfold merge_star, descend. by destruct (Py.contains "*" c) as [|has].
Qed.

Lemma merge_star_ok c c' :
  merge_star c = ok c' ->
  appended ["*"] needed_outputs c c'
  /\ appended [""] needed_ast c c'
  /\ forall k rest, k <> "*" -> k <> "" -> kept_at (k :: rest) c c'.
Proof.
  rewrite merge_star_unfold.
  destruct (descend c "*" _ _) as [|c1] eqn:H1; [discriminate|]. simpl.
  intros H2.
  pose proof (appended_leaf _ _ _ _ H1) as (l1 & Hl1 & Hold1).
  pose proof (appended_leaf _ _ _ _ H2) as (l2 & Hl2 & Hold2).
  pose proof (descend_inv _ _ _ _ _ H1) as [_ Ho1].
  pose proof (descend_inv _ _ _ _ _ H2) as [_ Ho2].
  repeat split.
  - exists l1. split; [|exact Hold1]. simpl in *.
    rewrite (Ho2 "*") by done. exact Hl1.
  - exists l2. split; [exact Hl2|]. simpl in *.
    rewrite (Ho1 "") in Hold2 by done. exact Hold2.
  - intros k rest Hk1 Hk2 v. simpl.
    by rewrite (Ho2 k), (Ho1 k).
Qed.

Lemma merge_selection_ok c c' :
  merge_selection c = ok c' ->
  appended ["*"; "*"] needed_outputs c c'
  /\ appended ["*"; ""] needed_ast c c'
  /\ (forall k rest, k <> "*" -> kept_at (k :: rest) c c')
  /\ forall k rest, k <> "*" -> k <> "" -> kept_at ("*" :: k :: rest) c c'.
Proof.
  change (merge_selection c) with (descend c "*" merge_star needed_star).
  intros H. repeat split.
  - eapply appended_descend; [exact H| |done].
    intros x x' Hx. by apply merge_star_ok in Hx as (? & _).
  - eapply appended_descend; [exact H| |done].
    intros x x' Hx. by apply merge_star_ok in Hx as (_ & ? & _).
  - intros k rest Hk. by eapply kept_descend_other.
  - intros k rest Hk1 Hk2. eapply kept_descend; [exact H|].
    intros x x' Hx. apply merge_star_ok in Hx as (_ & _ & Hkept).
    by apply Hkept.
Qed.

Lemma merge_options_ok c c' :
  merge_options c = ok c' ->
  appended ["outputSelection"; "*"; "*"] needed_outputs c c'
  /\ appended ["outputSelection"; "*"; ""] needed_ast c c'
  /\ (forall k rest, k <> "outputSelection" -> kept_at (k :: rest) c c')
  /\ (forall k rest, k <> "*" -> kept_at ("outputSelection" :: k :: rest) c c')
  /\ forall k rest, k <> "*" -> k <> "" ->
       kept_at ("outputSelection" :: "*" :: k :: rest) c c'.
Proof.
  change (merge_options c)
    with (descend c "outputSelection" merge_selection needed_selection).
  intros H. repeat split.
  - eapply appended_descend; [exact H| |done].
    intros x x' Hx. by apply merge_selection_ok in Hx as (? & _).
  - eapply appended_descend; [exact H| |done].
    intros x x' Hx. by apply merge_selection_ok in Hx as (_ & ? & _).
  - intros k rest Hk. by eapply kept_descend_other.
  - intros k rest Hk. eapply kept_descend; [exact H|].
    intros x x' Hx. apply merge_selection_ok in Hx as (_ & _ & Hkept & _).
    by apply Hkept.
  - intros k rest Hk1 Hk2. eapply kept_descend; [exact H|].
    intros x x' Hx. apply merge_selection_ok in Hx as (_ & _ & _ & Hkept).
    by apply Hkept.
Qed.

Lemma set_output_type_ok c c' :
  set_output_type c = ok c' ->
  Py.getitem c' "outputType" = ok (JStr "all")
  /\ forall k, k <> "outputType" -> Py.getitem c' k = Py.getitem c k.
Proof.
  unfold set_output_type.
  destruct (Py.contains "outputType" c) as [|[]]; try discriminate; simpl.
  - destruct (Py.getitem c "outputType") as [|v] eqn:Hv; [discriminate|].
    simpl. destruct (ne_all v) eqn:Hne.
    + apply setitem_inv.
    + intros [= <-]. split; [|done].
      destruct v as [| | |s| |]; try discriminate. simpl in Hne.
      apply negb_false_iff, String.eqb_eq in Hne. by subst.
  - apply setitem_inv.
Qed.

Lemma prepare_config_ok config config' :
  prepare_config config = ok config' ->
  exists config1,
    set_output_type config = ok config1
    /\ descend config1 "compilerOptions" merge_options needed_options
       = ok config'.
Proof.
  unfold prepare_config.
  destruct (set_output_type config) as [|config1]; [discriminate|].
  intros H. by exists config1.
Qed.




(** X12. When the rewriting of the configuration returns, every other
    setting is kept: a top-level key other than [outputType] and
    [compilerOptions], a key of [compilerOptions] other than
    [outputSelection], the selection of a file pattern other than ["*"],
    and a selection under ["*"] for a contract pattern other than ["*"]
    and [""], with everything below them. *)
Theorem prepare_config_keeps_other_settings
  (config config' : json) (k : string) (rest : list string) (v : json) :
  prepare_config config = ok config' ->
  (k <> "outputType" -> k <> "compilerOptions" ->
   getpath config (k :: rest) = ok v -> getpath config' (k :: rest) = ok v)
  /\ (k <> "outputSelection" ->
      getpath config ("compilerOptions" :: k :: rest) = ok v ->
      getpath config' ("compilerOptions" :: k :: rest) = ok v)
  /\ (k <> "*" ->
      getpath config ("compilerOptions" :: "outputSelection" :: k :: rest)
      = ok v ->
      getpath config' ("compilerOptions" :: "outputSelection" :: k :: rest)
      = ok v)
  /\ (k <> "*" -> k <> "" ->
      getpath config
        ("compilerOptions" :: "outputSelection" :: "*" :: k :: rest) = ok v ->
      getpath config'
        ("compilerOptions" :: "outputSelection" :: "*" :: k :: rest) = ok v).
Proof.
  intros H. apply prepare_config_ok in H as (config1 & H1 & H2).
  apply set_output_type_ok in H1 as [_ Hother].
  pose proof (descend_inv _ _ _ _ _ H2) as [_ Ho2].
  assert (Hco : forall path w,
            getpath config ("compilerOptions" :: path) = ok w ->
            getpath config1 ("compilerOptions" :: path) = ok w).
  { intros path w. simpl. by rewrite (Hother "compilerOptions"). }
  repeat split.
  - intros Hk1 Hk2. simpl. by rewrite (Ho2 k), (Hother k).
  - intros Hk Hv. apply Hco in Hv. revert Hv.
    eapply kept_descend; [exact H2|]. intros x x' Hx.
    apply merge_options_ok in Hx as (_ & _ & Hkept & _). by apply Hkept.
  - intros Hk Hv. apply Hco in Hv. revert Hv.
    eapply kept_descend; [exact H2|]. intros x x' Hx.
    apply merge_options_ok in Hx as (_ & _ & _ & Hkept & _). by apply Hkept.
  - intros Hk1 Hk2 Hv. apply Hco in Hv. revert Hv.
    eapply kept_descend; [exact H2|]. intros x x' Hx.
    apply merge_options_ok in Hx as (_ & _ & _ & _ & Hkept). by apply Hkept.
Qed.

Lemma prepare_config_keeps_other_settings_witness :
  exists config',
    prepare_config WaffleConfig.example = ok config'
    /\ getpath config' ["compilerOptions"; "optimizer"; "enabled"]
       = ok (JBool true).
Proof.
  destruct (prepare_config WaffleConfig.example) as [e|config'] eqn:Hrun;
    [vm_compute in Hrun; discriminate|].
  exists config'. split; [reflexivity|].
  destruct (prepare_config_keeps_other_settings WaffleConfig.example config'
              "optimizer" ["enabled"] (JBool true) Hrun) as (_ & H & _).
  apply H; [discriminate|reflexivity].
Defined.

(** ** Configurations the rewriting rejects *)

(** [d] is a mapping and what it has under [k], if anything, passes
    [P]. *)
Definition opt_is (P : json -> bool) (d : json) (k : string) : bool :=
  match d with
  | JObj kvs =>
      match Py.assoc k kvs with
      | Some v => P v
      | None => true
      end
  | _ => false
  end.

Definition is_list (v : json) : bool :=
  match v with
  | JArr _ => true
  | _ => false
  end.

(** A configuration the rewriting accepts: a mapping in which
    [compilerOptions], its [outputSelection] and the selection for ["*"]
    are mappings where present, and the selections for ["*"] and [""]
    under it are lists where present. *)
Definition shaped_star (c : json) : bool :=
  opt_is is_list c "*" && opt_is is_list c "".

Definition shaped (config : json) : bool :=
  opt_is (fun options =>
    opt_is (fun selection => opt_is shaped_star selection "*")
      options "outputSelection")
    config "compilerOptions".

(** A level either returns on the values that pass [P], or raises
    [TypeError]. *)
Definition decides (P : json -> bool) (g : json -> result json) : Prop :=
  forall x, if P x then exists x', g x = ok x' else g x = throw TypeError.

Lemma descend_not_mapping d k g dflt :
  match d with JObj _ => False | _ => True end ->
  descend d k g dflt = throw TypeError.
Proof.
  unfold descend, Py.getitem.
  destruct d as [| | |s|l|kvs]; try done; intros _; simpl.
  - by destruct (Py.is_substring k s).
  - by destruct (existsb _ l).
Qed.

Lemma descend_decides P g k dflt :
  decides P g ->
  decides (fun d => opt_is P d k) (fun d => descend d k g dflt).
Proof.
  intros Hg d. destruct d as [| | |s|l|kvs];
    try (by apply descend_not_mapping).
  unfold descend, Py.getitem. simpl.
  destruct (Py.assoc k kvs) as [x|] eqn:Hx; simpl.
  - specialize (Hg x). destruct (P x).
    + destruct Hg as (x' & ->). simpl. by eexists.
    + by rewrite Hg.
  - by eexists.
Qed.

Lemma iadd_decides l : decides is_list (fun v => iadd v l).
Proof. intros [| | | |old|]; simpl; try done. by eexists. Qed.

Lemma opt_is_other P d k v d' k' :
  Py.setitem d (JStr k) v = ok d' -> k' <> k ->
  opt_is P d' k' = opt_is P d k'.
Proof.
  destruct d as [| | | | |kvs]; try discriminate. simpl. intros [= <-] Hne.
  simpl. by rewrite assoc_dict_set_ne.
Qed.

Lemma descend_opt_is_other P d k g dflt d' k' :
  descend d k g dflt = ok d' -> k' <> k ->
  opt_is P d' k' = opt_is P d k'.
Proof.
  unfold descend.
  destruct (Py.contains k d) as [|[]]; try discriminate; simpl.
  - destruct (Py.getitem d k) as [|x]; [discriminate|]. simpl.
    destruct (g x) as [|x']; [discriminate|]. simpl. apply opt_is_other.
  - apply opt_is_other.
Qed.

Lemma merge_star_decides : decides shaped_star merge_star.
Proof.
  intros c. rewrite merge_star_unfold. unfold shaped_star.
  pose proof (descend_decides is_list _ "*" (JArr needed_outputs)
                (iadd_decides needed_outputs) c) as H1.
  simpl in H1. destruct (opt_is is_list c "*"); simpl.
  - destruct H1 as (c1 & H1). rewrite H1. simpl.
    pose proof (descend_decides is_list _ "" (JArr needed_ast)
                  (iadd_decides needed_ast) c1) as H2.
    simpl in H2.
    by rewrite (descend_opt_is_other is_list _ _ _ _ _ "" H1) in H2.
  - by rewrite H1.
Qed.

Lemma set_output_type_decides config :
  match config with
  | JObj _ =>
      exists config1,
        set_output_type config = ok config1
        /\ forall P, opt_is P config1 "compilerOptions"
                     = opt_is P config "compilerOptions"
  | _ => set_output_type config = throw TypeError
  end.
Proof.
  unfold set_output_type, Py.getitem.
  destruct config as [| | |s|l|kvs]; try done; simpl.
  - by destruct (Py.is_substring _ s).
  - by destruct (existsb _ l).
  - destruct (Py.assoc "outputType" kvs) as [v|] eqn:Hv; simpl.
    + destruct (ne_all v); simpl.
      * eexists. split; [done|]. intros P. simpl.
        by rewrite assoc_dict_set_ne.
      * by eexists.
    + eexists. split; [done|]. intros P. simpl.
      by rewrite assoc_dict_set_ne.
Qed.

(** X13. The rewriting of the configuration returns exactly on the
    configurations of the expected shape: a mapping in which
    [compilerOptions], [outputSelection] and the selection for ["*"] are
    mappings where present and the two innermost selections are lists
    where present. On every other value it raises [TypeError]. *)
Theorem prepare_config_error_behaviour (config : json) :
  if shaped config
  then exists config', prepare_config config = ok config'
  else prepare_config config = throw TypeError.
Proof.
  assert (Hopts : decides
            (fun options =>
               opt_is (fun selection => opt_is shaped_star selection "*")
                 options "outputSelection") merge_options).
  { apply (descend_decides _ merge_selection "outputSelection"
             needed_selection).
    apply (descend_decides _ merge_star "*" needed_star).
    apply merge_star_decides. }
  pose proof (set_output_type_decides config) as H1.
  unfold prepare_config.
  destruct config as [| | | | |kvs];
    try (by rewrite H1).
  destruct H1 as (config1 & -> & Hsame). simpl rbind.
  pose proof (descend_decides _ _ "compilerOptions" needed_options Hopts
                config1) as H2.
  simpl in H2. rewrite Hsame in H2. exact H2.
Qed.

(** ** Importing a document, then exporting the session *)

(** [join] undoes [split]. *)
Lemma join_split sep s :
  Py.join (String sep EmptyString) (Py.split_on sep s) = s.
Proof.
  induction s as [|c s IH]; [done|]. simpl.
  pose proof (split_on_nonempty sep s) as Hne.
  destruct (Ascii.eqb_spec c sep) as [->|Hc].
  - destruct (Py.split_on sep s) as [|x xs]; [done|].
    change (Py.join (String sep "") ("" :: x :: xs))
      with (String sep (Py.join (String sep "") (x :: xs))).
    by rewrite IH.
  - destruct (Py.split_on sep s) as [|seg segs]; [done|].
    destruct segs as [|seg' segs].
    + simpl in *. by rewrite IH.
    + change (Py.join (String sep "") (String c seg :: seg' :: segs))
        with (String c (Py.join (String sep "") (seg :: seg' :: segs))).
      by rewrite IH.
Qed.

Lemma parse_unit_inv uj cv ds a :
  parse_unit uj = Some (cv, ds, a) ->
  exists cs,
    parse_compiler uj = ok cv
    /\ rbind (Py.getitem uj "contracts") Py.items = ok cs
    /\ contracts_of uj = cs
    /\ parse_all cs = Some ds
    /\ Py.getitem uj "asts" = ok a.
Proof.
  unfold parse_unit, contracts_of.
  destruct (parse_compiler uj) as [|cv']; [done|].
  destruct (rbind _ Py.items) as [|cs]; [done|].
  destruct (Py.getitem uj "asts") as [|a']; [done|].
  destruct (parse_all cs) as [ds'|] eqn:Hds; [|done].
  intros [= -> -> ->]. by exists cs.
Qed.

Lemma exported_keys {A} (R : A -> json -> Prop) (key : A -> string) l
  (kvs : list (string * json)) :
  Forall2 (fun x kv => kv.1 = key x /\ R x kv.2) l kvs ->
  kvs.*1 = key <$> l.
Proof.
  induction 1 as [|x [k v] l kvs [Hk _] _ IH]; [done|].
  rewrite !fmap_cons. simpl in *. by rewrite IH, Hk.
Qed.

(** What the export of a reloaded session keeps of a contract entry of
    the document: the ABI, the bytecodes and the source maps, the four
    filename values, the documentation with an empty mapping for a
    missing one, and a true dependency flag. *)
Definition reexported_contract (c c' : json) : Prop :=
  (forall k, k ∈ ["abi"; "bin"; "bin-runtime"; "srcmap"; "srcmap-runtime"] ->
     Py.getitem c' k = Py.getitem c k)
  /\ (forall view, view ∈ ["absolute"; "relative"; "short"; "used"] ->
        Py.getitem2 c' "filenames" view = Py.getitem2 c "filenames" view)
  /\ Py.getitem c' "userdoc" = Py.get c "userdoc" (JObj [])
  /\ Py.getitem c' "devdoc" = Py.get c "devdoc" (JObj [])
  /\ (forall flag, Py.getitem c "is_dependency" = ok flag ->
        Py.truthy flag = true ->
        Py.getitem c' "is_dependency" = ok (JBool true)).

(** What it keeps of a unit entry: the compiler record, the ASTs and
    every contract. *)
Definition reexported_unit (uj uj' : json) : Prop :=
  (forall f, f ∈ ["compiler"; "version"; "optimized"] ->
     Py.getitem2 uj' "compiler" f = Py.getitem2 uj "compiler" f)
  /\ Py.getitem uj' "asts" = Py.getitem uj "asts"
  /\ forall n c, (n, c) ∈ contracts_of uj ->
       exists c', Py.getitem2 uj' "contracts" n = ok c'
                  /\ reexported_contract c c'.

Lemma split_source (x : result json) l :
  rbind x (fun m => Py.split m ";") = ok l ->
  exists m, x = ok (JStr m) /\ l = Py.split_on ";" m.
Proof.
  destruct x as [|[| | |m| |]]; try discriminate. simpl. intros [= <-].
  by exists m.
Qed.

Lemma reexported_contract_entry u n c d libs b :
  parse_contract c = ok d ->
  holds u n d ->
  (Py.truthy (d_is_dependency d) = true -> b = true) ->
  reexported_contract c
    (contract_entry u n (d_filename d) libs b (d_natspec d)).
Proof.
  intros Hd (Hf & Ha & Hb & Hbr & Hs & Hsr & _ & Hdoc) Hflag.
  apply parse_contract_fields in Hd
    as (Hfa & Hfr & Hfs & Hfu & Habi & Hbin & Hbinr & Hsm & Hsmr & _ & Hud
        & Hdd & Hdep).
  apply split_source in Hsm as (m & Hm & Hsplit).
  apply split_source in Hsmr as (m' & Hm' & Hsplit').
  assert (Hji : Py.join ";" (Unit.srcmap_init u n) = m).
  { unfold Unit.srcmap_init. rewrite Hs, Hsplit. apply join_split. }
  assert (Hjr : Py.join ";" (Unit.srcmap_runtime u n) = m').
  { unfold Unit.srcmap_runtime. rewrite Hsr, Hsplit'. apply join_split. }
  unfold reexported_contract, contract_entry. rewrite Hji, Hjr.
  unfold Unit.abi, Unit.bytecode_init, Unit.bytecode_runtime.
  rewrite Ha, Hb, Hbr. simpl default.
  split; [|split; [|split; [|split]]].
  - intros k Hk.
    repeat (apply elem_of_cons in Hk as [->|Hk]);
      [| | | | |by apply elem_of_nil in Hk]; symmetry; assumption.
  - intros view Hview.
    repeat (apply elem_of_cons in Hview as [->|Hview]);
      [| | | |by apply elem_of_nil in Hview]; symmetry; assumption.
  - by rewrite Hud.
  - by rewrite Hdd.
  - intros flag Hflag' Ht. rewrite Hdep in Hflag'. injection Hflag' as <-.
    by rewrite (Hflag Ht).
Qed.

Lemma compile_ok_inv T platforms doc s s' :
  Standard.compile T platforms doc s = (inr tt, s') ->
  exists ty ut n s1,
    Standard.load_from_compile doc s = (inr (ty, ut), s1)
    /\ Py.as_int ty = Some n
    /\ s' = Session.set_platform
              (StandardInstance (Standard.resolve T platforms n) ut) s1.
Proof.
  unfold Standard.compile. intros H.
  apply bind_ok_inv in H as ([ty ut] & s1 & Hload & H).
  apply bind_ok_inv in H as (n & s2 & Hn & H).
  apply lift_ok_inv in Hn as [Hn ->]. apply modify_ok_inv in H.
  exists ty, ut, n, s1. split; [exact Hload|]. split; [|exact H].
  unfold Standard.PlatformType in Hn.
  destruct (Py.as_int ty) as [n'|]; [|discriminate].
  destruct (bool_decide (n' ∈ members T)); [|discriminate].
  by injection Hn as ->.
Qed.

(** X14. Take a document whose unit keys are distinct and whose contract
    names are distinct within each unit, as in every parsed JSON
    document. When [Standard.compile] returns on it and the export of
    the session it has built returns, the exported document has the
    [unit_tests] of the first one (an empty list when it had none), the
    string of its [working_dir], as [type] the type of the descriptor
    the re-load resolved (the document's own type when the table of
    platforms has it), and, under the key of every unit of the document
    (a legacy document is the unit [legacy]), an entry with the same
    compiler record and ASTs and, for every contract, the same ABI,
    bytecodes, source-map strings and filename values, the
    documentation, and a true [is_dependency] where the document had a
    true one. *)
Theorem reexport_of_reloaded_document
  (T : PlatformTypes) (platforms : list PlatformClass)
  (py_str : json -> string) (doc doc' : json) (s s' s'' : CryticCompile) :
  NoDup (document_units doc).*1 ->
  (forall k uj, (k, uj) ∈ document_units doc ->
     NoDup (contracts_of uj).*1) ->
  Standard.compile T platforms doc s = (inr tt, s') ->
  Standard.generate_standard_export T py_str s' = (inr doc', s'') ->
  Py.getitem doc' "unit_tests" = Py.get doc "unit_tests" (JArr [])
  /\ (exists wd, Py.getitem doc "working_dir" = ok wd
                 /\ Py.getitem doc' "working_dir" = ok (JStr (py_str wd)))
  /\ (exists ty n,
        Py.getitem doc "type" = ok ty /\ Py.as_int ty = Some n
        /\ Py.getitem doc' "type"
           = ok (JNum (TYPE (Standard.resolve T platforms n)))
        /\ ((exists p, p ∈ platforms /\ TYPE p = n) ->
            TYPE (Standard.resolve T platforms n) = n))
  /\ forall k uj, (k, uj) ∈ document_units doc ->
       exists uj', Py.getitem2 doc' "compilation_units" k = ok uj'
                   /\ reexported_unit uj uj'.
Proof.
  intros Hkeys Hnames Hcompile Hexport.
  apply compile_ok_inv in Hcompile as (ty & ut & n & s1 & Hload & Hn & ->).
  pose proof (import_units _ _ _ _ Hload) as [Hparsed Hunits].
  destruct (import_dependencies _ _ _ _ Hload) as (dsall & Hdsall & Hadd).
  apply add_views_all_ok in Hadd as (Hflagged & _).
  apply load_from_compile_ok in Hload
    as (pkg & has & s0 & wd & ty' & ut' & Hpkg & Hhas & _ & _ & Hwd & Hty & Hut
        & [= <- <-] & Hs1).
  apply generate_standard_export_inv in Hexport as (us' & -> & Hus').
  assert (Hwd1 : working_dir s1 = wd) by by rewrite Hs1.
  split; [by rewrite Hut|].
  split.
  { exists wd. split; [exact Hwd|]. simpl working_dir. by rewrite Hwd1. }
  split.
  { exists ty, n. split; [exact Hty|]. split; [exact Hn|].
    split; [reflexivity|]. intros (p & Hp & Hpn).
    destruct (resolve_cases T platforms n) as [[_ Heq]|[_ Hnone]];
      [exact Heq|]. by destruct (Hnone p Hp). }
  intros k uj Hin.
  destruct (Hparsed k uj Hin) as (cv & ds & a & Hp).
  assert (Hu : compilation_units s1 !! k = Some (imported_unit cv ds a)).
  { rewrite Hunits, lookup_write_units.
    by rewrite (last_write_unit_writes _ _ _ _ _ _ Hparsed Hkeys Hin Hp). }
  set (u := imported_unit cv ds a) in *.
  simpl compilation_units in Hus'.
  destruct (Forall2_elem_l _ _ _ (k, u) Hus') as ([k' uj'] & Hin' & Hk' & Heu);
    [by apply elem_of_map_to_list|].
  simpl in Hk', Heu. subst k'.
  assert (Hassoc : Py.assoc k us' = Some uj').
  { apply assoc_of_elem; [|exact Hin'].
    rewrite (exported_keys (fun ku v => exported_unit _ ku.2 v) fst _ _ Hus'). apply NoDup_fst_map_to_list. }
  exists uj'. split.
  { change (Py.getitem2 _ "compilation_units" k)
      with (Py.getitem (JObj us') k).
    unfold Py.getitem. simpl. by rewrite Hassoc. }
  destruct Heu as (cs' & -> & Hcs').
  apply parse_unit_inv in Hp as (cs & Hcv & Hcs & Hco & Hds & Ha).
  split; [|split].
  - apply parse_compiler_ok in Hcv as (vc & vv & vo & Hc1 & Hc2 & Hc3 & ->).
    intros f Hf. unfold compiler_record.
    rewrite (imported_unit_compiler_version _ ds a : compiler_version u = _).
    repeat (apply elem_of_cons in Hf as [->|Hf]);
      [| | |by apply elem_of_nil in Hf]; symmetry; assumption.
  - by rewrite Ha.
  - intros c0 c Hc. rewrite Hco in Hc.
    destruct (parse_all_elem _ _ _ _ Hds Hc) as (d & Hd & Hnd).
    assert (Hndk : NoDup ds.*1).
    { rewrite (parse_all_keys _ _ Hds), <- Hco. by apply (Hnames k). }
    pose proof (imported_unit_holds cv ds a _ _ Hndk Hnd) as Hholds.
    fold u in Hholds.
    assert (Hname : c0 ∈ contracts_names u).
    { unfold u. rewrite imported_unit_names. apply elem_of_list_to_set.
      apply list_elem_of_fmap. by exists (c0, d). }
    destruct (Forall2_elem_l _ _ _ c0 Hcs') as ([n' c'] & Hinc & Hn' & Hec);
      [by apply elem_of_elements|].
    simpl in Hn', Hec. subst n'.
    assert (Hassoc' : Py.assoc c0 cs' = Some c').
    { apply assoc_of_elem; [|exact Hinc].
      rewrite (exported_keys (exported_contract _ u) (fun n => n) _ _ Hcs'),
        list_fmap_id.
      apply NoDup_elements. }
    exists c'. split.
    { change (Py.getitem2 _ "contracts" c0) with (Py.getitem (JObj cs') c0).
      unfold Py.getitem. simpl. by rewrite Hassoc'. }
    destruct Hec as (f & libs & b & doc0 & Hf & Hdoc & Hh & -> & Hb).
    destruct Hholds as (Hf' & Hrest). pose proof Hrest as (_ & _ & _ & _ & _
                                                           & _ & Hdoc').
    rewrite Hf in Hf'. injection Hf' as ->.
    rewrite Hdoc in Hdoc'. injection Hdoc' as ->.
    apply reexported_contract_entry; [exact Hd|by split|].
    intros Ht. rewrite (Hb I). unfold known_dependency. simpl dependencies.
    rewrite (Hflagged c0 d); [done| |exact Ht|left].
    destruct (parse_all_elem _ _ _ _ Hdsall
                (document_units_contracts _ _ _ _ _ Hin
                   ltac:(rewrite Hco; exact Hc))) as (d' & Hd' & Hnd').
    rewrite Hd in Hd'. by injection Hd' as <-.
Qed.

Lemma reexport_of_reloaded_document_witness :
  exists doc' s'',
    Standard.generate_standard_export RegistryExample.types
      WaffleExample.py_str
      (Standard.compile RegistryExample.types RegistryExample.platforms
         DocExample.current DocExample.session).2 = (inr doc', s'')
    /\ Py.getitem doc' "unit_tests" = ok (JArr [JStr "dapp test"])
    /\ exists uj',
         Py.getitem2 doc' "compilation_units" "/a" = ok uj'
         /\ Py.getitem2 uj' "compiler" "version" = ok (JStr "0.6.7")
         /\ exists c', Py.getitem2 uj' "contracts" "Token" = ok c'
                       /\ Py.getitem c' "srcmap" = ok (JStr "0:9:0;;1:2:0").
Proof.
  pose (uj := JObj [("compiler", DocExample.compiler_json);
                    ("asts", DocExample.asts_json);
                    ("contracts", DocExample.contracts)]).
  assert (Hdu : document_units DocExample.current = [("/a", uj)])
    by reflexivity.
  destruct (Standard.generate_standard_export RegistryExample.types
              WaffleExample.py_str
              (Standard.compile RegistryExample.types
                 RegistryExample.platforms DocExample.current
                 DocExample.session).2) as [[e|doc'] s''] eqn:Hexp;
    [vm_compute in Hexp; discriminate|].
  exists doc', s''. split; [reflexivity|].
  destruct (reexport_of_reloaded_document RegistryExample.types
              RegistryExample.platforms WaffleExample.py_str
              DocExample.current doc' DocExample.session
              (Standard.compile RegistryExample.types
                 RegistryExample.platforms DocExample.current
                 DocExample.session).2 s'')
    as (Hut & _ & _ & Hunits).
  - rewrite Hdu. apply (bool_decide_unpack _). vm_compute. exact I.
  - intros k uj0 Hin. rewrite Hdu in Hin.
    apply list_elem_of_singleton in Hin. injection Hin as -> ->.
    apply (bool_decide_unpack _). vm_compute. exact I.
  - vm_compute. reflexivity.
  - exact Hexp.
  - split; [rewrite Hut; reflexivity|].
    destruct (Hunits "/a" uj) as (uj' & Huj' & Hcomp & _ & Hcontracts).
    { rewrite Hdu. left. }
    exists uj'. split; [exact Huj'|]. split.
    { rewrite (Hcomp "version") by (right; left). reflexivity. }
    destruct (Hcontracts "Token"
                (DocExample.contract DocExample.token_filenames false))
      as (c' & Hc' & Hfields & _).
    { right. left. }
    exists c'. split; [exact Hc'|].
    rewrite (Hfields "srcmap") by (right; right; right; left). reflexivity.
Defined.

(** ** What [Dapp.compile] does with the result of [_get_version] *)

Definition forget_cv (u : CompilationUnit) : CompilationUnit :=
  {| asts := asts u; compiler_version := None;
     contracts_names := contracts_names u;
     contracts_filenames := contracts_filenames u; abis := abis u;
     bytecodes_init := bytecodes_init u;
     bytecodes_runtime := bytecodes_runtime u;
     srcmaps_init := srcmaps_init u; srcmaps_runtime := srcmaps_runtime u;
     libraries := libraries u; natspec := natspec u |}.

(** Two sessions that differ at most in the compiler version of the unit
    under [key]. *)
Definition same_but_cv (key : string) (s1 s2 : CryticCompile) : Prop :=
  exists m u1 u2,
    compilation_units s1 = <[key:=u1]> m
    /\ compilation_units s2 = <[key:=u2]> m
    /\ forget_cv u1 = forget_cv u2
    /\ filenames s1 = filenames s2
    /\ dependencies s1 = dependencies s2
    /\ package s1 = package s2
    /\ package_name s1 = package_name s2
    /\ working_dir s1 = working_dir s2
    /\ platform s1 = platform s2.

(** Computations that, from such sessions, end with the same outcome in
    such sessions. *)
Definition cv_blind {A} (key : string) (m1 m2 : M A) : Prop :=
  forall s1 s2, same_but_cv key s1 s2 ->
    (m1 s1).1 = (m2 s2).1 /\ same_but_cv key (m1 s1).2 (m2 s2).2.

(** Computations that, from such sessions, end with the same outcome
    and, when they return, in the same session. *)
Definition cv_closing {A} (key : string) (m1 m2 : M A) : Prop :=
  forall s1 s2, same_but_cv key s1 s2 ->
    (m1 s1).1 = (m2 s2).1
    /\ forall a, (m1 s1).1 = inr a -> (m1 s1).2 = (m2 s2).2.

Section CvBlind.
Context (key : string).

Lemma cv_blind_lift {A} (r : result A) : cv_blind key (lift r) (lift r).
Proof. by intros s1 s2 H. Qed.

Lemma cv_blind_ret {A} (a : A) : cv_blind key (ret a) (ret a).
Proof. by intros s1 s2 H. Qed.

Lemma cv_blind_bind {A B} (m1 m2 : M A) (k1 k2 : A -> M B) :
  cv_blind key m1 m2 -> (forall a, cv_blind key (k1 a) (k2 a)) ->
  cv_blind key (bind m1 k1) (bind m2 k2).
Proof.
  intros Hm Hk s1 s2 H. destruct (Hm s1 s2 H) as [Hr Hs]. unfold bind.
  destruct (m1 s1) as [[e1|a1] s1'], (m2 s2) as [[e2|a2] s2']; simpl in *;
    try discriminate.
  - injection Hr as <-. by split.
  - injection Hr as <-. by apply Hk.
Qed.

Lemma cv_closing_bind {A B} (m1 m2 : M A) (k1 k2 : A -> M B) :
  cv_blind key m1 m2 -> (forall a, cv_closing key (k1 a) (k2 a)) ->
  cv_closing key (bind m1 k1) (bind m2 k2).
Proof.
  intros Hm Hk s1 s2 H. destruct (Hm s1 s2 H) as [Hr Hs]. unfold bind.
  destruct (m1 s1) as [[e1|a1] s1'], (m2 s2) as [[e2|a2] s2']; simpl in *;
    try discriminate.
  - injection Hr as <-. by split.
  - injection Hr as <-. by apply Hk.
Qed.

Lemma cv_blind_for_each {A} (l : list A) (b1 b2 : A -> M unit) :
  (forall x, cv_blind key (b1 x) (b2 x)) ->
  cv_blind key (for_each l b1) (for_each l b2).
Proof.
  intros Hb. induction l as [|x l IH]; simpl.
  - apply cv_blind_ret.
  - apply cv_blind_bind; [apply Hb|]. by intros _.
Qed.

Lemma cv_blind_for_fold {A B} (l : list A) (b1 b2 : B -> A -> M B) :
  (forall acc x, cv_blind key (b1 acc x) (b2 acc x)) ->
  forall acc, cv_blind key (for_fold l acc b1) (for_fold l acc b2).
Proof.
  intros Hb. induction l as [|x l IH]; intros acc; simpl.
  - apply cv_blind_ret.
  - apply cv_blind_bind; [apply Hb|]. intros acc'. apply IH.
Qed.

Lemma cv_blind_on_unit f :
  (forall u1 u2, forget_cv u1 = forget_cv u2 ->
                 forget_cv (f u1) = forget_cv (f u2)) ->
  cv_blind key (on_unit key f) (on_unit key f).
Proof.
  intros Hf s1 s2 (m & u1 & u2 & H1 & H2 & Hu & Hrest).
  split; [done|]. unfold on_unit, modify. cbn [fst snd].
  exists m, (f u1), (f u2). norm_session. rewrite H1, H2, !alter_insert_eq.
  split; [done|]. split; [done|]. split; [by apply Hf|exact Hrest].
Qed.

Lemma cv_blind_filenames_add f :
  cv_blind key (filenames_add f) (filenames_add f).
Proof.
  intros s1 s2 (m & u1 & u2 & H1 & H2 & Hu & Hf & Hrest).
  split; [done|]. unfold filenames_add, modify. cbn [fst snd].
  exists m, u1, u2. norm_session. rewrite Hf. done.
Qed.

Lemma cv_blind_asts_setitem k v :
  cv_blind key (asts_setitem key k v) (asts_setitem key k v).
Proof.
  intros s1 s2 H. pose proof H as (m & u1 & u2 & H1 & H2 & Hu & Hrest).
  unfold asts_setitem. rewrite H1, H2, !lookup_insert_eq.
  assert (Ha : asts u1 = asts u2) by (by injection Hu).
  rewrite Ha. destruct (Py.setitem (asts u2) k v) as [e|a]; [by split|].
  split; [done|]. cbn [fst snd].
  exists m, (Unit.set_asts a u1), (Unit.set_asts a u2).
  norm_session. rewrite ?H1, ?H2, !insert_insert_eq.
  split; [done|]. split; [done|]. split; [|exact Hrest].
  destruct u1, u2. by simplify_eq/=.
Qed.

Lemma cv_closing_set_compiler_version cv :
  cv_closing key (on_unit key (Unit.set_compiler_version cv))
    (on_unit key (Unit.set_compiler_version cv)).
Proof.
  intros s1 s2 (m & u1 & u2 & H1 & H2 & Hu & Hf & Hd & Hp & Hpn & Hw & Hpl).
  split; [done|]. intros _ _. unfold on_unit, modify. cbn [fst snd].
  destruct s1, s2. unfold Session.set_units. simpl in *. subst.
  rewrite !alter_insert_eq.
  destruct u1, u2. by simplify_eq/=.
Qed.

End CvBlind.

Ltac solve_cv_blind :=
  repeat first
    [ apply cv_blind_bind; [|intros ?]
    | apply cv_blind_lift
    | apply cv_blind_ret
    | apply cv_blind_filenames_add
    | apply cv_blind_asts_setitem
    | apply cv_blind_on_unit;
      intros [] []; simpl; intros [=]; by subst
    | match goal with
      | |- cv_blind _ (let '(_, _) := ?x in _) _ => destruct x
      end ].

(** X15. [Dapp.compile] does not depend on the compiler version
    [_get_version] has found: from a given session it ends with the same
    value or exception whatever that version is, and when it returns it
    leaves the same session. The version recorded in the unit is the one
    taken from the build output. *)
Theorem Dapp_compile_ignores_get_version
  (json_loads : string -> result json)
  (findall_version : string -> list string)
  (target : string) (got1 got2 : CompilerVersion) (targets_json : json)
  (s : CryticCompile) :
  (Dapp.compile json_loads findall_version target got1 targets_json s).1
  = (Dapp.compile json_loads findall_version target got2 targets_json s).1
  /\ ((Dapp.compile json_loads findall_version target got1 targets_json s).1
      = inr tt ->
      (Dapp.compile json_loads findall_version target got1 targets_json s).2
      = (Dapp.compile json_loads findall_version target got2 targets_json s).2).
Proof.
  unfold Dapp.compile. rewrite !bind_new_unit, !bind_on_unit.
  match goal with
  | |- (?K ?s1).1 = (?K ?s2).1 /\ _ =>
      assert (HK : cv_closing target K K);
        [|destruct (HK s1 s2) as [Hr Hs]; [|split; [exact Hr|apply Hs]]]
  end.
  - apply cv_closing_bind; [apply cv_blind_lift|]. intros has.
    apply cv_closing_bind; [apply cv_blind_lift|]. intros version.
    apply cv_closing_bind; [apply cv_blind_lift|]. intros files.
    apply cv_closing_bind.
    { apply cv_blind_for_fold. intros locals [file infos].
      apply cv_blind_bind; [apply cv_blind_lift|]. intros infos'.
      apply cv_blind_for_fold. intros [o v] [name info].
      unfold Dapp.compile_contract. solve_cv_blind. }
    intros locals.
    apply cv_closing_bind; [apply cv_blind_lift|]. intros sources.
    apply cv_closing_bind.
    { apply cv_blind_for_each. intros [path info]. solve_cv_blind. }
    intros _. apply cv_closing_set_compiler_version.
  - norm_session. rewrite !alter_insert_eq.
    exists (compilation_units s), (Unit.set_compiler_version got1 empty_unit),
      (Unit.set_compiler_version got2 empty_unit).
    simpl. done.
Qed.

(** X16. When the build output has a [version] string in which the
    version pattern finds nothing, [Dapp.compile] raises [IndexError]
    before it reads any contract, and leaves in the session the unit it
    has created, with no contract and with the compiler version
    [_get_version] has found. *)
Theorem Dapp_compile_unmatched_version
  (json_loads : string -> result json)
  (findall_version : string -> list string)
  (target : string) (got_version : CompilerVersion) (targets_json : json)
  (s : CryticCompile) (v : string) :
  Py.getitem targets_json "version" = ok (JStr v) ->
  findall_version v = [] ->
  Dapp.compile json_loads findall_version target got_version targets_json s
  = (inl IndexError,
     Session.set_units
       (<[target:=Unit.set_compiler_version got_version empty_unit]>
          (compilation_units s)) s).
Proof.
  intros Hv Hnone. unfold Dapp.compile.
  rewrite bind_new_unit, bind_on_unit. norm_session.
  rewrite alter_insert_eq.
  assert (Hc : Py.contains "version" targets_json = inr true).
  { destruct targets_json as [| | |x|l|kvs]; try discriminate;
      unfold Py.getitem in Hv; simpl in Hv; try discriminate.
    simpl. destruct (Py.assoc "version" kvs); [|discriminate].
    rewrite bool_decide_eq_true_2; [done|by eexists]. }
  rewrite (bind_lift_ok _ _ _ _ Hc). apply bind_err.
  rewrite Hv. simpl. by rewrite Hnone.
Qed.

Lemma Dapp_compile_unmatched_version_witness :
  (Dapp.compile DappExample.json_loads DappExample.findall_version "."
     DappExample.got_version
     (JObj [("version", JStr "nightly"); ("contracts", JObj [])])
     (new_session (DappInstance ∅))).1 = inl IndexError.
Proof.
  by rewrite (Dapp_compile_unmatched_version DappExample.json_loads
                DappExample.findall_version "." DappExample.got_version
                (JObj [("version", JStr "nightly"); ("contracts", JObj [])])
                (new_session (DappInstance ∅)) "nightly" eq_refl eq_refl).
Defined.

(** ** Where the export is written, and what [Standard] recognises *)

Module StandardFiles.

(** [s.startswith("/")] *)
Definition starts_with_slash (s : string) : bool :=
  match s with
  | String c _ => Ascii.eqb c "/"
  | EmptyString => false
  end.

(** [s.endswith(suffix)]: [s] or one of its tails is [suffix]. *)
Fixpoint endswith (s suffix : string) : bool :=
  String.eqb s suffix
  || match s with
     | String _ rest => endswith rest suffix
     | EmptyString => false
     end.

(** [os.path.join(a, b)] on a POSIX system. *)
Definition os_path_join (a b : string) : string :=
  if starts_with_slash b then b
  else if String.eqb a "" || endswith a "/" then String.append a b
  else String.append a (String "/" b).

(** [Standard.is_supported(target, standard_ignore=...)] (lines 92-105). *)
Definition is_supported (target : string) (standard_ignore : json)
  : result bool :=
  if Py.truthy standard_ignore then ok false
  else match Pathlib.parts target with
       | [] => ok false
       | parts =>
           rbind (Py.index parts (-1))
             (fun last => ok (endswith last "_export.json"))
       end.

(** The path [export_to_standard] writes the document to (lines 33-43),
    for the session's [target], whether it is a directory, and the
    [export_dir] option. *)
Definition export_path (target : string) (target_is_dir : bool)
  (export_dir : string) : result string :=
  rbind (if target_is_dir then ok "contracts"%string
         else Py.index (Pathlib.parts target) (-1))
    (fun target => ok (os_path_join export_dir (String.append target ".json"))).

End StandardFiles.

Import StandardFiles.

Lemma append_cons x (a b : string) :
  String.append (String x a) b = String x (String.append a b).
Proof. reflexivity. Qed.

Lemma append_nil (b : string) : String.append EmptyString b = b.
Proof. reflexivity. Qed.

Lemma append_assoc (a b c : string) :
  String.append (String.append a b) c = String.append a (String.append b c).
Proof.
  induction a as [|x a IH]; [done|]. rewrite !append_cons. by f_equal.
Qed.

Lemma append_length (a b : string) :
  String.length (String.append a b) = (String.length a + String.length b)%nat.
Proof.
  induction a as [|x a IH]; [done|]. rewrite append_cons. simpl. by f_equal.
Qed.

Lemma append_inv_tail (a b c : string) :
  String.append a c = String.append b c -> a = b.
Proof.
  revert b. induction a as [|x a IH]; intros [|y b];
    rewrite ?append_cons, ?append_nil; try done.
  - intros H. apply (f_equal String.length) in H. simpl in H.
    rewrite append_length in H. lia.
  - intros H. apply (f_equal String.length) in H. simpl in H.
    rewrite append_length in H. lia.
  - intros [= -> H]. by rewrite (IH _ H).
Qed.

Lemma endswith_append p suffix :
  endswith (String.append p suffix) suffix = true.
Proof.
  induction p as [|x p IH]; rewrite ?append_cons, ?append_nil.
  - destruct suffix; simpl; rewrite ?String.eqb_refl; done.
  - simpl. rewrite IH. apply orb_true_r.
Qed.

Lemma endswith_inv s suffix :
  endswith s suffix = true -> exists p, s = String.append p suffix.
Proof.
  induction s as [|x s IH]; simpl.
  - rewrite orb_false_r. intros H. apply String.eqb_eq in H as <-.
    by exists EmptyString.
  - intros H. apply orb_true_iff in H as [H|H].
    + apply String.eqb_eq in H as <-. by exists EmptyString.
    + destruct (IH H) as (p & ->). by exists (String x p).
Qed.

Lemma endswith_append_both x y z :
  endswith (String.append x z) (String.append y z) = endswith x y.
Proof.
  destruct (endswith x y) eqn:Hxy.
  - apply endswith_inv in Hxy as (p & ->). rewrite append_assoc.
    apply endswith_append.
  - destruct (endswith (String.append x z) (String.append y z)) eqn:H;
      [|done].
    apply endswith_inv in H as (p & H). rewrite <- append_assoc in H.
    apply append_inv_tail in H as ->. by rewrite endswith_append in Hxy.
Qed.

Lemma split_on_append sep a b :
  Py.split_on sep (String.append a (String sep b))
  = Py.split_on sep a ++ Py.split_on sep b.
Proof.
  induction a as [|c a IH]; rewrite ?append_cons, ?append_nil; simpl.
  - by rewrite Ascii.eqb_refl.
  - rewrite IH. destruct (Ascii.eqb c sep); [done|].
    pose proof (split_on_nonempty sep a) as Hne.
    by destruct (Py.split_on sep a).
Qed.

Lemma has_char_append c a b :
  has_char c (String.append a b) = has_char c a || has_char c b.
Proof.
  induction a as [|x a IH]; rewrite ?append_cons, ?append_nil; simpl;
    [done|].
  by rewrite IH, orb_assoc.
Qed.

Lemma is_component_iff c :
  Pathlib.is_component c = true <-> c <> EmptyString /\ c <> "."%string.
Proof.
  unfold Pathlib.is_component.
  rewrite andb_true_iff, !negb_true_iff, !String.eqb_neq. done.
Qed.

(** A part of a path is a root, or a component without slash. *)
Lemma parts_elem target name :
  name ∈ Pathlib.parts target ->
  (name = "/" \/ name = "//")%string
  \/ (Pathlib.is_component name = true /\ has_char "/" name = false).
Proof.
  unfold Pathlib.parts, Pathlib.root_of. intros H.
  apply elem_of_app in H as [H|H].
  - left. destruct (Pathlib.leading_slashes target) as [|[|[|n]]];
      [by apply elem_of_nil in H| | |];
      apply list_elem_of_singleton in H; auto.
  - right. apply list_elem_of_In, filter_In in H as [Hin Hc].
    split; [done|].
    pose proof (split_on_no_sep "/" target) as Hall.
    by apply (proj1 (Forall_forall _ _) Hall), list_elem_of_In.
Qed.

Lemma index_last_elem {A} (l : list A) x :
  Py.index l (-1) = ok x -> x ∈ l.
Proof.
  unfold Py.index. simpl.
  destruct (Z.ltb _ 0); [discriminate|].
  destruct (l !! _) as [y|] eqn:Hy; [|discriminate].
  intros [= <-]. by eapply list_elem_of_lookup_2.
Qed.

Lemma index_last_app {A} (l : list A) x :
  Py.index (l ++ [x]) (-1) = ok x.
Proof.
  unfold Py.index. rewrite length_app. simpl.
  replace (-1 + Z.of_nat (List.length l + 1))
    with (Z.of_nat (List.length l)) by lia.
  destruct (Z.ltb_spec (Z.of_nat (List.length l)) 0) as [?|_]; [lia|].
  rewrite Nat2Z.id, lookup_app_r, Nat.sub_diag by done. done.
Qed.

(** The last part of a path that ends with a component [b]. *)
Lemma is_supported_file a b :
  Pathlib.is_component b = true -> has_char "/" b = false ->
  is_supported (os_path_join a b) (JBool false)
  = ok (endswith b "_export.json").
Proof.
  intros Hc Hs.
  assert (Hb : starts_with_slash b = false).
  { destruct b as [|x b]; [done|]. simpl in *.
    by apply orb_false_iff in Hs as [-> _]. }
  assert (Hsplit : Py.split_on "/" b = [b]) by by apply split_on_no_sep_id.
  assert (Hparts : exists l, Pathlib.parts (os_path_join a b) = l ++ [b]).
  { unfold os_path_join. rewrite Hb.
    assert (Hslash : forall a',
      exists l, Pathlib.parts (String.append a' (String "/" b)) = l ++ [b]).
    { intros a'. unfold Pathlib.parts. rewrite split_on_append, Hsplit.
      rewrite List.filter_app. simpl. rewrite Hc.
      eexists. by rewrite app_assoc. }
    destruct (String.eqb_spec a "") as [->|Hne]; simpl.
    - exists []. rewrite append_nil.
      unfold Pathlib.parts, Pathlib.root_of. rewrite Hsplit.
      simpl. rewrite Hc.
      destruct b as [|x b]; [done|]. simpl in *.
      by apply orb_false_iff in Hs as [-> _].
    - destruct (endswith a "/") eqn:He; [|apply Hslash].
      apply endswith_inv in He as (a' & ->). rewrite append_assoc.
      apply Hslash. }
  destruct Hparts as (l & Hl). unfold is_supported. simpl. rewrite Hl.
  destruct (l ++ [b]) as [|p ps] eqn:E; [by destruct l|].
  by rewrite <- E, index_last_app.
Qed.

Lemma component_json c :
  Pathlib.is_component c = true -> has_char "/" c = false ->
  Pathlib.is_component (String.append c ".json") = true
  /\ has_char "/" (String.append c ".json") = false.
Proof.
  intros Hc Hs. split; [|by rewrite has_char_append, Hs].
  apply is_component_iff in Hc as [Hne _]. apply is_component_iff.
  destruct c as [|x c]; [done|]. rewrite append_cons. split; [done|].
  intros [= _ H]. destruct c; discriminate.
Qed.

(** X17. The file [export_to_standard] writes is named after the
    session's target: [contracts.json] for a directory, and otherwise
    the last part of the target followed by [.json] (with no part there
    is an [IndexError]). [Standard.is_supported] recognises a file whose
    last part ends with [_export.json]: it does not recognise the export
    of a directory, and it recognises the export of a file exactly when
    the last part of the target ends with [_export]. *)
Theorem exported_file_recognised_iff (target export_dir : string) :
  (exists path,
      export_path target true export_dir = ok path
      /\ is_supported path (JBool false) = ok false)
  /\ (Pathlib.parts target = [] ->
      export_path target false export_dir = throw IndexError)
  /\ forall name,
       Py.index (Pathlib.parts target) (-1) = ok name ->
       exists path,
         export_path target false export_dir = ok path
         /\ is_supported path (JBool false) = ok (endswith name "_export").
Proof.
  split; [|split].
  - eexists. split; [reflexivity|].
    exact (is_supported_file export_dir "contracts.json" eq_refl eq_refl).
  - intros Hnone. unfold export_path. by rewrite Hnone.
  - intros name Hname. unfold export_path. rewrite Hname. simpl.
    eexists. split; [reflexivity|].
    destruct (parts_elem target name (index_last_elem _ _ Hname))
      as [[-> | ->]|[Hc Hs]]; [done|done|].
    destruct (component_json name Hc Hs) as [Hc' Hs'].
    rewrite (is_supported_file export_dir _ Hc' Hs').
    f_equal. apply (endswith_append_both name "_export" ".json").
Qed.
